(** * click2label: the labelling session of [click2label.py]

    A shallow embedding of the class [ClickLabel] and of its inner class
    [SingleImage].  The Python object is a record, its methods are functions
    on that record, exceptions are explicit results, and everything outside
    the interpreter (the files, the directory listing, matplotlib's colour
    table) is gathered in a record [World] that the methods read and write.

    Conventions of the embedding.
    - A [str] is a [string]; its order is the order of Python on [str]
      (by code point, which is [String.compare] on the bytes), and its
      characters are its bytes, as for text in ASCII.
    - Cells of a table are text, as the paths, the labels and the
      timestamps of this program are, and the text [None] is a label like
      another.  The boolean column [done] holds the texts [False] and
      [True], whose text order is the order of the booleans.
    - A CSV file is represented by what the parser makes of it: a header and
      rows of cells, or [NotCsv] when the parser gives up.  The cells are
      those that [pd.read_csv] reads as text.  Its reading of a column of
      numbers as numbers, and of a missing-value word ([N/A], [NULL], the
      empty cell, and [None] from pandas 2.0 on) as [NaN], is not
      represented: what is said of the values that are read back from a
      file (the order of the rows by timestamp, the records of a table that
      is loaded again) is said for cells that satisfy [is_text], which
      pandas reads as they are written.
    - Opening a file for writing and listing a directory fail as the world
      says: [write_errors] and [listdir_errors] give the [OSError] of a
      path.
    - [str(dt.now())[:-7]] is an input [now] of the method that reads the
      clock: one reading for one call of the method.
    - Drawing on the figure is not represented.  What is kept of a drawing
      call is whether it raises: [fig.add_subplot] raises when the grid has
      no cell of that position, and [SingleImage.update] raises, after it
      has stored the label and the timestamp, when the label has no colour
      or the colour cannot be resolved.  An image that cannot be read is
      caught by [update] itself and changes nothing here.  [plt.figure] is
      taken to make the figure; it refuses a negative height, which the
      figure has for [rows <= -2]. *)

From Stdlib Require Import ZArith String Ascii List Sorted Permutation Lia.
From stdpp Require Import base option list gmap strings.

Open Scope string_scope.
Open Scope Z_scope.
Open Scope list_scope.

(** ** Exceptions and results *)

Inductive exn :=
| AssertionError (msg : string)
| TypeError
| IndexError
| KeyError (key : string)
| ValueError (msg : string)
| OSError (msg : string)
| FileNotFoundError (path : string)
| NotADirectoryError (path : string)
| PermissionError (path : string).

(** A computation that either returns or raises. *)
Inductive res (A : Type) :=
| Ok (a : A)
| Err (e : exn).
Arguments Ok {A} a.
Arguments Err {A} e.

#[global] Instance res_bind : MBind res := fun A B k m =>
  match m with
  | Ok a => k a
  | Err e => Err e
  end.

Definition is_ok {A} (m : res A) : bool :=
  match m with Ok _ => true | Err _ => false end.

(** [assert c, msg] *)
Definition assert (c : bool) (msg : string) : res unit :=
  if c then Ok tt else Err (AssertionError msg).

(** [for x in l: body x], stopping at the first exception. *)
Fixpoint for_each {A} (l : list A) (body : A -> res unit) : res unit :=
  match l with
  | [] => Ok tt
  | x :: l' => _ ← body x; for_each l' body
  end.

(** A method that mutates its object and may raise afterwards: the object is
    kept in both cases, as the caller sees it. *)
Inductive outcome (A : Type) :=
| Returns (a : A)
| Raises (e : exn) (a : A).
Arguments Returns {A} a.
Arguments Raises {A} e a.

Definition state_of {A} (o : outcome A) : A :=
  match o with Returns a => a | Raises _ a => a end.

(** ** Python sequences *)

(** The position a slice bound [n] denotes in a sequence of length [len]:
    negative bounds count from the end, and bounds are clipped. *)
Definition slice_bound (n : Z) (len : nat) : nat :=
  if n <? 0 then Z.to_nat (Z.max 0 (Z.of_nat len + n))
  else Nat.min (Z.to_nat n) len.

(** [l[n:]] *)
Definition slice_from {A} (n : Z) (l : list A) : list A :=
  drop (slice_bound n (length l)) l.

(** [l[:n]] *)
Definition slice_to {A} (n : Z) (l : list A) : list A :=
  take (slice_bound n (length l)) l.

(** [s[-1]] on a [str] *)
Fixpoint last_char (s : string) : option ascii :=
  match s with
  | EmptyString => None
  | String c EmptyString => Some c
  | String _ s' => last_char s'
  end.

(** [l.index(x)], as an option *)
Fixpoint index_of (x : string) (l : list string) : option nat :=
  match l with
  | [] => None
  | y :: l' => if String.eqb x y then Some O else S <$> index_of x l'
  end.

(** [x in l] for a list of [str] *)
Definition mem (x : string) (l : list string) : bool :=
  existsb (String.eqb x) l.

(** ** Sorting

    [np.sort] on an array of [str] and [DataFrame.sort_values] on several
    columns are both stable sorts; they are embedded as one insertion sort
    over a boolean order. *)
Section Sort.
Context {A : Type} (leb : A -> A -> bool).

Fixpoint sort_insert (x : A) (l : list A) : list A :=
  match l with
  | [] => [x]
  | y :: l' => if leb x y then x :: y :: l' else y :: sort_insert x l'
  end.

Fixpoint sort (l : list A) : list A :=
  match l with
  | [] => []
  | x :: l' => sort_insert x (sort l')
  end.
End Sort.

(** The order of sort keys: lexicographic over the key columns. *)
Fixpoint key_leb (k1 k2 : list string) : bool :=
  match k1, k2 with
  | x :: k1', y :: k2' =>
      match String.compare x y with
      | Lt => true
      | Gt => false
      | Eq => key_leb k1' k2'
      end
  | _, _ => true
  end.

(** ** Tables: the part of pandas the class uses *)

(** A table without an index: a parsed CSV file, or a freshly made frame. *)
Record Table := {
  header : list string;
  body : list (list string)
}.

(** A file on disk, as [pd.read_csv] sees it. *)
Inductive file :=
| NotCsv
| Csv (t : Table).

(** A frame with a named index: each row is its key and its cells. *)
Record DataFrame := {
  index_name : string;
  df_columns : list string;
  df_rows : list (string * list string)
}.

Definition cell (j : nat) (r : list string) : string := default "" (r !! j).

(** [df.index] *)
Definition index (df : DataFrame) : list string := map fst (df_rows df).

(** [pd.DataFrame(columns=cols)] *)
Definition DataFrame_new (cols : list string) : Table :=
  {| header := cols; body := [] |}.

(** [t.set_index(name)] *)
Definition set_index (name : string) (t : Table) : res DataFrame :=
  match index_of name (header t) with
  | None => Err (KeyError name)
  | Some i =>
      Ok {| index_name := name;
            df_columns := delete i (header t);
            df_rows := map (fun r => (cell i r, delete i r)) (body t) |}
  end.

(** [pd.read_csv(path, index_col=name)] on the content of the file *)
Definition read_csv (f : file) (index_col : string) : res DataFrame :=
  match f with
  | NotCsv => Err (ValueError "Error tokenizing data")
  | Csv t =>
      match set_index index_col t with
      | Ok df => Ok df
      | Err _ => Err (ValueError "Index filename invalid")
      end
  end.

(** [df[name]] *)
Definition get_column (df : DataFrame) (name : string) : res (list string) :=
  match index_of name (df_columns df) with
  | None => Err (KeyError name)
  | Some j => Ok (map (fun r => cell j (snd r)) (df_rows df))
  end.

(** [df[name] = vals]: the column is replaced where it stands, or added last. *)
Definition set_column (df : DataFrame) (name : string) (vals : list string)
  : DataFrame :=
  match index_of name (df_columns df) with
  | Some j =>
      {| index_name := index_name df;
         df_columns := df_columns df;
         df_rows := zip_with (fun r v => (fst r, <[j := v]> (snd r)))
                             (df_rows df) vals |}
  | None =>
      {| index_name := index_name df;
         df_columns := df_columns df ++ [name];
         df_rows := zip_with (fun r v => (fst r, snd r ++ [v]))
                             (df_rows df) vals |}
  end.

(** The positions of the columns [by], or the first one that is missing. *)
Fixpoint positions (by_ : list string) (cols : list string) : res (list nat) :=
  match by_ with
  | [] => Ok []
  | c :: by' =>
      match index_of c cols with
      | None => Err (KeyError c)
      | Some j => js ← positions by' cols; Ok (j :: js)
      end
  end.

Definition sort_key (js : list nat) (r : string * list string) : list string :=
  map (fun j => cell j (snd r)) js.

Definition row_leb (js : list nat) (r1 r2 : string * list string) : bool :=
  key_leb (sort_key js r1) (sort_key js r2).

(** [df.sort_values(by)] *)
Definition sort_values (by_ : list string) (df : DataFrame) : res DataFrame :=
  js ← positions by_ (df_columns df);
  Ok {| index_name := index_name df;
        df_columns := df_columns df;
        df_rows := sort (row_leb js) (df_rows df) |}.

(** [df.drop(name, axis=1)] *)
Definition drop_column (name : string) (df : DataFrame) : res DataFrame :=
  match index_of name (df_columns df) with
  | None => Err (KeyError name)
  | Some j =>
      Ok {| index_name := index_name df;
            df_columns := delete j (df_columns df);
            df_rows := map (fun r => (fst r, delete j (snd r))) (df_rows df) |}
  end.

(** [df.to_csv(path)]: the content written, index first. *)
Definition to_csv (df : DataFrame) : file :=
  Csv {| header := index_name df :: df_columns df;
         body := map (fun r => fst r :: snd r) (df_rows df) |}.

(** [df.loc[key] = vals]: every row of that key is overwritten; a key that
    is not in the index is appended.  A row of the wrong width is refused. *)
Definition loc_set (df : DataFrame) (key : string) (vals : list string)
  : res DataFrame :=
  if negb (length vals =? length (df_columns df))%nat
  then Err (ValueError "cannot set a row with mismatched columns")
  else
    Ok {| index_name := index_name df;
          df_columns := df_columns df;
          df_rows :=
            if mem key (index df)
            then map (fun r => if String.eqb (fst r) key then (key, vals) else r)
                     (df_rows df)
            else df_rows df ++ [(key, vals)] |}.

(** [*df.loc[key]], for a key of the index: the cells of its row; when
    several rows have the key, [loc] gives a frame, and unpacking a frame
    gives its column names. *)
Definition loc_unpack (df : DataFrame) (key : string) : list string :=
  match filter (fun r => fst r = key) (df_rows df) with
  | [r] => snd r
  | _ => df_columns df
  end.

(** ** The world outside the interpreter *)

Record World := {
  (** the files that exist, by path: [os.path.exists], [read_csv], [to_csv] *)
  files : gmap string file;
  (** [os.listdir]: the entries of the directories that can be listed *)
  dirs : gmap string (list string);
  (** whether [matplotlib.colors.to_rgb] resolves a colour name *)
  to_rgb : string -> bool;
  (** the paths that exist and cannot be listed, with the error of
      [os.listdir]: [NotADirectoryError] for a regular file,
      [PermissionError] for a directory that cannot be read *)
  listdir_errors : gmap string exn;
  (** the paths that cannot be opened for writing, with the [OSError] that
      is raised: the directory of the path is missing, or may not be
      written *)
  write_errors : gmap string exn
}.

(** [os.listdir(path)]: a path that does not exist is not found. *)
Definition listdir (w : World) (path : string) : res (list string) :=
  match dirs w !! path with
  | Some entries => Ok entries
  | None => Err (default (FileNotFoundError path) (listdir_errors w !! path))
  end.

(** The world in which [path] holds [f]. *)
Definition with_file (w : World) (path : string) (f : file) : World :=
  {| files := <[path := f]> (files w); dirs := dirs w;
     to_rgb := to_rgb w; listdir_errors := listdir_errors w;
     write_errors := write_errors w |}.

(** Writing [f] at [path]: the world after it, when the file can be opened
    for writing. *)
Definition write_file (w : World) (path : string) (f : file) : res World :=
  match write_errors w !! path with
  | Some e => Err e
  | None => Ok (with_file w path f)
  end.

(** ** Python values, for the arguments of the constructor *)

#[warnings="-register-all"] Inductive pyval :=
| PyNone
| PyBool (b : bool)
| PyInt (z : Z)
| PyFloat (mantissa exponent : Z)
| PyStr (s : string)
| PyList (l : list pyval)
| PyTuple (l : list pyval).

(** [isinstance(v, str)], which for these values is [type(v) == str] *)
Definition isinstance_str (v : pyval) : bool :=
  match v with PyStr _ => true | _ => false end.

(** [isinstance(v, int)]: [bool] is a subclass of [int] *)
Definition isinstance_int (v : pyval) : bool :=
  match v with PyInt _ | PyBool _ => true | _ => false end.

(** [isinstance(v, Iterable)] *)
Definition isinstance_Iterable (v : pyval) : bool :=
  match v with PyStr _ | PyList _ | PyTuple _ => true | _ => false end.

(** The characters of a [str], each a [str] of length one. *)
Fixpoint chars (s : string) : list string :=
  match s with
  | EmptyString => []
  | String c s' => String c EmptyString :: chars s'
  end.

(** The items of an iterable, in iteration order. *)
Definition items (v : pyval) : res (list pyval) :=
  match v with
  | PyStr s => Ok (map PyStr (chars s))
  | PyList l | PyTuple l => Ok l
  | _ => Err TypeError
  end.

(** [len(v)] *)
Definition len (v : pyval) : res nat := l ← items v; Ok (length l).

(** [v[i]] for [0 <= i] *)
Definition getitem (v : pyval) (i : nat) : res pyval :=
  l ← items v;
  match l !! i with
  | Some x => Ok x
  | None => Err IndexError
  end.

(** The value of an [int] (or [bool]) argument. *)
Definition int_of (v : pyval) : Z :=
  match v with
  | PyInt z => z
  | PyBool b => if b then 1 else 0
  | _ => 0
  end.

Definition str_of (v : pyval) : string :=
  match v with PyStr s => s | _ => "" end.

(** The items of a sequence of [str]. *)
Definition strs_of (v : pyval) : list string :=
  match items v with
  | Ok l => map str_of l
  | Err _ => []
  end.

(** [dict(l)]: a later pair overrides an earlier one of the same key. *)
Definition dict `{Countable K} {V} (l : list (K * V)) : gmap K V :=
  foldl (fun m kv => <[kv.1 := kv.2]> m) ∅ l.

(** The argument checks at the head of [ClickLabel.__init__]: the bodies of
    the three loops, then the loops. *)
Definition check_str (vs : pyval * string) : res unit :=
  assert (isinstance_str vs.1) ("'" +:+ vs.2 +:+ "' must be str").

Definition check_pair (vs : pyval * string) : res unit :=
  _ ← assert (isinstance_Iterable vs.1)
        ("'" +:+ vs.2 +:+ "' must be a list-like iterable");
  n ← len vs.1;
  _ ← assert (n =? 2)%nat ("'" +:+ vs.2 +:+ "' must be of length 2");
  x0 ← getitem vs.1 0;
  x1 ← (if isinstance_str x0 then getitem vs.1 1 else Ok x0);
  assert (isinstance_str x0 && isinstance_str x1)
         ("'" +:+ vs.2 +:+ "' elements must be str").

Definition check_int (vs : pyval * string) : res unit :=
  assert (isinstance_int vs.1) ("'" +:+ vs.2 +:+ "' must be int").

Definition check_arguments
    (data_folder result_path label_options color_options
     rows columns fontsize : pyval) : res unit :=
  _ ← for_each [(data_folder, "data_folder"); (result_path, "result_path")]
        check_str;
  _ ← for_each [(label_options, "label_options");
                (color_options, "color_options")]
        check_pair;
  for_each [(rows, "rows"); (columns, "columns"); (fontsize, "fontsize")]
    check_int.

(** ** The class [SingleImage] *)

Module SingleImage.

Record t := {
  path : string;
  (** the axes of the tile, named by its position in the grid *)
  ax : nat;
  (** [False] for the label [None] is the missing colour *)
  color_map : gmap string (option string);
  fontsize : Z;
  label : string;
  timestamp : string
}.

(** [self.update(label, timestamp)] *)
Definition update (w : World) (now : string) (self : t)
    (label timestamp : string) : outcome t :=
  let timestamp := if String.eqb timestamp "None" then now else timestamp in
  let self := {| path := path self; ax := ax self;
                 color_map := color_map self; fontsize := fontsize self;
                 label := label; timestamp := timestamp |} in
  match color_map self !! label with
  | None => Raises (KeyError label) self
  | Some overlay =>
      if negb (String.eqb label "None") then
        match overlay with
        | Some c =>
            if to_rgb w c then Returns self
            else Raises (ValueError "Invalid RGBA argument") self
        | None => Raises (ValueError "Invalid RGBA argument") self
        end
      else Returns self
  end.

(** [self.update( *args )], with the defaults of [update] *)
Definition update_args (w : World) (now : string) (self : t)
    (args : list string) : res (outcome t) :=
  match args with
  | [] => Ok (update w now self "None" "None")
  | [l] => Ok (update w now self l "None")
  | [l; ts] => Ok (update w now self l ts)
  | _ => Err TypeError
  end.

End SingleImage.

(** ** The class [ClickLabel] *)

(** A [button_press_event] of matplotlib. *)
Record MouseEvent := {
  button : Z;
  (** the axes under the pointer, if any *)
  inaxes : option nat
}.

Module ClickLabel.

Record t := {
  rows : Z;
  columns : Z;
  fontsize : Z;
  num : Z;
  result_path : string;
  result : DataFrame;
  image_paths : list string;
  images : list SingleImage.t;
  label_options : list string;
  color_options : list string;
  click_map : gmap Z string;
  color_map : gmap string (option string)
}.

Definition result_table_error : exn :=
  ValueError "The file that 'result_path' points to must be a CSV containing
                                     columns named 'filename', 'label' and 'timestamp".

(** The [try] block of [result_table]. *)
Definition read_result (f : file) : res DataFrame :=
  df ← read_csv f "filename";
  labels ← get_column df "label";
  let df := set_column df "done"
              (map (fun l => if String.eqb l "None" then "False" else "True")
                   labels) in
  df ← sort_values ["done"; "timestamp"] df;
  drop_column "done" df.

(** [self.result_table()] *)
Definition result_table (w : World) (result_path : string) : res DataFrame :=
  match files w !! result_path with
  | Some f =>
      match read_result f with
      | Ok df => Ok df
      | Err _ => Err result_table_error
      end
  | None =>
      match set_index "filename"
              (DataFrame_new ["filename"; "label"; "timestamp"]) with
      | Ok df => Ok df
      | Err e => Err e
      end
  end.

(** [self.get_image_paths(path)] *)
Definition get_image_paths (w : World) (result : DataFrame) (path : string)
  : res (list string) :=
  match last_char path with
  | None => Err IndexError
  | Some c =>
      let path := if Ascii.eqb c "/" then path else path +:+ "/" in
      let labelled := index result in
      entries ← listdir w path;
      let unlabelled :=
        map (fun f => path +:+ f)
            (List.filter (fun f => negb (mem (path +:+ f) labelled)) entries) in
      Ok (sort String.leb unlabelled ++ labelled)
  end.

(** [ClickLabel(data_folder, result_path, label_options, color_options,
    rows, columns, fontsize)] *)
Definition __init__ (w : World)
    (data_folder result_path label_options color_options
     rows columns fontsize : pyval) : res t :=
  _ ← check_arguments data_folder result_path label_options color_options
        rows columns fontsize;
  let rows := int_of rows in
  let columns := int_of columns in
  let fontsize := int_of fontsize in
  let result_path := str_of result_path in
  result ← result_table w result_path;
  image_paths ← get_image_paths w result (str_of data_folder);
  let label_options := strs_of label_options in
  let color_options := strs_of color_options in
  Ok {| rows := rows; columns := columns; fontsize := fontsize;
        num := rows * columns;
        result_path := result_path;
        result := result;
        image_paths := image_paths;
        images := [];
        label_options := label_options;
        color_options := color_options;
        click_map := dict (zip [1; 3] label_options);
        color_map :=
          <["None" := None]>
            (dict (map (fun x => (cell x label_options,
                                  Some (cell x color_options)))
                       [0; 1]%nat)) |}.

(** [ClickLabel.SingleImage(path, props, ax)]: the constructor of the
    inner class, which reads the result table of [props]. *)
Definition SingleImage__init__ (w : World) (now : string)
    (path : string) (props : t) (ax : nat) : res SingleImage.t :=
  let self := {| SingleImage.path := path; SingleImage.ax := ax;
                 SingleImage.color_map := color_map props;
                 SingleImage.fontsize := fontsize props;
                 SingleImage.label := ""; SingleImage.timestamp := "" |} in
  o ← (if mem path (index (result props))
       then SingleImage.update_args w now self (loc_unpack (result props) path)
       else SingleImage.update_args w now self []);
  match o with
  | Returns self => Ok self
  | Raises e _ => Err e
  end.

(** The loop of [onclick] over the tiles of the grid: the tiles after the
    loop, and the exception that stopped it, if any. *)
Fixpoint onclick_loop (w : World) (now : string) (self : t)
    (event : MouseEvent) (imgs : list SingleImage.t)
  : outcome (list SingleImage.t) :=
  match imgs with
  | [] => Returns []
  | img :: imgs' =>
      if bool_decide (inaxes event = Some (SingleImage.ax img)) then
        match click_map self !! button event with
        | None => Raises (KeyError "button") (img :: imgs')
        | Some label =>
            let label :=
              if String.eqb label (SingleImage.label img) then "None"
              else label in
            match color_map self !! label with
            | None => Raises (KeyError label) (img :: imgs')
            | Some color =>
                match SingleImage.update w now img label now with
                | Returns img' =>
                    match onclick_loop w now self event imgs' with
                    | Returns r => Returns (img' :: r)
                    | Raises e r => Raises e (img' :: r)
                    end
                | Raises e img' => Raises e (img' :: imgs')
                end
            end
        end
      else
        match onclick_loop w now self event imgs' with
        | Returns r => Returns (img :: r)
        | Raises e r => Raises e (img :: r)
        end
  end.

Definition set_images (self : t) (imgs : list SingleImage.t) : t :=
  {| rows := rows self; columns := columns self; fontsize := fontsize self;
     num := num self; result_path := result_path self;
     result := result self; image_paths := image_paths self;
     images := imgs;
     label_options := label_options self;
     color_options := color_options self;
     click_map := click_map self; color_map := color_map self |}.

Definition set_result (self : t) (df : DataFrame) : t :=
  {| rows := rows self; columns := columns self; fontsize := fontsize self;
     num := num self; result_path := result_path self;
     result := df; image_paths := image_paths self;
     images := images self;
     label_options := label_options self;
     color_options := color_options self;
     click_map := click_map self; color_map := color_map self |}.

Definition set_image_paths (self : t) (paths : list string) : t :=
  {| rows := rows self; columns := columns self; fontsize := fontsize self;
     num := num self; result_path := result_path self;
     result := result self; image_paths := paths;
     images := images self;
     label_options := label_options self;
     color_options := color_options self;
     click_map := click_map self; color_map := color_map self |}.

(** [self.onclick(event)] *)
Definition onclick (w : World) (now : string) (self : t) (event : MouseEvent)
  : outcome t :=
  if bool_decide (button event ∈ dom (click_map self)) then
    match onclick_loop w now self event (images self) with
    | Returns imgs => Returns (set_images self imgs)
    | Raises e imgs => Raises e (set_images self imgs)
    end
  else Returns self.

(** The loop of lines 125 to 127: the labels of the tiles go to the table. *)
Fixpoint store_labels (imgs : list SingleImage.t) (df : DataFrame)
  : outcome DataFrame :=
  match imgs with
  | [] => Returns df
  | i :: imgs' =>
      match loc_set df (SingleImage.path i)
              [SingleImage.label i; SingleImage.timestamp i] with
      | Ok df' => store_labels imgs' df'
      | Err e => Raises e df
      end
  end.

(** Lines 124 to 132 of [labelling_grid]: what is done for the grid that
    was shown, before the next one is made. *)
Definition store_page (w : World) (self : t) : outcome (t * World) :=
  if (0 <? length (images self))%nat then
    match store_labels (images self) (result self) with
    | Raises e df => Raises e (set_result self df, w)
    | Returns df =>
        let self := set_result self df in
        match write_file w (result_path self) (to_csv (result self)) with
        | Err e => Raises e (self, w)
        | Ok w =>
            let self :=
              set_image_paths self
                (slice_from (num self) (image_paths self)
                 ++ slice_to (num self) (image_paths self)) in
            Returns (self, w)
        end
    end
  else Returns (self, w).

(** [fig.add_subplot(nrows, ncols, position)]: the axes at that position of
    a grid of [nrows] by [ncols] cells, named by the position.  A grid
    without rows or columns, or without a cell at that position, is
    refused. *)
Definition add_subplot (nrows ncols : Z) (position : nat) : res nat :=
  if (0 <? nrows) && (0 <? ncols)
     && (1 <=? position)%nat && (Z.of_nat position <=? nrows * ncols)
  then Ok position
  else Err (ValueError "num must be an integer with 1 <= num <= nrows*ncols").

(** The loop of lines 140 to 144: one tile for each path of the page. *)
Fixpoint new_tiles (w : World) (now : string) (self : t) (idx : nat)
    (paths : list string) : outcome t :=
  match paths with
  | [] => Returns self
  | f :: paths' =>
      match add_subplot (rows self) (columns self) (idx + 1) with
      | Err e => Raises e self
      | Ok ax =>
          match SingleImage__init__ w now f self ax with
          | Ok img => new_tiles w now (set_images self (images self ++ [img]))
                        (S idx) paths'
          | Err e => Raises e self
          end
      end
  end.

(** Lines 135 to 149 of [labelling_grid]: the next grid. *)
Definition new_page (w : World) (now : string) (self : t) : outcome t :=
  let self := set_images self [] in
  new_tiles w now self 0 (slice_to (num self) (image_paths self)).

(** [self.labelling_grid()] *)
Definition labelling_grid (w : World) (now : string) (self : t)
  : outcome (t * World) :=
  match store_page w self with
  | Raises e sw => Raises e sw
  | Returns (self, w) =>
      match new_page w now self with
      | Returns self => Returns (self, w)
      | Raises e self => Raises e (self, w)
      end
  end.

End ClickLabel.

(** ** A session: the object, the world, and what the operator does *)

Record Session := {
  self : ClickLabel.t;
  world : World
}.

Inductive action :=
| Render (now : string)                      (* a call of [labelling_grid] *)
| Click (now : string) (event : MouseEvent). (* a mouse click on the figure *)

(** The session after an action.  An exception ends the call, not the
    session: the object stays as the call left it. *)
Definition step (s : Session) (a : action) : Session :=
  match a with
  | Render now =>
      let sw := state_of (ClickLabel.labelling_grid (world s) now (self s)) in
      {| self := sw.1; world := sw.2 |}
  | Click now event =>
      {| self := state_of (ClickLabel.onclick (world s) now (self s) event);
         world := world s |}
  end.

Definition run (s : Session) (l : list action) : Session := foldl step s l.

Definition is_click (a : action) : bool :=
  match a with Click _ _ => true | Render _ => false end.

(** ** Vocabulary of the properties *)

(** The two dictionaries of the object, as the constructor makes them from
    two labels and two colours. *)
Definition constructed_maps (self : ClickLabel.t) : Prop :=
  exists l0 l1 c0 c1 : string,
    ClickLabel.click_map self = dict [(1, l0); (3, l1)]
    /\ ClickLabel.color_map self
       = <["None" := None]> (dict [(l0, Some c0); (l1, Some c1)]).

(** What a click of the button bound to [bound] does to the tile under the
    pointer: the label is toggled off or set, the time is recorded, and the
    rest of the tile is kept. *)
Definition clicked (bound now : string) (img img' : SingleImage.t) : Prop :=
  SingleImage.label img'
  = (if String.eqb bound (SingleImage.label img) then "None" else bound)
  /\ SingleImage.timestamp img' = now
  /\ SingleImage.path img' = SingleImage.path img
  /\ SingleImage.ax img' = SingleImage.ax img.

(** What a click does to a tile of the grid, under the pointer or not. *)
Definition click_effect (self : ClickLabel.t) (event : MouseEvent) (now : string)
    (img img' : SingleImage.t) : Prop :=
  match ClickLabel.click_map self !! button event with
  | Some bound =>
      if bool_decide (inaxes event = Some (SingleImage.ax img))
      then clicked bound now img img'
      else img' = img
  | None => img' = img
  end.

(** The rows of a frame under a key. *)
Definition rows_of (df : DataFrame) (key : string) : list (string * list string) :=
  filter (fun r => r.1 = key) (df_rows df).

(** The cells that the tiles of a grid leave in the table under [key]: the
    label and the timestamp of the last tile of that path, if there is one. *)
Fixpoint written (key : string) (imgs : list SingleImage.t)
  : option (list string) :=
  match imgs with
  | [] => None
  | i :: imgs' =>
      match written key imgs' with
      | Some v => Some v
      | None =>
          if String.eqb (SingleImage.path i) key
          then Some [SingleImage.label i; SingleImage.timestamp i]
          else None
      end
  end.

(** What the constructor checks of [label_options] and of [color_options]:
    an iterable of two items, both [str]. *)
Definition two_strs (v : pyval) : Prop :=
  exists a b : string, items v = Ok [PyStr a; PyStr b].

(** The arguments that pass the checks of the constructor. *)
Definition checked_arguments
    (data_folder result_path label_options color_options
     rows columns fontsize : pyval) : Prop :=
  isinstance_str data_folder = true /\ isinstance_str result_path = true
  /\ two_strs label_options /\ two_strs color_options
  /\ isinstance_int rows = true /\ isinstance_int columns = true
  /\ isinstance_int fontsize = true.

(** The valid configurations in the words of the specification: the data
    directory and the result path are strings, there are exactly two label
    strings and exactly two colour strings resolvable to RGB, and the row
    count, the column count and the font size are positive integers. *)
Definition spec_positive_integer (v : pyval) : Prop :=
  exists z : Z, v = PyInt z /\ 0 < z.

Definition spec_two_strings (v : pyval) : Prop :=
  exists a b : string,
    v = PyList [PyStr a; PyStr b] \/ v = PyTuple [PyStr a; PyStr b].

Definition spec_two_colors (w : World) (v : pyval) : Prop :=
  exists a b : string,
    (v = PyList [PyStr a; PyStr b] \/ v = PyTuple [PyStr a; PyStr b])
    /\ to_rgb w a = true /\ to_rgb w b = true.

Definition spec_valid_configuration (w : World)
    (data_folder result_path label_options color_options
     rows columns fontsize : pyval) : Prop :=
  isinstance_str data_folder = true /\ isinstance_str result_path = true
  /\ spec_two_strings label_options /\ spec_two_colors w color_options
  /\ spec_positive_integer rows /\ spec_positive_integer columns
  /\ spec_positive_integer fontsize.

(** A world for the examples: no result file yet, in a directory [labels]
    that exists and can be written; three images in [data/]; and the two
    colours of the defaults. *)
Definition example_world : World :=
  {| files := ∅;
     dirs := {[ "data/" := ["b.png"; "a.png"; "c.png"] ]};
     to_rgb := fun c => mem c ["red"; "blue"];
     listdir_errors := ∅; write_errors := ∅ |}.

(** Whether a file parses as a table with the three columns [filename],
    [label] and [timestamp]. *)
Definition has_result_columns (f : file) : bool :=
  match f with
  | NotCsv => false
  | Csv t =>
      mem "filename" (header t) && mem "label" (header t)
      && mem "timestamp" (header t)
  end.

(** The header of a saved result table, and the tables of that shape. *)
Definition result_header : list string := ["filename"; "label"; "timestamp"].

Definition well_formed (t : Table) : Prop :=
  header t = result_header /\ Forall (fun r => length r = 3%nat) (body t).

(** The order of the rows of a saved table, in the words of the
    specification: by [done], which is [label != None], then by timestamp,
    both ascending.  A row is [filename; label; timestamp]. *)
Definition done_of (r : list string) : bool :=
  negb (String.eqb (cell 1 r) "None").

Definition by_done_timestamp (r1 r2 : list string) : Prop :=
  (done_of r1 = false /\ done_of r2 = true)
  \/ (done_of r1 = done_of r2 /\ String.leb (cell 2 r1) (cell 2 r2) = true).

(** The empty result table. *)
Definition empty_result : DataFrame :=
  {| index_name := "filename";
     df_columns := ["label"; "timestamp"];
     df_rows := [] |}.

(** The rows of a frame read from the rows of a file whose first column is
    the index, and back. *)
Definition load_row (r : list string) : string * list string :=
  (cell 0 r, delete 0%nat r).

Definition save_row (r : string * list string) : list string := r.1 :: r.2.

(** A row of the result table with the column [done] added last. *)
Definition with_done (r : string * list string) : string * list string :=
  (r.1, r.2 ++ [if String.eqb (cell 0 r.2) "None" then "False" else "True"]).

(** The order [sort_values] uses in [result_table], on the rows of the
    result table: by the added column [done], then by [timestamp]. *)
Definition result_leb (a b : string * list string) : bool :=
  row_leb [2; 1]%nat (with_done a) (with_done b).

(** A world in which a labelled image was removed from the data directory:
    the result file has a record of [data/a.png], and [data/] holds
    [b.png] only. *)
Definition stale_world : World :=
  {| files :=
       {[ "labels/df.csv" :=
            Csv {| header := result_header;
                   body := [["data/a.png"; "Cat meme"; "2020-01-01 10:00:00"]] |} ]};
     dirs := {[ "data/" := ["b.png"] ]};
     to_rgb := fun c => mem c ["red"; "blue"];
     listdir_errors := ∅; write_errors := ∅ |}.

(** The world of the example of the specification: [b.png] and [a.png] in
    the directory, and a record of [a.png] in the table. *)
Definition labelled_world : World :=
  {| files :=
       {[ "labels/df.csv" :=
            Csv {| header := result_header;
                   body := [["data/a.png"; "Cat meme"; "2020-01-01 10:00:00"]] |} ]};
     dirs := {[ "data/" := ["b.png"; "a.png"] ]};
     to_rgb := fun c => mem c ["red"; "blue"];
     listdir_errors := ∅; write_errors := ∅ |}.

(** What holds of the object all along a session: the dictionaries are those
    of the constructor, and the tiles of the grid have distinct axes. *)
Definition session_invariant (self : ClickLabel.t) : Prop :=
  constructed_maps self
  /\ NoDup (map SingleImage.ax (ClickLabel.images self)).

(** ** Objects and sessions for the examples *)

(** The object that the constructor makes in [example_world] with the
    default labels and colours and a grid of one row and two columns. *)
Definition example_object : ClickLabel.t :=
  {| ClickLabel.rows := 1; ClickLabel.columns := 2; ClickLabel.fontsize := 10;
     ClickLabel.num := 2;
     ClickLabel.result_path := "labels/df.csv";
     ClickLabel.result := empty_result;
     ClickLabel.image_paths := ["data/a.png"; "data/b.png"; "data/c.png"];
     ClickLabel.images := [];
     ClickLabel.label_options := ["Cat meme"; "Dog meme"];
     ClickLabel.color_options := ["red"; "blue"];
     ClickLabel.click_map := dict [(1, "Cat meme"); (3, "Dog meme")];
     ClickLabel.color_map :=
       <["None" := None]>
         (dict [("Cat meme", Some "red"); ("Dog meme", Some "blue")]) |}.

Definition example_session : Session :=
  {| self := example_object; world := example_world |}.

(** The session once the first grid is shown. *)
Definition example_grid : Session :=
  step example_session (Render "2020-01-01 00:00:00").

(** A left click on the second tile, and a right click on it. *)
Definition left_click : MouseEvent := {| button := 1; inaxes := Some 2%nat |}.
Definition right_click : MouseEvent := {| button := 3; inaxes := Some 2%nat |}.

(** The session after a left click on the second tile of the first grid. *)
Definition example_clicked : Session :=
  step example_grid (Click "2020-01-01 00:00:05" left_click).

(** What is seen of a tile. *)
Definition view (img : SingleImage.t) : string * string * string :=
  (SingleImage.path img, SingleImage.label img, SingleImage.timestamp img).

(** A world whose result file has no column [timestamp]. *)
Definition bad_file : file :=
  Csv {| header := ["filename"; "label"];
         body := [["data/a.png"; "Cat meme"]] |}.

Definition bad_world : World :=
  {| files := {[ "labels/df.csv" := bad_file ]};
     dirs := {[ "data/" := ["b.png"; "a.png"] ]};
     to_rgb := fun c => mem c ["red"; "blue"];
     listdir_errors := ∅; write_errors := ∅ |}.

(** A world whose result file is well formed and not in order. *)
Definition saved_table : Table :=
  {| header := result_header;
     body := [["data/c.png"; "Dog meme"; "2020-01-01 10:00:07"];
              ["data/a.png"; "Cat meme"; "2020-01-01 10:00:03"];
              ["data/b.png"; "None"; "2020-01-01 10:00:05"]] |}.

Definition saved_world : World :=
  {| files := {[ "labels/df.csv" := Csv saved_table ]};
     dirs := {[ "data/" := ["b.png"; "a.png"; "c.png"] ]};
     to_rgb := fun c => mem c ["red"; "blue"];
     listdir_errors := ∅; write_errors := ∅ |}.

(** A world with ten images and no result file, and a session on it with
    the grid of two rows and four columns of the defaults. *)
Definition ten_world : World :=
  {| files := ∅;
     dirs := {[ "data/" := ["0.png"; "1.png"; "2.png"; "3.png"; "4.png";
                            "5.png"; "6.png"; "7.png"; "8.png"; "9.png"] ]};
     to_rgb := fun c => mem c ["red"; "blue"];
     listdir_errors := ∅; write_errors := ∅ |}.

Definition ten_init : res ClickLabel.t :=
  ClickLabel.__init__ ten_world (PyStr "data/") (PyStr "labels/df.csv")
    (PyList [PyStr "Cat meme"; PyStr "Dog meme"])
    (PyList [PyStr "red"; PyStr "blue"]) (PyInt 2) (PyInt 4) (PyInt 10).

Definition ten_session : Session :=
  {| self := match ten_init with Ok o => o | Err _ => example_object end;
     world := ten_world |}.

(** ** Vocabulary of the further properties *)


(** The path of a directory with its trailing slash, as [get_image_paths]
    makes it. *)
Definition with_slash (path : string) : string :=
  match last_char path with
  | Some c => if Ascii.eqb c "/" then path else path +:+ "/"
  | None => path
  end.

(** Each tile holds the colour dictionary of the object. *)
Definition tiles_follow (self : ClickLabel.t) : Prop :=
  Forall (fun img => SingleImage.color_map img = ClickLabel.color_map self)
         (ClickLabel.images self).

(** Every colour of the colour dictionary resolves to RGB. *)
Definition resolvable_colors (w : World) (self : ClickLabel.t) : Prop :=
  forall l c, ClickLabel.color_map self !! l = Some (Some c) -> to_rgb w c = true.

(** The shape of the result table of a session: the index [filename], the
    columns [label] and [timestamp], rows of two cells, and no key twice. *)
Definition table_ok (df : DataFrame) : Prop :=
  index_name df = "filename"
  /\ df_columns df = ["label"; "timestamp"]
  /\ Forall (fun r : string * list string => length r.2 = 2%nat) (df_rows df)
  /\ NoDup (index df).

(** A frame with its rows in the order in which [result_table] loads them. *)
Definition reloaded (df : DataFrame) : DataFrame :=
  {| index_name := index_name df;
     df_columns := df_columns df;
     df_rows := sort result_leb (df_rows df) |}.

(** Two states of a tile that differ at most by the label and the
    timestamp. *)
Definition same_tile (img img' : SingleImage.t) : Prop :=
  SingleImage.path img' = SingleImage.path img
  /\ SingleImage.ax img' = SingleImage.ax img
  /\ SingleImage.color_map img' = SingleImage.color_map img
  /\ SingleImage.fontsize img' = SingleImage.fontsize img.

(** A tile as [labelling_grid] makes it for the object [props] at the time
    [now]: it holds the colours and the font size of the object; its label
    and timestamp are those of the table when its path is a key with a row
    of two cells, with the current time for a timestamp [None]; a path that
    is not a key gives the label [None] and the current time. *)
Definition fresh_tile (now : string) (props : ClickLabel.t)
    (img : SingleImage.t) : Prop :=
  SingleImage.color_map img = ClickLabel.color_map props
  /\ SingleImage.fontsize img = ClickLabel.fontsize props
  /\ (SingleImage.path img ∉ index (ClickLabel.result props) ->
      SingleImage.label img = "None" /\ SingleImage.timestamp img = now)
  /\ (forall l ts,
        SingleImage.path img ∈ index (ClickLabel.result props) ->
        loc_unpack (ClickLabel.result props) (SingleImage.path img) = [l; ts] ->
        SingleImage.label img = l
        /\ SingleImage.timestamp img
           = if String.eqb ts "None" then now else ts).

(** Every label of the table and of the grid has an entry in the colour
    dictionary of the object. *)
Definition labels_known (self : ClickLabel.t) : Prop :=
  (forall r, r ∈ df_rows (ClickLabel.result self) ->
             is_Some (ClickLabel.color_map self !! cell 0 r.2))
  /\ Forall (fun img =>
               is_Some (ClickLabel.color_map self !! SingleImage.label img))
            (ClickLabel.images self).

(** The state in which no call of a session raises. *)
Definition sound_session (s : Session) : Prop :=
  session_invariant (self s) /\ tiles_follow (self s)
  /\ resolvable_colors (world s) (self s)
  /\ table_ok (ClickLabel.result (self s))
  /\ labels_known (self s).

(** ** Objects and sessions for the further examples *)

(** The object that [__init__] makes, for the worlds in which it succeeds. *)
Definition constructed (o : res ClickLabel.t) : ClickLabel.t :=
  match o with Ok self => self | Err _ => example_object end.



(** The table of [labelled_world] and of [stale_world], once loaded. *)
Definition labelled_table : DataFrame :=
  {| index_name := "filename";
     df_columns := ["label"; "timestamp"];
     df_rows := [("data/a.png", ["Cat meme"; "2020-01-01 10:00:00"])] |}.

(** The two tiles of the first grid of [example_session], the second one
    before and after the left click. *)
Definition tile_a : SingleImage.t :=
  {| SingleImage.path := "data/a.png"; SingleImage.ax := 1;
     SingleImage.color_map := ClickLabel.color_map example_object;
     SingleImage.fontsize := 10;
     SingleImage.label := "None";
     SingleImage.timestamp := "2020-01-01 00:00:00" |}.

Definition tile_b : SingleImage.t :=
  {| SingleImage.path := "data/b.png"; SingleImage.ax := 2;
     SingleImage.color_map := ClickLabel.color_map example_object;
     SingleImage.fontsize := 10;
     SingleImage.label := "None";
     SingleImage.timestamp := "2020-01-01 00:00:00" |}.

Definition tile_b_clicked : SingleImage.t :=
  {| SingleImage.path := "data/b.png"; SingleImage.ax := 2;
     SingleImage.color_map := ClickLabel.color_map example_object;
     SingleImage.fontsize := 10;
     SingleImage.label := "Cat meme";
     SingleImage.timestamp := "2020-01-01 00:00:05" |}.

(** A session whose second colour does not resolve, with its first grid. *)
Definition unresolved_grid : Session :=
  step {| self := constructed
            (ClickLabel.__init__ example_world (PyStr "data")
               (PyStr "labels/df.csv")
               (PyList [PyStr "Cat meme"; PyStr "Dog meme"])
               (PyList [PyStr "red"; PyStr "not a colour"])
               (PyInt 1) (PyInt 2) (PyInt 10));
          world := example_world |}
       (Render "2020-01-01 00:00:00").

(** Ten images and a grid of two rows and two columns, with its first
    grid. *)
Definition four_grid : Session :=
  step {| self := constructed
            (ClickLabel.__init__ ten_world (PyStr "data/")
               (PyStr "labels/df.csv")
               (PyList [PyStr "Cat meme"; PyStr "Dog meme"])
               (PyList [PyStr "red"; PyStr "blue"])
               (PyInt 2) (PyInt 2) (PyInt 10));
          world := ten_world |}
       (Render "2020-01-01 00:00:00").

(** Three images and a grid of two rows and four columns. *)
Definition wide_object : ClickLabel.t :=
  constructed
    (ClickLabel.__init__ example_world (PyStr "data") (PyStr "labels/df.csv")
       (PyList [PyStr "Cat meme"; PyStr "Dog meme"])
       (PyList [PyStr "red"; PyStr "blue"]) (PyInt 2) (PyInt 4) (PyInt 10)).

(** A session on the table of [labelled_world] with other label names. *)
Definition other_labels_object : ClickLabel.t :=
  constructed
    (ClickLabel.__init__ labelled_world (PyStr "data") (PyStr "labels/df.csv")
       (PyList [PyStr "Yes"; PyStr "No"])
       (PyList [PyStr "red"; PyStr "blue"]) (PyInt 1) (PyInt 2) (PyInt 10)).

(** The object that starts from the saved table of [saved_world]. *)
Definition saved_object : ClickLabel.t :=
  constructed
    (ClickLabel.__init__ saved_world (PyStr "data") (PyStr "labels/df.csv")
       (PyList [PyStr "Cat meme"; PyStr "Dog meme"])
       (PyList [PyStr "red"; PyStr "blue"]) (PyInt 2) (PyInt 4) (PyInt 10)).

(** ** Text cells *)

(** The characters that occur in no number and in none of the words that
    [pd.read_csv] reads as a missing value, a boolean or an infinity. *)
Definition text_char (c : ascii) : bool :=
  existsb (Ascii.eqb c) (list_ascii_of_string "ghkmvwzGHKMVWZ:").

Definition printable (c : ascii) : bool :=
  (32 <=? nat_of_ascii c)%nat && (nat_of_ascii c <=? 126)%nat.

(** A cell that [pd.read_csv] reads as the text that was written, whatever
    the other cells of its column: printable text with one such character
    at least, as the paths [folder/name.png], the timestamps
    [YYYY-MM-DD hh:mm:ss] and the labels [Cat meme] and [Dog meme] are. *)
Definition is_text (s : string) : bool :=
  forallb printable (list_ascii_of_string s)
  && existsb text_char (list_ascii_of_string s).

(** The rows of a table, each with its key, hold text cells only. *)
Definition text_rows (rows : list (string * list string)) : Prop :=
  Forall (fun r : string * list string =>
            is_text r.1 = true /\ Forall (fun x => is_text x = true) r.2) rows.

(** The path, the label and the timestamp of each tile are text cells. *)
Definition text_tiles (imgs : list SingleImage.t) : Prop :=
  Forall (fun img => is_text (SingleImage.path img) = true
                     /\ is_text (SingleImage.label img) = true
                     /\ is_text (SingleImage.timestamp img) = true) imgs.

(** A world whose result file is well formed, not in order, and holds
    text cells only: every image has a label. *)
Definition text_table : Table :=
  {| header := result_header;
     body := [["data/c.png"; "Dog meme"; "2020-01-01 10:00:07"];
              ["data/a.png"; "Cat meme"; "2020-01-01 10:00:03"];
              ["data/b.png"; "Dog meme"; "2020-01-01 10:00:05"]] |}.

Definition text_world : World :=
  {| files := {[ "labels/df.csv" := Csv text_table ]};
     dirs := {[ "data/" := ["e.png"; "b.png"; "a.png"; "c.png"; "d.png"] ]};
     to_rgb := fun c => mem c ["red"; "blue"];
     listdir_errors := ∅; write_errors := ∅ |}.


(** The first grid of [example_session] with a label on each tile: a right
    click on the first tile, and a left click on the second. *)
Definition example_labelled : Session :=
  run example_grid
    [Click "2020-01-01 00:00:04" {| button := 3; inaxes := Some 1%nat |};
     Click "2020-01-01 00:00:05" left_click].

(** ** A result file with an additional column *)

(** A result file with the three columns and a column of notes, in a
    directory of three images, one of which has a record. *)
Definition notes_table : Table :=
  {| header := ["filename"; "label"; "timestamp"; "note"];
     body := [["data/a.png"; "Cat meme"; "2020-01-01 10:00:00"; "blurred"]] |}.

Definition notes_world : World :=
  {| files := {[ "labels/df.csv" := Csv notes_table ]};
     dirs := {[ "data/" := ["a.png"; "b.png"; "c.png"] ]};
     to_rgb := fun c => mem c ["red"; "blue"];
     listdir_errors := ∅; write_errors := ∅ |}.

(** The object that the constructor makes of it, with a grid of one row and
    two columns, and the session once its first grid is shown. *)
Definition notes_init : res ClickLabel.t :=
  ClickLabel.__init__ notes_world (PyStr "data/") (PyStr "labels/df.csv")
    (PyList [PyStr "Cat meme"; PyStr "Dog meme"])
    (PyList [PyStr "red"; PyStr "blue"]) (PyInt 1) (PyInt 2) (PyInt 10).

Definition notes_grid : Session :=
  step {| self := constructed notes_init; world := notes_world |}
       (Render "2020-01-02 09:00:00").

(** A world like [example_world] in which the directory [labels] of the
    default result path does not exist. *)
Definition fresh_world : World :=
  {| files := ∅;
     dirs := {[ "data/" := ["b.png"; "a.png"; "c.png"] ]};
     to_rgb := fun c => mem c ["red"; "blue"];
     listdir_errors := ∅;
     write_errors :=
       {[ "labels/df.csv" :=
            OSError "Cannot save file into a non-existent directory: 'labels'" ]} |}.

(** The session on [fresh_world] once its first grid is shown. *)
Definition fresh_grid : Session :=
  step {| self := example_object; world := fresh_world |}
       (Render "2020-01-01 00:00:00").

(** * Properties *)

Import ClickLabel.

(** ** Slices *)

Lemma slice_from_to {A} (n : Z) (l : list A) :
  slice_to n l ++ slice_from n l = l.
Proof. unfold slice_to, slice_from. apply take_drop. Qed.

Lemma slice_rotate_Permutation {A} (n : Z) (l : list A) :
  slice_from n l ++ slice_to n l ≡ₚ l.
Proof.
  rewrite <- (slice_from_to n l) at 3.
  apply Permutation_app_comm.
Qed.

(** ** What the methods leave alone *)

Lemma add_subplot_Ok nrows ncols position ax :
  add_subplot nrows ncols position = Ok ax -> ax = position.
Proof. unfold add_subplot. destruct (_ && _); congruence. Qed.

Lemma new_tiles_frame w now self idx paths :
  let self' := state_of (new_tiles w now self idx paths) in
  image_paths self' = image_paths self /\ result self' = result self
  /\ result_path self' = result_path self /\ num self' = num self
  /\ click_map self' = click_map self /\ color_map self' = color_map self.
Proof.
  revert self idx. induction paths as [|f paths IH]; intros self idx; simpl.
  - repeat split.
  - destruct (add_subplot (rows self) (columns self) (idx + 1)) as [ax|e];
      [|repeat split].
    destruct (SingleImage__init__ w now f self ax) as [img|e]; simpl.
    + apply (IH (set_images self (images self ++ [img])) (S idx)).
    + repeat split.
Qed.

Lemma new_page_frame w now self :
  let self' := state_of (new_page w now self) in
  image_paths self' = image_paths self /\ result self' = result self
  /\ result_path self' = result_path self /\ num self' = num self
  /\ click_map self' = click_map self /\ color_map self' = color_map self.
Proof. unfold new_page. apply (new_tiles_frame w now (set_images self [])). Qed.

Lemma store_page_paths w self :
  image_paths (state_of (store_page w self)).1 ≡ₚ image_paths self.
Proof.
  unfold store_page.
  destruct (0 <? length (images self))%nat; [|done].
  destruct (store_labels (images self) (result self)) as [df|e df]; simpl;
    [|done].
  destruct (write_file w _ _) as [w'|e]; simpl;
    [apply slice_rotate_Permutation | done].
Qed.

Lemma labelling_grid_unfold w now self :
  state_of (labelling_grid w now self) =
  match store_page w self with
  | Raises _ sw => sw
  | Returns (self', w') => (state_of (new_page w' now self'), w')
  end.
Proof.
  unfold labelling_grid.
  destruct (store_page w self) as [[self' w']|e sw]; [|done].
  by destruct (new_page w' now self').
Qed.

Lemma onclick_frame w now self event :
  let self' := state_of (onclick w now self event) in
  result self' = result self /\ image_paths self' = image_paths self
  /\ result_path self' = result_path self /\ num self' = num self
  /\ click_map self' = click_map self /\ color_map self' = color_map self.
Proof.
  unfold onclick. case_bool_decide; [|done].
  by destruct (onclick_loop w now self event (images self)).
Qed.

(** C10: a call of [labelling_grid] permutes the session sequence
    [image_paths]: no path is added, duplicated or dropped, and the length is
    kept, whether or not the call raises. *)
Theorem labelling_grid_permutes_paths w now self :
  let self' := (state_of (labelling_grid w now self)).1 in
  image_paths self' ≡ₚ image_paths self
  /\ length (image_paths self') = length (image_paths self).
Proof.
  simpl.
  assert (H : image_paths (state_of (labelling_grid w now self)).1
              ≡ₚ image_paths self).
  { rewrite labelling_grid_unfold.
    pose proof (store_page_paths w self) as Hs.
    destruct (store_page w self) as [[self' w']|e sw]; simpl in *; [|done].
    destruct (new_page_frame w' now self') as [-> _]. done. }
  split; [done | by rewrite H].
Qed.

(** ** Clicks do not touch the table or the disk *)

(** C8: a click leaves the result table of the object and the whole world,
    hence the file at [result_path], as they were; only [labelling_grid]
    writes them. *)
Theorem onclick_keeps_result_table s now event :
  let s' := step s (Click now event) in
  result (self s') = result (self s)
  /\ world s' = world s
  /\ files (world s') !! result_path (self s')
     = files (world s) !! result_path (self s).
Proof.
  simpl.
  destruct (onclick_frame (world s) now (self s) event) as (Hr & _ & Hp & _).
  by rewrite Hr, Hp.
Qed.

Lemma run_clicks_frame clicks : forall s,
  forallb is_click clicks = true ->
  world (run s clicks) = world s
  /\ result (self (run s clicks)) = result (self s).
Proof.
  induction clicks as [|a clicks IH]; intros s Hc; [done|].
  simpl in Hc. apply andb_prop in Hc as [Ha Hc].
  destruct a as [now|now event]; [done|].
  change (run s (Click now event :: clicks))
    with (run (step s (Click now event)) clicks).
  destruct (IH (step s (Click now event)) Hc) as [-> ->].
  simpl.
  by destruct (onclick_frame (world s) now (self s) event) as (-> & _).
Qed.

Lemma store_page_first w self :
  images self = [] -> store_page w self = Returns (self, w).
Proof. intros H. unfold store_page. by rewrite H. Qed.

(** C9: the first call of [labelling_grid], when no grid was shown yet
    ([images] is empty), writes nothing to the result table and saves no
    file; and the clicks that follow a call of [labelling_grid] change
    neither the table nor the disk, so the labels of the grid on display
    reach the file only through a later call. *)
Theorem first_grid_saves_nothing s now clicks :
  images (self s) = [] ->
  forallb is_click clicks = true ->
  let s1 := step s (Render now) in
  let s2 := run s1 clicks in
  (world s1 = world s /\ result (self s1) = result (self s))
  /\ (world s2 = world s /\ result (self s2) = result (self s))
  /\ (forall s0 : Session,
        world (run (step s0 (Render now)) clicks)
        = world (step s0 (Render now))
        /\ result (self (run (step s0 (Render now)) clicks))
           = result (self (step s0 (Render now)))).
Proof.
  intros Hi Hc s1 s2.
  assert (H1 : world s1 = world s /\ result (self s1) = result (self s)).
  { subst s1. simpl. rewrite labelling_grid_unfold.
    rewrite (store_page_first _ _ Hi). simpl.
    by destruct (new_page_frame (world s) now (self s)) as (_ & -> & _). }
  split; [done|]. split.
  - subst s2. destruct (run_clicks_frame clicks s1 Hc) as [-> ->]. done.
  - intros s0. by apply run_clicks_frame.
Qed.

(** ** Clicks *)

Lemma update_state w now img l ts :
  state_of (SingleImage.update w now img l ts)
  = {| SingleImage.path := SingleImage.path img;
       SingleImage.ax := SingleImage.ax img;
       SingleImage.color_map := SingleImage.color_map img;
       SingleImage.fontsize := SingleImage.fontsize img;
       SingleImage.label := l;
       SingleImage.timestamp := if String.eqb ts "None" then now else ts |}.
Proof.
  unfold SingleImage.update. simpl.
  destruct (SingleImage.color_map img !! l) as [[c|]|]; simpl; try done.
  - destruct (negb (l =? "None")%string); [|done]. by destruct (to_rgb w c).
  - by destruct (negb (l =? "None")%string).
Qed.

Lemma update_clicked w now img bound :
  let l := if String.eqb bound (SingleImage.label img) then "None" else bound in
  clicked bound now img (state_of (SingleImage.update w now img l now)).
Proof.
  simpl. rewrite update_state. unfold clicked; simpl.
  repeat split. by destruct (now =? "None")%string.
Qed.

Lemma constructed_recognized self b bound :
  constructed_maps self ->
  click_map self !! b = Some bound ->
  (b = 1 \/ b = 3)
  /\ forall lab : string,
       is_Some (color_map self
                  !! (if String.eqb bound lab then "None" else bound)).
Proof.
  intros (l0 & l1 & c0 & c1 & Hc & Hm) Hb.
  rewrite Hc in Hb. unfold dict in Hb. simpl in Hb.
  rewrite Hm. unfold dict. simpl.
  assert (Hcases : (b = 1 /\ bound = l0) \/ (b = 3 /\ bound = l1)).
  { destruct (decide (b = 3)) as [->|H3].
    - rewrite lookup_insert_eq in Hb. right. split; congruence.
    - rewrite lookup_insert_ne in Hb by done.
      destruct (decide (b = 1)) as [->|H1].
      + rewrite lookup_insert_eq in Hb. left. split; congruence.
      + rewrite lookup_insert_ne in Hb by done. by rewrite lookup_empty in Hb. }
  split; [tauto|]. intros lab.
  destruct (bound =? lab)%string; [by rewrite lookup_insert_eq|].
  destruct (decide ("None" = bound)) as [<-|Hn]; [by rewrite lookup_insert_eq|].
  rewrite lookup_insert_ne by done.
  destruct (decide (l1 = bound)) as [<-|Hl1]; [by rewrite lookup_insert_eq|].
  rewrite lookup_insert_ne by done.
  destruct Hcases as [[_ ->]|[_ ->]]; [by rewrite lookup_insert_eq | done].
Qed.

Lemma click_effect_refl self event now imgs :
  (forall img, img ∈ imgs -> inaxes event <> Some (SingleImage.ax img)) ->
  Forall2 (click_effect self event now) imgs imgs.
Proof.
  intros H. apply Forall2_same_length_lookup_2; [done|].
  intros i x y Hx Hy. assert (x = y) as <- by congruence.
  unfold click_effect. destruct (click_map self !! button event); [|done].
  rewrite bool_decide_eq_false_2; [done|].
  apply H. by eapply list_elem_of_lookup_2.
Qed.

Lemma onclick_loop_spec w now self event bound imgs :
  constructed_maps self ->
  click_map self !! button event = Some bound ->
  NoDup (map SingleImage.ax imgs) ->
  Forall2 (click_effect self event now) imgs
          (state_of (onclick_loop w now self event imgs)).
Proof.
  intros Hm Hb. induction imgs as [|img imgs IH]; intros Hnd; simpl.
  - constructor.
  - apply NoDup_cons in Hnd as [Hnotin Hnd]. specialize (IH Hnd).
    case_bool_decide as Hax.
    + rewrite Hb.
      destruct (constructed_recognized _ _ _ Hm Hb) as [_ Hcol].
      destruct (Hcol (SingleImage.label img)) as [color ->].
      pose proof (update_clicked w now img bound) as Hupd. simpl in Hupd.
      assert (Hhead : forall img',
        clicked bound now img img' -> click_effect self event now img img').
      { intros img' H. unfold click_effect. rewrite Hb.
        by rewrite bool_decide_eq_true_2. }
      destruct (SingleImage.update w now img _ now) as [img'|e img']; simpl in *.
      * destruct (onclick_loop w now self event imgs) as [r|e r]; simpl in *;
          constructor; auto.
      * constructor; [auto|]. apply click_effect_refl.
        intros x Hx Heq. apply Hnotin.
        assert (SingleImage.ax img = SingleImage.ax x) as -> by congruence.
        apply list_elem_of_In, in_map, list_elem_of_In, Hx.
    + assert (Hhead : click_effect self event now img img).
      { unfold click_effect. rewrite Hb. by rewrite bool_decide_eq_false_2. }
      destruct (onclick_loop w now self event imgs) as [r|e r]; simpl in *;
        constructor; auto.
Qed.

Lemma onclick_loop_miss w now self event imgs :
  (forall img, img ∈ imgs -> inaxes event <> Some (SingleImage.ax img)) ->
  onclick_loop w now self event imgs = Returns imgs.
Proof.
  induction imgs as [|img imgs IH]; intros H; simpl; [done|].
  rewrite bool_decide_eq_false_2 by (apply H; left).
  rewrite IH; [done|]. intros x Hx. apply H. by right.
Qed.

Lemma set_images_same self : set_images self (images self) = self.
Proof. by destruct self. Qed.

(** C1: a click of a recognized button (one that [click_map] binds to a
    label) on the axes of a tile sets the label of that tile to [None] when
    the bound label is the tile's label and to the bound label otherwise,
    and sets its timestamp to the current time; every other tile is left as
    it was.  A click of another button, or outside every tile, changes no
    tile: the object is left as it was. *)
Theorem onclick_sets_label w now self event :
  constructed_maps self ->
  NoDup (map SingleImage.ax (images self)) ->
  let self' := state_of (onclick w now self event) in
  Forall2 (click_effect self event now) (images self) (images self')
  /\ (forall b, is_Some (click_map self !! b) <-> b = 1 \/ b = 3)
  /\ (click_map self !! button event = None
      \/ (forall img, img ∈ images self ->
                      inaxes event <> Some (SingleImage.ax img)) ->
      onclick w now self event = Returns self).
Proof.
  intros Hm Hnd self'. subst self'.
  assert (Hloop : Forall2 (click_effect self event now) (images self)
            (images (state_of (onclick w now self event)))).
  { unfold onclick. case_bool_decide as Hdom.
    - apply elem_of_dom in Hdom as [bound Hb].
      pose proof (onclick_loop_spec w now self event bound _ Hm Hb Hnd) as H.
      by destruct (onclick_loop w now self event (images self)).
    - apply not_elem_of_dom in Hdom. simpl.
      apply Forall2_same_length_lookup_2; [done|].
      intros i x y Hx Hy. unfold click_effect. rewrite Hdom. congruence. }
  split; [done|]. split.
  - intros b. split.
    + intros [bound Hb]. by destruct (constructed_recognized _ _ _ Hm Hb).
    + destruct Hm as (l0 & l1 & c0 & c1 & -> & _). unfold dict. simpl.
      intros [->| ->]; [rewrite lookup_insert_ne by done|];
        rewrite lookup_insert_eq; eauto.
  - intros [Hno|Hno]; unfold onclick.
    + rewrite bool_decide_eq_false_2; [done|]. by apply not_elem_of_dom.
    + rewrite onclick_loop_miss by done. rewrite set_images_same.
      by case_bool_decide.
Qed.

(** ** Writing the labels of a grid into the table *)

Lemma mem_spec x l : mem x l = true <-> x ∈ l.
Proof.
  unfold mem. rewrite existsb_exists. split.
  - intros (y & Hy & He). apply String.eqb_eq in He as ->.
    by apply list_elem_of_In.
  - intros H. exists x. split; [by apply list_elem_of_In | apply String.eqb_refl].
Qed.

Lemma mem_false x l : mem x l = false <-> x ∉ l.
Proof.
  rewrite <- mem_spec. destruct (mem x l); split; congruence.
Qed.

Lemma elem_of_index df key :
  key ∈ index df <-> exists r, r ∈ df_rows df /\ r.1 = key.
Proof.
  unfold index. change (map fst (df_rows df)) with (fst <$> df_rows df).
  rewrite list_elem_of_fmap. split.
  - intros (r & -> & Hr). eauto.
  - intros (r & Hr & <-). eauto.
Qed.

Lemma loc_set_spec df key vals :
  length vals = length (df_columns df) ->
  exists df',
    loc_set df key vals = Ok df'
    /\ df_columns df' = df_columns df
    /\ index_name df' = index_name df
    /\ key ∈ index df'
    /\ (forall r, r ∈ df_rows df' -> r.1 = key -> r.2 = vals)
    /\ (forall k, k <> key -> rows_of df' k = rows_of df k)
    /\ (forall k, k ∈ index df -> k ∈ index df')
    /\ (NoDup (index df) -> NoDup (index df')).
Proof.
  intros Hlen. unfold loc_set. rewrite Hlen, Nat.eqb_refl. simpl.
  destruct (mem key (index df)) eqn:Hmem;
    (eexists; split; [reflexivity|]);
    unfold rows_of, index in *; simpl;
    (split; [done|]); (split; [done|]).
  - apply mem_spec in Hmem.
    set (f := fun r : string * list string =>
                if (r.1 =? key)%string then (key, vals) else r).
    assert (Hfst : forall r, (f r).1 = r.1).
    { intros r. unfold f. destruct (r.1 =? key)%string eqn:E; [|done].
      apply String.eqb_eq in E. by rewrite E. }
    assert (Hidx : map fst (map f (df_rows df)) = map fst (df_rows df)).
    { rewrite map_map. apply map_ext. apply Hfst. }
    rewrite Hidx.
    split; [done|]. split; [|split; [|done]].
    + intros r Hr Hk. apply list_elem_of_In, in_map_iff in Hr as (r0 & <- & _).
      unfold f in *. destruct (r0.1 =? key)%string eqn:E; [done|].
      apply String.eqb_neq in E. done.
    + intros k Hk. clear Hmem Hidx.
      induction (df_rows df) as [|r l IH]; [done|]. simpl.
      rewrite !filter_cons, IH, Hfst.
      destruct (decide (r.1 = k)) as [E|E]; [|done].
      f_equal. unfold f. destruct (r.1 =? key)%string eqn:E'; [|done].
      apply String.eqb_eq in E'. congruence.
  - apply mem_false in Hmem.
    rewrite map_app. simpl.
    split; [apply elem_of_app; right; by apply list_elem_of_singleton|].
    split; [|split; [|split]].
    + intros r Hr Hk. apply elem_of_app in Hr as [Hr|Hr].
      * exfalso. apply Hmem. apply (elem_of_index df). eauto.
      * apply list_elem_of_singleton in Hr. by subst r.
    + intros k Hk. rewrite filter_app.
      rewrite filter_cons. simpl. rewrite decide_False by done.
      rewrite filter_nil. apply app_nil_r.
    + intros k Hk. apply elem_of_app. by left.
    + intros Hnd. apply NoDup_app. split; [done|]. split.
      * intros x Hx Hx'. apply list_elem_of_singleton in Hx'. by subst.
      * apply NoDup_singleton.
Qed.

Lemma store_labels_spec imgs : forall df,
  length (df_columns df) = 2%nat ->
  exists df',
    store_labels imgs df = Returns df'
    /\ df_columns df' = df_columns df
    /\ index_name df' = index_name df
    /\ (forall k, k ∈ index df -> k ∈ index df')
    /\ (NoDup (index df) -> NoDup (index df'))
    /\ (forall key,
          match written key imgs with
          | Some v =>
              key ∈ index df'
              /\ (forall r, r ∈ df_rows df' -> r.1 = key -> r.2 = v)
          | None => rows_of df' key = rows_of df key
          end).
Proof.
  induction imgs as [|i imgs IH]; intros df Hcols; simpl.
  - exists df. repeat split; done.
  - destruct (loc_set_spec df (SingleImage.path i)
                [SingleImage.label i; SingleImage.timestamp i])
      as (df1 & -> & Hc1 & Hn1 & Hin1 & Hv1 & Ho1 & Hk1 & Hd1); [by rewrite Hcols|].
    destruct (IH df1) as (df' & -> & Hc & Hn & Hk & Hd & Hw); [congruence|].
    exists df'. split; [done|]. split; [congruence|]. split; [congruence|].
    split; [auto|]. split; [auto|].
    intros key. specialize (Hw key).
    destruct (written key imgs) as [v|]; [done|].
    destruct (SingleImage.path i =? key)%string eqn:E.
    + apply String.eqb_eq in E. subst key.
      assert (Hrows : forall r, r ∈ df_rows df' -> r.1 = SingleImage.path i ->
                                r ∈ df_rows df1).
      { intros r Hr Hp.
        assert (Hf : r ∈ rows_of df' (SingleImage.path i))
          by (by apply list_elem_of_filter).
        rewrite Hw in Hf. by apply list_elem_of_filter in Hf as [_ ?]. }
      split; [auto|]. intros r Hr Hp. apply Hv1; auto.
    + apply String.eqb_neq in E. rewrite Hw. apply Ho1. congruence.
Qed.

Lemma written_NoDup imgs img :
  NoDup (map SingleImage.path imgs) ->
  img ∈ imgs ->
  written (SingleImage.path img) imgs
  = Some [SingleImage.label img; SingleImage.timestamp img].
Proof.
  induction imgs as [|i imgs IH]; intros Hnd Hin; [by apply elem_of_nil in Hin|].
  simpl in *. apply NoDup_cons in Hnd as [Hni Hnd].
  apply elem_of_cons in Hin as [->|Hin].
  - assert (written (SingleImage.path i) imgs = None) as ->.
    { clear IH Hnd. induction imgs as [|j imgs IH]; [done|]. simpl in *.
      rewrite IH by (intros H; apply Hni; by right).
      destruct (SingleImage.path j =? SingleImage.path i)%string eqn:E; [|done].
      apply String.eqb_eq in E. exfalso. apply Hni. rewrite E. left. }
    by rewrite String.eqb_refl.
  - by rewrite IH.
Qed.

Lemma written_Some key imgs :
  key ∈ map SingleImage.path imgs -> is_Some (written key imgs).
Proof.
  induction imgs as [|i imgs IH]; simpl; intros H; [by apply elem_of_nil in H|].
  apply elem_of_cons in H as [->|H].
  - destruct (written (SingleImage.path i) imgs); [eauto|].
    rewrite String.eqb_refl. eauto.
  - destruct (IH H) as [v ->]. eauto.
Qed.

Lemma written_None key imgs :
  key ∉ map SingleImage.path imgs -> written key imgs = None.
Proof.
  induction imgs as [|i imgs IH]; simpl; intros H; [done|].
  rewrite IH by (intros ?; apply H; by right).
  destruct (SingleImage.path i =? key)%string eqn:E; [|done].
  apply String.eqb_eq in E. exfalso. apply H. rewrite E. left.
Qed.

(** A call of [labelling_grid] when a grid was shown ([images] is not
    empty), on a table of the two columns of the result table and with a
    result path that can be written.  Before the new grid is made, each tile
    of the grid is written into the table under its path, as [df]: the path
    is a key of [df], the rows of that key hold the label and the timestamp
    of the tile (of the last tile of that path, should two tiles share one),
    the other keys keep their rows, and no key is doubled.  Then the file at
    [result_path] is replaced by the whole of [df], and [image_paths] is
    rotated by [num]: the paths of the grid that was shown go to the end.
    The new grid is made from that state. *)
Lemma labelling_grid_stores_page w now self :
  images self <> [] ->
  length (df_columns (result self)) = 2%nat ->
  write_errors w !! result_path self = None ->
  exists df w1,
    let paths := slice_from (num self) (image_paths self)
                 ++ slice_to (num self) (image_paths self) in
    let self1 := set_image_paths (set_result self df) paths in
    let final := state_of (labelling_grid w now self) in
    store_page w self = Returns (self1, w1)
    /\ final = (state_of (new_page w1 now self1), w1)
    /\ (forall img, img ∈ images self -> SingleImage.path img ∈ index df)
    /\ (forall key v, written key (images self) = Some v ->
        forall r, r ∈ df_rows df -> r.1 = key -> r.2 = v)
    /\ (NoDup (map SingleImage.path (images self)) ->
        forall img r, img ∈ images self -> r ∈ df_rows df ->
          r.1 = SingleImage.path img ->
          r.2 = [SingleImage.label img; SingleImage.timestamp img])
    /\ (forall key, key ∉ map SingleImage.path (images self) ->
        rows_of df key = rows_of (result self) key)
    /\ (NoDup (index (result self)) -> NoDup (index df))
    /\ result final.1 = df
    /\ files final.2
       = <[result_path self :=
             Csv {| header := index_name (result self)
                              :: df_columns (result self);
                    body := map (fun r => r.1 :: r.2) (df_rows df) |}]>
           (files w)
    /\ image_paths final.1 = paths
    /\ (map SingleImage.path (images self)
        = slice_to (num self) (image_paths self) ->
        image_paths final.1
        = slice_from (num self) (image_paths self)
          ++ map SingleImage.path (images self)).
Proof.
  intros Himg Hcols Hwr.
  destruct (store_labels_spec (images self) (result self) Hcols)
    as (df & Hst & Hc & Hn & Hk & Hd & Hw).
  exists df, (with_file w (result_path self) (to_csv df)).
  intros paths self1 final.
  set (w1 := with_file w (result_path self) (to_csv df)).
  assert (Hpage : store_page w self = Returns (self1, w1)).
  { unfold store_page. destruct (images self) as [|i l] eqn:E; [done|].
    simpl Nat.ltb. cbv iota. rewrite Hst. unfold write_file.
    cbn [result_path set_result]. by rewrite Hwr. }
  assert (Hfinal : final = (state_of (new_page w1 now self1), w1)).
  { subst final. by rewrite labelling_grid_unfold, Hpage. }
  destruct (new_page_frame w1 now self1) as (Hfp & Hfr & _).
  split; [done|]. split; [done|]. split; [|split; [|split; [|split]]].
  - intros img Hin. specialize (Hw (SingleImage.path img)).
    destruct (written_Some (SingleImage.path img) (images self)) as [v Hv].
    { apply list_elem_of_In, in_map, list_elem_of_In, Hin. }
    rewrite Hv in Hw. tauto.
  - intros key v Hv. specialize (Hw key). rewrite Hv in Hw. tauto.
  - intros Hnd img r Hin Hr Hp. specialize (Hw (SingleImage.path img)).
    rewrite (written_NoDup _ _ Hnd Hin) in Hw.
    destruct Hw as [_ Hw]. by apply Hw.
  - intros key Hkey. specialize (Hw key).
    by rewrite (written_None _ _ Hkey) in Hw.
  - split; [done|]. rewrite Hfinal. simpl. rewrite Hfp, Hfr. simpl.
    split; [done|]. split; [|split; [done|by intros ->]].
    unfold to_csv. simpl. by rewrite Hc, Hn.
Qed.

(** ** The checks of the constructor *)

Lemma check_pair_spec v s : check_pair (v, s) = Ok tt <-> two_strs v.
Proof.
  unfold check_pair, two_strs, len, getitem. simpl.
  destruct v as [|b|z|m e|s0|l|l]; simpl;
    try (split; [discriminate | by intros (a & b' & [=])]).
  - destruct s0 as [|c0 [|c1 [|c2 s0]]]; simpl;
      try (split; [discriminate | by intros (a & b' & [=])]).
    split; [eauto | done].
  - destruct l as [|x [|y [|z l]]]; simpl;
      try (split; [discriminate | by intros (a & b' & [=])]).
    destruct x; simpl; try (split; [discriminate | by intros (a & b' & [=])]).
    destruct y; simpl; try (split; [discriminate | by intros (a & b' & [=])]).
    split; [eauto | done].
  - destruct l as [|x [|y [|z l]]]; simpl;
      try (split; [discriminate | by intros (a & b' & [=])]).
    destruct x; simpl; try (split; [discriminate | by intros (a & b' & [=])]).
    destruct y; simpl; try (split; [discriminate | by intros (a & b' & [=])]).
    split; [eauto | done].
Qed.

Lemma bind_unit_ok {B} (m : res unit) (k : res B) (b : B) :
  (_ ← m; k) = Ok b <-> m = Ok tt /\ k = Ok b.
Proof.
  destruct m as [[]|e]; simpl; split; try tauto; try discriminate.
  by intros [? ?].
Qed.

Lemma assert_ok c msg : assert c msg = Ok tt <-> c = true.
Proof. destruct c; simpl; split; done. Qed.

Lemma check_arguments_spec d p lo co r c fs :
  check_arguments d p lo co r c fs = Ok tt
  <-> checked_arguments d p lo co r c fs.
Proof.
  unfold check_arguments, checked_arguments. simpl for_each.
  rewrite !bind_unit_ok, !check_pair_spec.
  unfold check_str, check_int. simpl. rewrite !assert_ok.
  intuition.
Qed.

Lemma check_arguments_raises w d p lo co r c fs e :
  check_arguments d p lo co r c fs = Err e ->
  __init__ w d p lo co r c fs = Err e.
Proof. intros H. unfold __init__. by rewrite H. Qed.

Lemma init_ok w d p lo co r c fs :
  is_ok (__init__ w d p lo co r c fs) = true
  <-> check_arguments d p lo co r c fs = Ok tt
      /\ exists df paths,
           result_table w (str_of p) = Ok df
           /\ get_image_paths w df (str_of d) = Ok paths.
Proof.
  unfold __init__.
  destruct (check_arguments d p lo co r c fs) as [[]|e]; simpl;
    [|split; [discriminate | by intros [? _]]].
  destruct (result_table w (str_of p)) as [df|e]; simpl;
    [|split; [discriminate | by intros (_ & ? & ? & ? & _)]].
  destruct (get_image_paths w df (str_of d)) as [paths|e] eqn:Hp; simpl.
  - split; [eauto | done].
  - split; [discriminate|]. intros (_ & df' & paths & [= <-] & ?). congruence.
Qed.

(** C3, as the code has it: the constructor checks the types of its
    arguments and nothing else.  The checks pass exactly when the data
    directory and the result path are [str], the label options and the colour
    options are iterables of two items that are both [str], and the row
    count, the column count and the font size are [int]; neither a positive
    value nor a colour that resolves to RGB is asked for.  An argument that
    fails a check makes the constructor raise that failure, before any file
    is read; and the constructor succeeds exactly when the checks pass, the
    result table loads and the data directory can be listed. *)
Theorem init_checks_types w d p lo co r c fs :
  (check_arguments d p lo co r c fs = Ok tt
   <-> checked_arguments d p lo co r c fs)
  /\ (forall e, check_arguments d p lo co r c fs = Err e ->
                __init__ w d p lo co r c fs = Err e)
  /\ (is_ok (__init__ w d p lo co r c fs) = true
      <-> checked_arguments d p lo co r c fs
          /\ exists df paths,
               result_table w (str_of p) = Ok df
               /\ get_image_paths w df (str_of d) = Ok paths).
Proof.
  split; [apply check_arguments_spec|]. split.
  - intros e. apply check_arguments_raises.
  - rewrite init_ok, check_arguments_spec. done.
Qed.

(** C3, counterexample: a grid of no rows, and a colour that does not
    resolve, are accepted by the constructor, though neither is a valid
    configuration in the words of the specification. *)
Lemma init_accepts_zero_rows :
  is_ok (__init__ example_world (PyStr "data") (PyStr "labels/df.csv")
           (PyList [PyStr "Cat meme"; PyStr "Dog meme"])
           (PyList [PyStr "red"; PyStr "not a colour"])
           (PyInt 0) (PyInt 4) (PyInt 10)) = true
  /\ ~ spec_valid_configuration example_world
         (PyStr "data") (PyStr "labels/df.csv")
         (PyList [PyStr "Cat meme"; PyStr "Dog meme"])
         (PyList [PyStr "red"; PyStr "not a colour"])
         (PyInt 0) (PyInt 4) (PyInt 10)
  /\ ~ (forall w d p lo co r c fs,
          is_ok (__init__ w d p lo co r c fs) = true
          <-> spec_valid_configuration w d p lo co r c fs).
Proof.
  assert (Hok : is_ok (__init__ example_world (PyStr "data")
           (PyStr "labels/df.csv")
           (PyList [PyStr "Cat meme"; PyStr "Dog meme"])
           (PyList [PyStr "red"; PyStr "not a colour"])
           (PyInt 0) (PyInt 4) (PyInt 10)) = true) by (vm_compute; reflexivity).
  assert (Hbad : ~ spec_valid_configuration example_world
         (PyStr "data") (PyStr "labels/df.csv")
         (PyList [PyStr "Cat meme"; PyStr "Dog meme"])
         (PyList [PyStr "red"; PyStr "not a colour"])
         (PyInt 0) (PyInt 4) (PyInt 10)).
  { intros (_ & _ & _ & _ & (z & [= <-] & Hz) & _). lia. }
  split; [done|]. split; [done|].
  intros H. apply Hbad, H, Hok.
Qed.

(** ** Sorting *)

Section SortFacts.
Context {A : Type} (leb : A -> A -> bool).
Hypothesis leb_total : forall a b, leb a b = true \/ leb b a = true.

Lemma sort_insert_Permutation x l : sort_insert leb x l ≡ₚ x :: l.
Proof.
  induction l as [|y l IH]; simpl; [done|].
  destruct (leb x y); [done|]. rewrite IH. apply Permutation_swap.
Qed.

Lemma sort_Permutation l : sort leb l ≡ₚ l.
Proof.
  induction l as [|x l IH]; simpl; [done|].
  by rewrite sort_insert_Permutation, IH.
Qed.

Lemma sort_insert_Sorted x l :
  Sorted (fun a b => leb a b = true) l ->
  Sorted (fun a b => leb a b = true) (sort_insert leb x l).
Proof.
  induction 1 as [|y l Hs IH Hhd]; simpl.
  - repeat constructor.
  - destruct (leb x y) eqn:E.
    + constructor; [by constructor | by constructor].
    + constructor; [done|].
      assert (Hyx : leb y x = true) by (destruct (leb_total x y); congruence).
      destruct l as [|z l]; simpl in *; [by constructor|].
      destruct (leb x z); constructor; [done|]. by inversion Hhd.
Qed.

Lemma sort_Sorted l : Sorted (fun a b => leb a b = true) (sort leb l).
Proof.
  induction l as [|x l IH]; simpl; [constructor | by apply sort_insert_Sorted].
Qed.

Lemma sort_of_Sorted l :
  Sorted (fun a b => leb a b = true) l -> sort leb l = l.
Proof.
  induction 1 as [|x l Hs IH Hhd]; simpl; [done|].
  rewrite IH. destruct Hhd as [|y l Hxy]; simpl; [done | by rewrite Hxy].
Qed.

End SortFacts.

Lemma sort_map {A B} (leb : B -> B -> bool) (f : A -> B) l :
  sort leb (map f l) = map f (sort (fun a b => leb (f a) (f b)) l).
Proof.
  induction l as [|x l IH]; simpl; [done|]. rewrite IH.
  generalize (sort (fun a b => leb (f a) (f b)) l). intros s.
  induction s as [|y s IHs]; simpl; [done|].
  destruct (leb (f x) (f y)); simpl; [done | by rewrite IHs].
Qed.

Lemma sort_ext {A} (leb1 leb2 : A -> A -> bool) l :
  (forall a b, leb1 a b = leb2 a b) -> sort leb1 l = sort leb2 l.
Proof.
  intros H. induction l as [|x l IH]; simpl; [done|]. rewrite IH.
  generalize (sort leb2 l). intros s.
  induction s as [|y s IHs]; simpl; [done|].
  rewrite H. destruct (leb2 x y); [done | by rewrite IHs].
Qed.

(** ** Loading the result table *)

Lemma index_of_None x l : index_of x l = None <-> mem x l = false.
Proof.
  induction l as [|y l IH]; simpl; [done|].
  destruct (x =? y)%string; simpl; [split; discriminate|].
  rewrite <- IH. destruct (index_of x l); simpl; split; done.
Qed.

Lemma mem_delete x i l : mem x l = false -> mem x (delete i l) = false.
Proof.
  rewrite !mem_false. intros H Hin. apply H.
  by apply list_elem_of_delete_inv in Hin.
Qed.

Lemma set_column_columns df name vals x :
  x <> name ->
  mem x (df_columns df) = false ->
  mem x (df_columns (set_column df name vals)) = false.
Proof.
  intros Hne H. unfold set_column.
  destruct (index_of name (df_columns df)); simpl; [done|].
  apply mem_false. apply mem_false in H. intros Hin.
  apply elem_of_app in Hin as [Hin|Hin]; [done|].
  by apply list_elem_of_singleton in Hin.
Qed.

Lemma read_result_missing_column f :
  has_result_columns f = false -> is_ok (read_result f) = false.
Proof.
  destruct f as [|t]; [done|]. simpl. intros H.
  unfold read_result, read_csv, set_index.
  destruct (index_of "filename" (header t)) as [i|] eqn:Hi; [|done].
  assert (Hf : mem "filename" (header t) = true).
  { destruct (mem "filename" (header t)) eqn:E; [done|].
    apply index_of_None in E. congruence. }
  rewrite Hf in H. simpl in H. simpl.
  set (df := {| index_name := "filename"; df_columns := delete i (header t);
                df_rows := _ |}).
  unfold get_column.
  destruct (index_of "label" (df_columns df)) as [j|] eqn:Hj; [|done]. simpl.
  assert (Hl : mem "label" (header t) = true).
  { destruct (mem "label" (header t)) eqn:E; [done|].
    apply (mem_delete _ i), index_of_None in E. simpl in Hj. congruence. }
  rewrite Hl in H. simpl in H.
  unfold sort_values.
  set (df2 := set_column df "done" _).
  assert (Ht : index_of "timestamp" (df_columns df2) = None).
  { apply index_of_None, set_column_columns; [done|]. by apply mem_delete. }
  simpl. destruct (index_of "done" (df_columns df2)); [|done].
  by rewrite Ht.
Qed.

Lemma index_of_mem x l : mem x l = true -> is_Some (index_of x l).
Proof.
  intros H. destruct (index_of x l) eqn:E; [eauto|].
  apply index_of_None in E. congruence.
Qed.

Lemma mem_delete_other x y i l :
  index_of y l = Some i -> x <> y ->
  mem x l = true -> mem x (delete i l) = true.
Proof.
  revert i. induction l as [|z l IH]; intros i; simpl; [done|].
  destruct (y =? z)%string eqn:Eyz.
  - intros [= <-] Hne. apply String.eqb_eq in Eyz. subst z. simpl.
    destruct (x =? y)%string eqn:Exy; [|done].
    apply String.eqb_eq in Exy. done.
  - destruct (index_of y l) as [j|] eqn:Ej; [|done]. simpl.
    intros [= <-] Hne. simpl.
    destruct (x =? z)%string; [done|]. simpl. by apply IH.
Qed.

Lemma set_column_keeps df name vals x :
  mem x (df_columns df) = true ->
  mem x (df_columns (set_column df name vals)) = true.
Proof.
  intros H. unfold set_column.
  destruct (index_of name (df_columns df)); simpl; [done|].
  apply mem_spec, elem_of_app. left. by apply mem_spec.
Qed.

Lemma set_column_has df name vals :
  mem name (df_columns (set_column df name vals)) = true.
Proof.
  unfold set_column.
  destruct (index_of name (df_columns df)) eqn:E; simpl.
  - destruct (mem name (df_columns df)) eqn:Em; [done|].
    apply index_of_None in Em. congruence.
  - apply mem_spec, elem_of_app. right. by apply list_elem_of_singleton.
Qed.

(** The [try] block of [result_table] succeeds exactly on the files that
    parse as a table with the three columns. *)
Lemma read_result_loads f : is_ok (read_result f) = has_result_columns f.
Proof.
  destruct (has_result_columns f) eqn:H;
    [|by apply read_result_missing_column].
  destruct f as [|t]; [done|]. simpl in H.
  apply andb_prop in H as [H Ht]. apply andb_prop in H as [Hf Hl].
  unfold read_result, read_csv, set_index.
  destruct (index_of_mem _ _ Hf) as [i Hi]. rewrite Hi. simpl.
  set (df := {| index_name := "filename"; df_columns := delete i (header t);
                df_rows := _ |}).
  assert (Hl' : mem "label" (df_columns df) = true)
    by (by apply (mem_delete_other _ "filename")).
  assert (Ht' : mem "timestamp" (df_columns df) = true)
    by (by apply (mem_delete_other _ "filename")).
  unfold get_column. destruct (index_of_mem _ _ Hl') as [j ->]. simpl.
  match goal with
  | |- context [set_column df "done" ?v] => generalize v; intros vals
  end.
  unfold sort_values. simpl.
  destruct (index_of_mem _ _ (set_column_has df "done" vals)) as [k Hk].
  rewrite Hk.
  destruct (index_of_mem "timestamp" (df_columns (set_column df "done" vals)))
    as [m ->]; [by apply set_column_keeps|].
  simpl. unfold drop_column. simpl. by rewrite Hk.
Qed.

(** C5: when the file at the result path exists and does not parse as a
    table with the columns [filename], [label] and [timestamp], loading the
    table raises the [ValueError] that names the three columns, and gives no
    table; the constructor fails, with that error once its arguments have
    passed the checks, and the load is made once. *)
Theorem result_table_rejects_bad_file w d p lo co r c fs f :
  files w !! str_of p = Some f ->
  has_result_columns f = false ->
  result_table w (str_of p) = Err result_table_error
  /\ is_ok (__init__ w d p lo co r c fs) = false
  /\ (check_arguments d p lo co r c fs = Ok tt ->
      __init__ w d p lo co r c fs = Err result_table_error).
Proof.
  intros Hf Hbad.
  assert (H : result_table w (str_of p) = Err result_table_error).
  { unfold result_table. rewrite Hf.
    pose proof (read_result_missing_column f Hbad).
    by destruct (read_result f). }
  split; [done|]. unfold __init__. rewrite H.
  by destruct (check_arguments d p lo co r c fs) as [[]|e].
Qed.

(** C7: when no file exists at the result path, loading the table gives the
    empty table with the index [filename] and the columns [label] and
    [timestamp]; and the constructor, on arguments that pass its checks and a
    data directory that can be listed, succeeds with that table. *)
Theorem result_table_without_file w d p lo co r c fs :
  files w !! str_of p = None ->
  result_table w (str_of p) = Ok empty_result
  /\ index empty_result = []
  /\ to_csv empty_result = Csv {| header := result_header; body := [] |}
  /\ (checked_arguments d p lo co r c fs ->
      forall paths,
        get_image_paths w empty_result (str_of d) = Ok paths ->
        exists self,
          __init__ w d p lo co r c fs = Ok self
          /\ result self = empty_result
          /\ image_paths self = paths).
Proof.
  intros Hf.
  assert (H : result_table w (str_of p) = Ok empty_result).
  { unfold result_table. by rewrite Hf. }
  split; [done|]. split; [done|]. split; [done|].
  intros Hargs paths Hpaths. apply check_arguments_spec in Hargs.
  unfold __init__. rewrite Hargs. simpl. rewrite H. simpl.
  rewrite Hpaths. simpl. eauto.
Qed.

Lemma compare_refl s : String.compare s s = Eq.
Proof.
  destruct (String.compare s s) eqn:E; [done| |];
    pose proof (String.compare_antisym s s) as H; rewrite E in H; done.
Qed.

Lemma key_leb_total k1 k2 : key_leb k1 k2 = true \/ key_leb k2 k1 = true.
Proof.
  revert k2. induction k1 as [|x k1 IH]; intros [|y k2]; simpl; auto.
  rewrite (String.compare_antisym y x).
  destruct (String.compare x y); simpl; auto.
Qed.

Lemma result_leb_total a b : result_leb a b = true \/ result_leb b a = true.
Proof. apply key_leb_total. Qed.

Lemma zip_with_map_r {A B C} (g : A -> B -> C) (h : A -> B) l :
  zip_with g l (map h l) = map (fun x => g x (h x)) l.
Proof. induction l as [|x l IH]; simpl; [done | by rewrite IH]. Qed.

Lemma load_row_width r :
  length r = 3%nat -> length (load_row r).2 = 2%nat /\ save_row (load_row r) = r.
Proof. destruct r as [|a [|b [|c [|e r]]]]; simpl; intros [=]; done. Qed.

Lemma with_done_strip r :
  length r.2 = 2%nat ->
  (r.1, delete 2%nat (with_done r).2) = r.
Proof.
  destruct r as [k [|a [|b [|c cs]]]]; simpl; intros [=]; done.
Qed.

Lemma read_result_well_formed t :
  well_formed t ->
  read_result (Csv t)
  = Ok {| index_name := "filename";
          df_columns := ["label"; "timestamp"];
          df_rows := sort result_leb (map load_row (body t)) |}.
Proof.
  destruct t as [h b]. intros [Hh Hb]. simpl in *. subst h.
  unfold read_result, read_csv, set_index, get_column, sort_values. simpl.
  unfold drop_column. simpl. do 2 f_equal.
  rewrite map_map, zip_with_map_r.
  fold load_row.
  change (map (fun x : string * list string => _) (map load_row b))
    with (map with_done (map load_row b)).
  rewrite (sort_map (row_leb [2; 1]%nat) with_done).
  fold result_leb. rewrite map_map.
  change (fun a b => row_leb [2%nat; 1%nat] (with_done a) (with_done b))
    with result_leb.
  assert (Hw : Forall (fun r : string * list string => length r.2 = 2%nat)
                 (sort result_leb (map load_row b))).
  { rewrite sort_Permutation. apply Forall_fmap. eapply Forall_impl; [apply Hb|].
    intros r Hr. by apply load_row_width. }
  induction Hw as [|r l Hr Hl IH]; [done|].
  rewrite map_cons, IH. f_equal. by apply (with_done_strip r).
Qed.

Lemma result_leb_order a b :
  length a.2 = 2%nat -> length b.2 = 2%nat ->
  result_leb a b = true -> by_done_timestamp (save_row a) (save_row b).
Proof.
  destruct a as [ka [|la [|ta [|xa csa]]]]; simpl; intros [=].
  destruct b as [kb [|lb [|tb [|xb csb]]]]; simpl; intros [=].
  unfold result_leb, row_leb, sort_key, with_done, by_done_timestamp,
    done_of, save_row, cell.
  simpl. unfold String.leb.
  destruct (la =? "None")%string, (lb =? "None")%string; simpl;
    try discriminate; try (by left);
    destruct (String.compare ta tb); try discriminate; by right.
Qed.

Lemma Sorted_save_rows l :
  Forall (fun r : string * list string => length r.2 = 2%nat) l ->
  Sorted (fun a b => result_leb a b = true) l ->
  Sorted by_done_timestamp (map save_row l).
Proof.
  intros Hw Hs. induction Hs as [|x l Hs IH Hhd]; simpl; [constructor|].
  apply Forall_cons in Hw as [Hx Hw].
  constructor; [by apply IH|].
  destruct Hhd as [|y l Hxy]; simpl; constructor.
  apply Forall_cons in Hw as [Hy _]. by apply result_leb_order.
Qed.

Lemma load_save_row r : load_row (save_row r) = r.
Proof. by destruct r. Qed.

(** A well formed saved table (the header [filename], [label], [timestamp]
    and rows of three cells) whose cells are text loads; the table that is
    returned has the index [filename] and the columns [label] and
    [timestamp], without the column [done]; saving it at once writes the same
    header and the same records, in the order of [done] (whether the label is
    not [None]) then [timestamp], both ascending; and once it is written at
    a path, it loads from that path as the same table. *)
Lemma result_table_round_trip w path t :
  files w !! path = Some (Csv t) ->
  well_formed t ->
  Forall (Forall (fun x => is_text x = true)) (body t) ->
  exists df body',
    result_table w path = Ok df
    /\ index_name df = "filename"
    /\ df_columns df = ["label"; "timestamp"]
    /\ ("done" ∉ df_columns df)
    /\ to_csv df = Csv {| header := header t; body := body' |}
    /\ ("done" ∉ header t)
    /\ body' ≡ₚ body t
    /\ Sorted by_done_timestamp body'
    /\ (forall w' path', write_errors w' !! path' = None ->
          exists w1,
            write_file w' path' (to_csv df) = Ok w1
            /\ files w1 !! path'
               = Some (Csv {| header := result_header; body := body' |})
            /\ result_table w1 path' = Ok df).
Proof.
  intros Hf Hwf _.
  pose proof (read_result_well_formed t Hwf) as Hread.
  destruct Hwf as [Hh Hb].
  set (rows := sort result_leb (map load_row (body t))) in *.
  assert (Hw : Forall (fun r : string * list string => length r.2 = 2%nat) rows).
  { subst rows. rewrite sort_Permutation. apply Forall_fmap.
    eapply Forall_impl; [apply Hb|]. intros r Hr. by apply load_row_width. }
  assert (Hs : Sorted (fun a b => result_leb a b = true) rows)
    by apply (sort_Sorted _ result_leb_total).
  eexists _, (map save_row rows).
  split; [unfold result_table; by rewrite Hf, Hread|]. simpl.
  split; [done|]. split; [done|].
  split; [by apply mem_false|].
  split; [by rewrite Hh|].
  split; [rewrite Hh; by apply mem_false|].
  split; [|split; [by apply Sorted_save_rows|]].
  - subst rows. rewrite sort_Permutation, map_map.
    clear Hw Hs Hread Hf. induction Hb as [|r l Hr Hl IH]; [done|].
    rewrite map_cons, IH. by destruct (load_row_width r Hr) as [_ ->].
  - intros w' path' Hwr.
    set (t' := {| header := result_header; body := map save_row rows |}).
    assert (Hwf' : well_formed t').
    { split; [done|]. simpl. apply Forall_fmap.
      eapply Forall_impl; [apply Hw|]. intros r Hr. simpl. by rewrite Hr. }
    unfold write_file. rewrite Hwr. eexists. split; [reflexivity|].
    unfold result_table, with_file. cbn [files]. rewrite lookup_insert_eq.
    change (to_csv _) with (Csv t').
    split; [done|].
    rewrite (read_result_well_formed t' Hwf'). do 2 f_equal.
    subst t'. cbn [body]. rewrite map_map.
    rewrite (map_ext _ id) by apply load_save_row. rewrite map_id.
    by apply sort_of_Sorted.
Qed.

(** ** The list of images *)

Lemma get_image_paths_spec w df path entries :
  last_char path = Some "/"%char ->
  dirs w !! path = Some entries ->
  exists unlabelled,
    get_image_paths w df path = Ok (unlabelled ++ index df)
    /\ Sorted (fun a b => String.leb a b = true) unlabelled
    /\ unlabelled
       ≡ₚ map (fun f => path +:+ f)
            (List.filter (fun f => negb (mem (path +:+ f) (index df))) entries).
Proof.
  intros Hc Hd. unfold get_image_paths, listdir. rewrite Hc. simpl.
  rewrite Hd. simpl. eexists. split; [reflexivity|]. split.
  - apply sort_Sorted, String.leb_total.
  - apply sort_Permutation.
Qed.

(** The example of the specification: with [b.png] and [a.png] in the
    directory and [a.png] in the table, the list is [b.png], then [a.png]. *)
Example get_image_paths_example :
  exists df,
    result_table labelled_world "labels/df.csv" = Ok df
    /\ get_image_paths labelled_world df "data"
       = Ok ["data/b.png"; "data/a.png"].
Proof. eexists. split; vm_compute; reflexivity. Qed.

(** C4, on a table with a record of an image that is no longer in the
    directory: the list that [get_image_paths] returns ends with every key of
    the table, here [data/a.png], which is not an entry of the directory; the
    list is not a partition of the entries of the directory. *)
Theorem get_image_paths_keeps_missing_image :
  exists df,
    result_table stale_world "labels/df.csv" = Ok df
    /\ index df = ["data/a.png"]
    /\ listdir stale_world "data/" = Ok ["b.png"]
    /\ get_image_paths stale_world df "data"
       = Ok ["data/b.png"; "data/a.png"]
    /\ ~ (["data/b.png"; "data/a.png"] ≡ₚ map (fun f => "data/" +:+ f) ["b.png"]).
Proof.
  eexists. split; [vm_compute; reflexivity|].
  split; [done|]. split; [done|]. split; [vm_compute; reflexivity|].
  intros H. apply Permutation_length in H. done.
Qed.

Lemma append_inj_r (p a b : string) : p +:+ a = p +:+ b -> a = b.
Proof. induction p as [|c p IH]; simpl; [done|]. intros [= H]. auto. Qed.

(** X4: when each key of the table is the path of an entry of the directory
    and no key is repeated, the list holds the paths of the entries of the
    directory and nothing else: the paths that are not keys, sorted, then the
    keys in the order of the table. *)
Lemma get_image_paths_partition w df path entries :
  last_char path = Some "/"%char ->
  dirs w !! path = Some entries ->
  NoDup entries ->
  NoDup (index df) ->
  (forall k, k ∈ index df -> exists f, f ∈ entries /\ k = path +:+ f) ->
  exists unlabelled,
    get_image_paths w df path = Ok (unlabelled ++ index df)
    /\ Sorted (fun a b => String.leb a b = true) unlabelled
    /\ (forall x, x ∈ unlabelled -> x ∉ index df)
    /\ unlabelled ++ index df ≡ₚ map (fun f => path +:+ f) entries.
Proof.
  intros Hc Hd Hne Hni Hsub.
  destruct (get_image_paths_spec w df path entries Hc Hd)
    as (unl & Hget & Hsorted & Hperm).
  exists unl. split; [done|]. split; [done|].
  assert (Hin : forall x, x ∈ unl <->
            (x ∉ index df) /\ exists f, f ∈ entries /\ x = path +:+ f).
  { intros x. rewrite Hperm, list_elem_of_In, in_map_iff. split.
    - intros (f & <- & Hf). apply filter_In in Hf as [Hf Hm].
      apply negb_true_iff, mem_false in Hm. split; [done|].
      exists f. by rewrite list_elem_of_In.
    - intros (Hx & f & Hf & ->). exists f. split; [done|].
      apply filter_In. split; [by apply list_elem_of_In|].
      by apply negb_true_iff, mem_false. }
  split; [intros x Hx; by apply Hin|].
  apply NoDup_Permutation.
  - apply NoDup_app. split; [|split; [|done]].
    + rewrite Hperm. apply NoDup_fmap_2; [intros a b; apply append_inj_r|].
      apply NoDup_ListNoDup, List.NoDup_filter, NoDup_ListNoDup, Hne.
    + intros x Hx. by apply Hin.
  - apply NoDup_fmap_2; [intros a b; apply append_inj_r | done].
  - intros x. rewrite elem_of_app, Hin.
    change (map (fun f => path +:+ f) entries)
      with ((fun f => path +:+ f) <$> entries).
    rewrite list_elem_of_fmap. split.
    + intros [(_ & f & Hf & ->)|Hk]; [eauto|].
      destruct (Hsub x Hk) as (f & Hf & ->). eauto.
    + intros (f & -> & Hf).
      destruct (decide (path +:+ f ∈ index df)); [by right|]. left. eauto.
Qed.

(** ** The invariant of a session *)

Lemma init_invariant w d p lo co r c fs self :
  __init__ w d p lo co r c fs = Ok self ->
  session_invariant self /\ images self = [].
Proof.
  unfold __init__. intros H.
  destruct (check_arguments d p lo co r c fs) as [[]|e] eqn:Hchk; [|done].
  apply check_arguments_spec in Hchk
    as (_ & _ & (a & b & Hlo) & (ca & cb & Hco) & _).
  simpl in H.
  destruct (result_table w (str_of p)) as [df|e]; [|done]. simpl in H.
  destruct (get_image_paths w df (str_of d)) as [paths|e]; [|done].
  simpl in H. injection H as <-. simpl.
  unfold session_invariant, constructed_maps. simpl.
  split; [|done]. split; [|constructor].
  exists a, b, ca, cb. unfold strs_of. rewrite Hlo, Hco. done.
Qed.

Lemma store_page_frame w self :
  let self' := (state_of (store_page w self)).1 in
  click_map self' = click_map self /\ color_map self' = color_map self
  /\ images self' = images self.
Proof.
  unfold store_page. destruct (0 <? length (images self))%nat; [|done].
  destruct (store_labels (images self) (result self)); [|done].
  by destruct (write_file w _ _).
Qed.

Lemma SingleImage_init_ax w now f props n img :
  SingleImage__init__ w now f props n = Ok img -> SingleImage.ax img = n.
Proof.
  unfold SingleImage__init__. intros H.
  set (img0 := {| SingleImage.path := f; SingleImage.ax := n;
                  SingleImage.color_map := _ |}) in H.
  assert (Hupd : forall args o,
    SingleImage.update_args w now img0 args = Ok o ->
    SingleImage.ax (state_of o) = n).
  { intros args o Ho. unfold SingleImage.update_args in Ho.
    destruct args as [|l [|ts [|x args]]]; try done;
      injection Ho as <-; by rewrite update_state. }
  destruct (mem f (index (result props))).
  - destruct (SingleImage.update_args w now img0 _) as [o|e] eqn:E; [|done].
    apply Hupd in E. simpl in H. destruct o; [|done]. by injection H as <-.
  - destruct (SingleImage.update_args w now img0 []) as [o|e] eqn:E; [|done].
    apply Hupd in E. simpl in H. destruct o; [|done]. by injection H as <-.
Qed.

Lemma new_tiles_axes w now paths : forall self idx,
  exists k,
    map SingleImage.ax (images (state_of (new_tiles w now self idx paths)))
    = map SingleImage.ax (images self) ++ seq (idx + 1) k.
Proof.
  induction paths as [|f paths IH]; intros self idx; simpl.
  - exists 0%nat. by rewrite app_nil_r.
  - destruct (add_subplot (rows self) (columns self) (idx + 1))
      as [ax|e] eqn:Eax; [|exists 0%nat; by rewrite app_nil_r].
    apply add_subplot_Ok in Eax as ->.
    destruct (SingleImage__init__ w now f self (idx + 1)) as [img|e] eqn:E.
    + destruct (IH (set_images self (images self ++ [img])) (S idx)) as [k ->].
      exists (S k). simpl. rewrite map_app. simpl.
      rewrite (SingleImage_init_ax _ _ _ _ _ _ E), <- app_assoc. simpl.
      by rewrite Nat.add_1_r.
    + exists 0%nat. by rewrite app_nil_r.
Qed.

Lemma onclick_loop_axes w now self event imgs :
  map SingleImage.ax (state_of (onclick_loop w now self event imgs))
  = map SingleImage.ax imgs.
Proof.
  induction imgs as [|img imgs IH]; simpl; [done|].
  case_bool_decide.
  - destruct (click_map self !! button event) as [l|]; [|done].
    destruct (color_map self !! _); [|done].
    pose proof (update_state w now img
      (if (l =? SingleImage.label img)%string then "None" else l) now) as Hu.
    destruct (SingleImage.update w now img _ now) as [img'|e img'];
      simpl in *; subst img'.
    + destruct (onclick_loop w now self event imgs); simpl in *; by f_equal.
    + done.
  - destruct (onclick_loop w now self event imgs); simpl in *; by f_equal.
Qed.

(** The invariant is kept by every action of a session. *)
Lemma step_invariant s a :
  session_invariant (self s) -> session_invariant (self (step s a)).
Proof.
  intros [Hm Hnd]. destruct a as [now|now event]; simpl.
  - rewrite labelling_grid_unfold.
    destruct (store_page_frame (world s) (self s)) as (Hc & Hk & Hi).
    destruct (store_page (world s) (self s)) as [[self' w']|e [self' w']];
      simpl in *.
    + destruct (new_page_frame w' now self') as (_ & _ & _ & _ & Hc' & Hk').
      split.
      * destruct Hm as (l0 & l1 & c0 & c1 & H0 & H1).
        exists l0, l1, c0, c1. split; congruence.
      * unfold new_page.
        destruct (new_tiles_axes w' now
                    (slice_to (num (set_images self' [])) (image_paths (set_images self' [])))
                    (set_images self' []) 0) as [k ->].
        simpl. apply NoDup_ListNoDup, seq_NoDup.
    + split; [|by rewrite Hi].
      destruct Hm as (l0 & l1 & c0 & c1 & H0 & H1).
      exists l0, l1, c0, c1. split; congruence.
  - destruct (onclick_frame (world s) now (self s) event)
      as (_ & _ & _ & _ & Hc & Hk).
    split.
    + destruct Hm as (l0 & l1 & c0 & c1 & H0 & H1).
      exists l0, l1, c0, c1. split; congruence.
    + unfold onclick. case_bool_decide; [|done].
      pose proof (onclick_loop_axes (world s) now (self s) event
                    (images (self s))) as Hax.
      destruct (onclick_loop (world s) now (self s) event (images (self s)));
        simpl in *; by rewrite Hax.
Qed.

Lemma run_invariant l : forall s,
  session_invariant (self s) -> session_invariant (self (run s l)).
Proof.
  induction l as [|a l IH]; intros s H; [done|].
  apply (IH (step s a)), step_invariant, H.
Qed.

Lemma loc_set_columns df key vals df' :
  loc_set df key vals = Ok df' -> df_columns df' = df_columns df.
Proof.
  unfold loc_set. destruct (negb _); [done|]. by intros [= <-].
Qed.

Lemma store_labels_columns imgs : forall df,
  df_columns (state_of (store_labels imgs df)) = df_columns df.
Proof.
  induction imgs as [|i imgs IH]; intros df; simpl; [done|].
  destruct (loc_set df _ _) as [df'|e] eqn:E; [|done].
  rewrite IH. by apply loc_set_columns in E.
Qed.

(** The columns of the result table are those it was loaded with, all along
    a session. *)
Lemma step_columns s a :
  df_columns (result (self (step s a))) = df_columns (result (self s)).
Proof.
  destruct a as [now|now event]; simpl.
  - rewrite labelling_grid_unfold.
    assert (H : df_columns (result (state_of (store_page (world s) (self s))).1)
                = df_columns (result (self s))).
    { unfold store_page. destruct (0 <? length (images (self s)))%nat; [|done].
      pose proof (store_labels_columns (images (self s)) (result (self s))) as H.
      destruct (store_labels (images (self s)) (result (self s))); [|done].
      by destruct (write_file (world s) _ _). }
    destruct (store_page (world s) (self s)) as [[self' w']|e [self' w']];
      simpl in *; [|done].
    by destruct (new_page_frame w' now self') as (_ & -> & _).
  - by destruct (onclick_frame (world s) now (self s) event) as (-> & _).
Qed.

Lemma run_columns l : forall s,
  df_columns (result (self (run s l))) = df_columns (result (self s)).
Proof.
  induction l as [|a l IH]; intros s; [done|].
  change (run s (a :: l)) with (run (step s a) l).
  by rewrite IH, step_columns.
Qed.

Lemma init_columns w d p lo co r c fs self :
  __init__ w d p lo co r c fs = Ok self ->
  files w !! str_of p = None
  \/ (exists t, files w !! str_of p = Some (Csv t) /\ well_formed t) ->
  df_columns (result self) = ["label"; "timestamp"].
Proof.
  unfold __init__. intros H Hfile.
  destruct (check_arguments d p lo co r c fs) as [[]|e]; [|done]. simpl in H.
  assert (Hdf : exists df, result_table w (str_of p) = Ok df
                           /\ df_columns df = ["label"; "timestamp"]).
  { unfold result_table. destruct Hfile as [->|(t & -> & Hwf)].
    - eexists. split; [reflexivity | done].
    - rewrite (read_result_well_formed t Hwf). eexists. split; [reflexivity | done]. }
  destruct Hdf as (df & Hdf & Hcols). rewrite Hdf in H. simpl in H.
  destruct (get_image_paths w df (str_of d)) as [paths|e]; [|done].
  simpl in H. by injection H as <-.
Qed.

(** ** The examples of the specification *)

Example example_object_constructed :
  __init__ example_world (PyStr "data") (PyStr "labels/df.csv")
    (PyList [PyStr "Cat meme"; PyStr "Dog meme"])
    (PyList [PyStr "red"; PyStr "blue"]) (PyInt 1) (PyInt 2) (PyInt 10)
  = Ok example_object.
Proof. vm_compute. reflexivity. Qed.

(** The first grid shows the first two images, unlabelled. *)
Example first_grid :
  map view (images (self example_grid))
  = [("data/a.png", "None", "2020-01-01 00:00:00");
     ("data/b.png", "None", "2020-01-01 00:00:00")].
Proof. vm_compute. reflexivity. Qed.

(** A left click on an unlabelled tile gives it the first label and the
    time of the click; a second left click takes the label away. *)
Example left_click_twice :
  map view (images (self example_clicked))
  = [("data/a.png", "None", "2020-01-01 00:00:00");
     ("data/b.png", "Cat meme", "2020-01-01 00:00:05")]
  /\ map view (images (self
       (step example_clicked (Click "2020-01-01 00:00:06" left_click))))
     = [("data/a.png", "None", "2020-01-01 00:00:00");
        ("data/b.png", "None", "2020-01-01 00:00:06")].
Proof. split; vm_compute; reflexivity. Qed.

(** A right click on a tile that has the first label gives it the second. *)
Example right_click_switches :
  map view (images (self
    (step example_clicked (Click "2020-01-01 00:00:06" right_click))))
  = [("data/a.png", "None", "2020-01-01 00:00:00");
     ("data/b.png", "Dog meme", "2020-01-01 00:00:06")].
Proof. vm_compute. reflexivity. Qed.

(** A click on the grid is not on the disk until the next grid is asked
    for. *)
Example click_not_saved :
  files (world example_clicked) !! "labels/df.csv" = None
  /\ files (world (step example_clicked (Render "2020-01-01 00:00:09")))
       !! "labels/df.csv"
     = Some (Csv {| header := result_header;
                    body := [["data/a.png"; "None"; "2020-01-01 00:00:00"];
                             ["data/b.png"; "Cat meme"; "2020-01-01 00:00:05"]] |}).
Proof. split; vm_compute; reflexivity. Qed.

(** Ten images and a grid of two rows and four columns: after one page turn
    the table has the eight records of the first grid, and the sequence
    starts with the two images that were left, then the eight that were
    shown. *)
Example ten_images_page_turn :
  let s := run ten_session
             [Render "2020-01-01 00:00:00";
              Click "2020-01-01 00:00:05" left_click;
              Render "2020-01-01 00:00:09"] in
  index (result (self s))
  = ["data/0.png"; "data/1.png"; "data/2.png"; "data/3.png";
     "data/4.png"; "data/5.png"; "data/6.png"; "data/7.png"]
  /\ rows_of (result (self s)) "data/1.png"
     = [("data/1.png", ["Cat meme"; "2020-01-01 00:00:05"])]
  /\ image_paths (self s)
     = ["data/8.png"; "data/9.png"; "data/0.png"; "data/1.png"; "data/2.png";
        "data/3.png"; "data/4.png"; "data/5.png"; "data/6.png"; "data/7.png"]
  /\ map SingleImage.path (images (self s))
     = ["data/8.png"; "data/9.png"; "data/0.png"; "data/1.png"; "data/2.png";
        "data/3.png"; "data/4.png"; "data/5.png"].
Proof. vm_compute. repeat split; reflexivity. Qed.

(** ** A page turn that stores nothing *)

(** C2, on a session whose result file has an additional column.  The
    constructor accepts the file and keeps its column [note]; the first grid
    shows the two images that have no record.  The next call of
    [labelling_grid], with that grid on display, raises when it writes the
    first tile into the table (line 127), whose rows have three cells: the
    object and the world are left as they were, so no tile of the page is
    written into the table, the file is not saved, and the sequence is not
    rotated. *)
Theorem labelling_grid_extra_column :
  exists self0,
    notes_init = Ok self0
    /\ df_columns (result self0) = ["label"; "timestamp"; "note"]
    /\ image_paths self0 = ["data/b.png"; "data/c.png"; "data/a.png"]
    /\ map view (images (self notes_grid))
       = [("data/b.png", "None", "2020-01-02 09:00:00");
          ("data/c.png", "None", "2020-01-02 09:00:00")]
    /\ labelling_grid (world notes_grid) "2020-01-02 09:05:00" (self notes_grid)
       = Raises (ValueError "cannot set a row with mismatched columns")
                (self notes_grid, world notes_grid)
    /\ df_rows (result (self notes_grid))
       = [("data/a.png", ["Cat meme"; "2020-01-01 10:00:00"; "blurred"])]
    /\ files (world notes_grid) !! "labels/df.csv" = Some (Csv notes_table)
    /\ image_paths (self notes_grid)
       = ["data/b.png"; "data/c.png"; "data/a.png"].
Proof.
  eexists. split; [vm_compute; reflexivity|].
  repeat split; vm_compute; reflexivity.
Qed.

(** When the directory of the result path does not exist, the call of
    [labelling_grid] that follows the first grid raises when it saves the
    table: the table of the object has the records of the grid, no file is
    written, and the sequence is not rotated. *)
Example missing_directory_raises :
  exists e self2,
    labelling_grid (world fresh_grid) "2020-01-01 00:00:09" (self fresh_grid)
    = Raises (OSError e) (self2, fresh_world)
    /\ index (result self2) = ["data/a.png"; "data/b.png"]
    /\ image_paths self2 = image_paths example_object
    /\ images self2 = images (self fresh_grid).
Proof.
  eexists _, _. split; [vm_compute; reflexivity|].
  repeat split; vm_compute; reflexivity.
Qed.

(** ** The theorems at the examples *)

Lemma onclick_sets_label_witness :
  constructed_maps (self example_grid)
  /\ NoDup (map SingleImage.ax (images (self example_grid)))
  /\ Forall2 (click_effect (self example_grid) left_click "2020-01-01 00:00:05")
       (images (self example_grid)) (images (self example_clicked)).
Proof.
  assert (Hm : constructed_maps (self example_grid)).
  { exists "Cat meme", "Dog meme", "red", "blue". split; vm_compute; reflexivity. }
  assert (Hnd : NoDup (map SingleImage.ax (images (self example_grid)))).
  { apply (bool_decide_unpack _). vm_compute. exact I. }
  split; [exact Hm|]. split; [exact Hnd|].
  exact (proj1 (onclick_sets_label (world example_grid) "2020-01-01 00:00:05"
                  (self example_grid) left_click Hm Hnd)).
Defined.

Example labelling_grid_stores_page_example :
  images (self example_clicked) <> []
  /\ length (df_columns (result (self example_clicked))) = 2%nat
  /\ write_errors (world example_clicked)
       !! result_path (self example_clicked) = None
  /\ exists df,
       result (state_of (labelling_grid (world example_clicked)
                           "2020-01-01 00:00:09" (self example_clicked))).1 = df
       /\ forall img, img ∈ images (self example_clicked) ->
                      SingleImage.path img ∈ index df.
Proof.
  assert (H1 : images (self example_clicked) <> []).
  { vm_compute. discriminate. }
  assert (H2 : length (df_columns (result (self example_clicked))) = 2%nat).
  { vm_compute. reflexivity. }
  assert (H3 : write_errors (world example_clicked)
                 !! result_path (self example_clicked) = None).
  { vm_compute. reflexivity. }
  split; [exact H1|]. split; [exact H2|]. split; [exact H3|].
  destruct (labelling_grid_stores_page (world example_clicked)
              "2020-01-01 00:00:09" (self example_clicked) H1 H2 H3)
    as (df & w1 & _ & _ & Hin & _ & _ & _ & _ & Hr & _).
  exists df. split; [exact Hr | exact Hin].
Qed.

Lemma init_checks_types_witness :
  checked_arguments (PyStr "data") (PyStr "labels/df.csv")
    (PyList [PyStr "Cat meme"; PyStr "Dog meme"])
    (PyList [PyStr "red"; PyStr "blue"]) (PyInt 1) (PyInt 2) (PyInt 10).
Proof.
  apply (proj1 (proj1 (init_checks_types example_world
    (PyStr "data") (PyStr "labels/df.csv")
    (PyList [PyStr "Cat meme"; PyStr "Dog meme"])
    (PyList [PyStr "red"; PyStr "blue"]) (PyInt 1) (PyInt 2) (PyInt 10)))).
  vm_compute. reflexivity.
Defined.

Lemma result_table_rejects_bad_file_witness :
  files bad_world !! "labels/df.csv" = Some bad_file
  /\ has_result_columns bad_file = false
  /\ result_table bad_world "labels/df.csv" = Err result_table_error
  /\ is_ok (__init__ bad_world (PyStr "data") (PyStr "labels/df.csv")
              (PyList [PyStr "Cat meme"; PyStr "Dog meme"])
              (PyList [PyStr "red"; PyStr "blue"])
              (PyInt 2) (PyInt 4) (PyInt 10)) = false.
Proof.
  assert (H1 : files bad_world !! str_of (PyStr "labels/df.csv") = Some bad_file).
  { vm_compute. reflexivity. }
  assert (H2 : has_result_columns bad_file = false).
  { vm_compute. reflexivity. }
  split; [exact H1|]. split; [exact H2|].
  destruct (result_table_rejects_bad_file bad_world (PyStr "data")
              (PyStr "labels/df.csv")
              (PyList [PyStr "Cat meme"; PyStr "Dog meme"])
              (PyList [PyStr "red"; PyStr "blue"])
              (PyInt 2) (PyInt 4) (PyInt 10) bad_file H1 H2) as (Ha & Hb & _).
  split; [exact Ha | exact Hb].
Defined.

Example result_table_round_trip_example :
  files text_world !! "labels/df.csv" = Some (Csv text_table)
  /\ well_formed text_table
  /\ Forall (Forall (fun x => is_text x = true)) (body text_table)
  /\ exists df body',
       result_table text_world "labels/df.csv" = Ok df
       /\ to_csv df = Csv {| header := result_header; body := body' |}
       /\ body' ≡ₚ body text_table
       /\ Sorted by_done_timestamp body'.
Proof.
  assert (H1 : files text_world !! "labels/df.csv" = Some (Csv text_table)).
  { vm_compute. reflexivity. }
  assert (H2 : well_formed text_table).
  { split; [reflexivity|]. simpl. repeat constructor. }
  assert (H3 : Forall (Forall (fun x => is_text x = true)) (body text_table)).
  { simpl. repeat constructor. }
  split; [exact H1|]. split; [exact H2|]. split; [exact H3|].
  destruct (result_table_round_trip text_world "labels/df.csv" text_table
              H1 H2 H3)
    as (df & body' & Ha & _ & _ & _ & Hb & _ & Hc & Hd & _).
  exists df, body'. repeat split; assumption.
Qed.

Lemma result_table_without_file_witness :
  files example_world !! "labels/df.csv" = None
  /\ result_table example_world "labels/df.csv" = Ok empty_result.
Proof.
  assert (H1 : files example_world !! str_of (PyStr "labels/df.csv") = None).
  { vm_compute. reflexivity. }
  split; [exact H1|].
  exact (proj1 (result_table_without_file example_world (PyStr "data")
                  (PyStr "labels/df.csv")
                  (PyList [PyStr "Cat meme"; PyStr "Dog meme"])
                  (PyList [PyStr "red"; PyStr "blue"])
                  (PyInt 1) (PyInt 2) (PyInt 10) H1)).
Defined.

Lemma first_grid_saves_nothing_witness :
  images (self example_session) = []
  /\ forallb is_click [Click "2020-01-01 00:00:05" left_click] = true
  /\ world example_clicked = world example_session
  /\ result (self example_clicked) = result (self example_session).
Proof.
  assert (H1 : images (self example_session) = []) by reflexivity.
  assert (H2 : forallb is_click [Click "2020-01-01 00:00:05" left_click] = true)
    by reflexivity.
  split; [exact H1|]. split; [exact H2|].
  exact (proj1 (proj2 (first_grid_saves_nothing example_session
                  "2020-01-01 00:00:00"
                  [Click "2020-01-01 00:00:05" left_click] H1 H2))).
Defined.

(** * Further properties *)

(** ** Loading a table with other columns *)





(** ** The data directory *)

Lemma last_char_None p : last_char p = None -> p = "".
Proof.
  induction p as [|c p IH]; [done|]. simpl.
  destruct p; [done|]. intros H. by specialize (IH H).
Qed.

Lemma last_char_snoc p c : last_char (p +:+ String c "") = Some c.
Proof.
  induction p as [|a p IH]; simpl; [done|].
  destruct (p +:+ String c "") eqn:E; [|done].
  by destruct p.
Qed.

Lemma last_char_with_slash p :
  p <> "" -> last_char (with_slash p) = Some "/"%char.
Proof.
  intros Hp. unfold with_slash.
  destruct (last_char p) as [c|] eqn:E; [|by apply last_char_None in E].
  destruct (Ascii.eqb c "/") eqn:Ec; [|apply last_char_snoc].
  apply Ascii.eqb_eq in Ec. by subst c.
Qed.

Lemma get_image_paths_unfold w df p :
  p <> "" ->
  get_image_paths w df p
  = entries ← listdir w (with_slash p);
    Ok (sort String.leb
          (map (fun f => with_slash p +:+ f)
             (List.filter
                (fun f => negb (mem (with_slash p +:+ f) (index df))) entries))
        ++ index df).
Proof.
  intros Hp. unfold get_image_paths, with_slash.
  destruct (last_char p) as [c|] eqn:E; [done|by apply last_char_None in E].
Qed.

Lemma with_slash_idemp p : with_slash (with_slash p) = with_slash p.
Proof.
  destruct (decide (p = "")) as [->|Hp]; [done|].
  unfold with_slash at 1. rewrite (last_char_with_slash p Hp). done.
Qed.

Lemma with_slash_nonempty p : p <> "" -> with_slash p <> "".
Proof.
  intros Hp H. pose proof (last_char_with_slash p Hp) as E.
  by rewrite H in E.
Qed.

(** X2: the list of images does not depend on whether the data directory is
    given with its trailing slash. *)
Theorem get_image_paths_trailing_slash w df p :
  p <> "" ->
  get_image_paths w df (with_slash p) = get_image_paths w df p.
Proof.
  intros Hp.
  rewrite (get_image_paths_unfold w df p Hp).
  rewrite (get_image_paths_unfold w df _ (with_slash_nonempty p Hp)).
  by rewrite with_slash_idemp.
Qed.

(** X5: with a directory whose entries are distinct and a table whose keys
    are distinct, the list of images has no path twice; it holds the path of
    every entry of the directory and every key of the table, and nothing
    else. *)
Theorem get_image_paths_complete w df p entries :
  p <> "" ->
  dirs w !! with_slash p = Some entries ->
  NoDup entries ->
  NoDup (index df) ->
  exists paths,
    get_image_paths w df p = Ok paths
    /\ NoDup paths
    /\ (forall f, f ∈ entries -> with_slash p +:+ f ∈ paths)
    /\ (forall k, k ∈ index df -> k ∈ paths)
    /\ (forall x, x ∈ paths ->
          x ∈ index df \/ exists f, f ∈ entries /\ x = with_slash p +:+ f).
Proof.
  intros Hp Hd Hne Hni.
  destruct (get_image_paths_spec w df (with_slash p) entries
              (last_char_with_slash p Hp) Hd) as (unl & Hget & _ & Hperm).
  assert (Hget' : get_image_paths w df p = Ok (unl ++ index df)).
  { rewrite <- Hget.
    rewrite (get_image_paths_unfold w df p Hp).
    rewrite (get_image_paths_unfold w df _ (with_slash_nonempty p Hp)).
    by rewrite with_slash_idemp. }
  assert (Hin : forall x, x ∈ unl <->
            (x ∉ index df) /\ exists f, f ∈ entries /\ x = with_slash p +:+ f).
  { intros x. rewrite Hperm, list_elem_of_In, in_map_iff. split.
    - intros (f & <- & Hf). apply filter_In in Hf as [Hf Hm].
      apply negb_true_iff, mem_false in Hm. split; [done|].
      exists f. by rewrite list_elem_of_In.
    - intros (Hx & f & Hf & ->). exists f. split; [done|].
      apply filter_In. split; [by apply list_elem_of_In|].
      by apply negb_true_iff, mem_false. }
  exists (unl ++ index df). split; [done|]. split; [|split; [|split]].
  - apply NoDup_app. split; [|split; [|done]].
    + rewrite Hperm. apply NoDup_fmap_2; [intros a b; apply append_inj_r|].
      apply NoDup_ListNoDup, List.NoDup_filter, NoDup_ListNoDup, Hne.
    + intros x Hx. by apply Hin.
  - intros f Hf. apply elem_of_app.
    destruct (decide (with_slash p +:+ f ∈ index df)); [by right|].
    left. apply Hin. eauto.
  - intros k Hk. apply elem_of_app. by right.
  - intros x Hx. apply elem_of_app in Hx as [Hx|Hx]; [|by left].
    right. by apply Hin.
Qed.

(** ** Tiles *)

Lemma update_same w now img l ts :
  same_tile img (state_of (SingleImage.update w now img l ts)).
Proof. rewrite update_state. by repeat split. Qed.

Lemma same_tile_refl img : same_tile img img.
Proof. by repeat split. Qed.

Lemma onclick_loop_same w now self event imgs :
  Forall2 same_tile imgs (state_of (onclick_loop w now self event imgs)).
Proof.
  induction imgs as [|img imgs IH]; simpl; [constructor|].
  assert (Hrefl : Forall2 same_tile imgs imgs).
  { clear. induction imgs; constructor; [apply same_tile_refl | done]. }
  case_bool_decide.
  - destruct (click_map self !! button event) as [l|];
      [|constructor; [apply same_tile_refl | done]].
    destruct (color_map self !! _);
      [|constructor; [apply same_tile_refl | done]].
    pose proof (update_same w now img
      (if (l =? SingleImage.label img)%string then "None" else l) now) as Hu.
    destruct (SingleImage.update w now img _ now) as [img'|e img']; simpl in *.
    + destruct (onclick_loop w now self event imgs); simpl in *;
        by constructor.
    + by constructor.
  - destruct (onclick_loop w now self event imgs); simpl in *;
      constructor; [apply same_tile_refl | done | apply same_tile_refl | done].
Qed.

Lemma onclick_same w now self event :
  Forall2 same_tile (images self) (images (state_of (onclick w now self event))).
Proof.
  unfold onclick. case_bool_decide.
  - pose proof (onclick_loop_same w now self event (images self)) as Hl.
    by destruct (onclick_loop w now self event (images self)).
  - simpl. induction (images self); constructor; [apply same_tile_refl | done].
Qed.

(** X6: a click never adds, removes or moves a tile, and never changes the
    image, the axes, the colours or the font size of a tile, whatever the
    event and whether or not the handler raises. *)
Theorem onclick_keeps_tiles w now self event :
  let self' := state_of (onclick w now self event) in
  Forall2 same_tile (images self) (images self')
  /\ length (images self') = length (images self)
  /\ map SingleImage.path (images self') = map SingleImage.path (images self)
  /\ map SingleImage.ax (images self') = map SingleImage.ax (images self).
Proof.
  simpl. pose proof (onclick_same w now self event) as H.
  split; [done|]. split; [symmetry; by eapply Forall2_length|].
  induction H as [|x y l k (Hp & Ha & _) _ [IHp IHa]]; [done|].
  simpl. by rewrite Hp, Ha, IHp, IHa.
Qed.

Lemma SingleImage_init_spec w now f props n img :
  SingleImage__init__ w now f props n = Ok img ->
  SingleImage.path img = f /\ SingleImage.ax img = n
  /\ fresh_tile now props img.
Proof.
  unfold SingleImage__init__. intros H.
  set (img0 := {| SingleImage.path := f; SingleImage.ax := n;
                  SingleImage.color_map := _ |}) in H.
  destruct (mem f (index (result props))) eqn:Hmem.
  - apply mem_spec in Hmem.
    destruct (SingleImage.update_args w now img0 _) as [o|e] eqn:E; [|done].
    simpl in H. destruct o as [img1|e img1]; [|done]. injection H as <-.
    unfold SingleImage.update_args in E.
    destruct (loc_unpack (result props) f) as [|l [|ts [|x args]]] eqn:Hu;
      try done; injection E as E;
      pose proof (update_state w now img0) as Hs;
      [specialize (Hs "None" "None") | specialize (Hs l "None")
       | specialize (Hs l ts)];
      rewrite E in Hs; simpl in Hs; subst img1; unfold fresh_tile; simpl;
      (split; [done|]); (split; [done|]); (split; [done|]); (split; [done|]);
      (split; [done|]); rewrite Hu; try done.
    intros l' ts' _ [= <- <-]. done.
  - apply mem_false in Hmem.
    destruct (SingleImage.update_args w now img0 []) as [o|e] eqn:E; [|done].
    simpl in H. destruct o as [img1|e img1]; [|done]. injection H as <-.
    simpl in E. injection E as E.
    pose proof (update_state w now img0 "None" "None") as Hs.
    rewrite E in Hs. simpl in Hs. subst img1. unfold fresh_tile. simpl.
    repeat split; done.
Qed.

Lemma new_tiles_spec w now paths : forall self idx,
  exists news,
    images (state_of (new_tiles w now self idx paths)) = images self ++ news
    /\ map SingleImage.ax news = seq (idx + 1) (length news)
    /\ Forall (fresh_tile now self) news
    /\ (exists rest, paths = map SingleImage.path news ++ rest)
    /\ (forall s, new_tiles w now self idx paths = Returns s ->
                  map SingleImage.path news = paths).
Proof.
  induction paths as [|f paths IH]; intros self idx; simpl.
  - exists []. rewrite app_nil_r. repeat split; try done. by exists [].
  - destruct (add_subplot (rows self) (columns self) (idx + 1))
      as [ax|e] eqn:Eax;
      [|exists []; rewrite app_nil_r; repeat split; try done;
        by exists (f :: paths)].
    apply add_subplot_Ok in Eax as ->.
    destruct (SingleImage__init__ w now f self (idx + 1)) as [img|e] eqn:E.
    + destruct (SingleImage_init_spec _ _ _ _ _ _ E) as (Hp & Ha & Hf).
      destruct (IH (set_images self (images self ++ [img])) (S idx))
        as (news & Him & Hax & Hfr & (rest & Hrest) & Hret).
      exists (img :: news). simpl in *.
      split; [by rewrite Him, <- app_assoc|].
      split; [by rewrite Ha, Hax, Nat.add_1_r|].
      split; [by constructor|].
      split; [exists rest; by rewrite Hp, Hrest|].
      intros s Hs. by rewrite Hp, (Hret s Hs).
    + exists []. rewrite app_nil_r. repeat split; try done. by exists (f :: paths).
Qed.

Lemma new_page_fresh w now self :
  Forall (fresh_tile now self) (images (state_of (new_page w now self))).
Proof.
  unfold new_page. simpl.
  destruct (new_tiles_spec w now (slice_to (num self) (image_paths self))
              (set_images self []) 0) as (news & Him & _ & Hfr & _).
  simpl in Him. by rewrite Him.
Qed.

(** X7: the grid that [labelling_grid] makes.  The tiles are made in the
    order of the first [num] paths of the sequence, on the axes 1, 2, ...;
    each holds the colours of the object and shows the label and the
    timestamp that the table has for its path, or [None] and the current
    time for a path that is not in the table.  When a tile cannot be made
    the call raises and the grid keeps the tiles made so far; when the call
    returns the grid covers the whole page. *)
Theorem new_page_tiles w now self :
  let self' := state_of (new_page w now self) in
  let page := slice_to (num self) (image_paths self) in
  (exists rest, page = map SingleImage.path (images self') ++ rest)
  /\ map SingleImage.ax (images self') = seq 1 (length (images self'))
  /\ Forall (fresh_tile now self) (images self')
  /\ (forall s, new_page w now self = Returns s ->
                map SingleImage.path (images s) = page).
Proof.
  simpl. unfold new_page. simpl.
  destruct (new_tiles_spec w now (slice_to (num self) (image_paths self))
              (set_images self []) 0)
    as (news & Him & Hax & Hfr & Hrest & Hret).
  simpl in Him. rewrite Him.
  split; [done|]. split; [done|]. split; [done|].
  intros s Hs. specialize (Hret s Hs).
  rewrite Hs in Him. simpl in Him. by rewrite Him.
Qed.

(** ** What a session keeps *)

Lemma store_page_config w self :
  let self' := (state_of (store_page w self)).1 in
  num self' = num self /\ result_path self' = result_path self
  /\ fontsize self' = fontsize self.
Proof.
  unfold store_page. destruct (0 <? length (images self))%nat; [|done].
  destruct (store_labels (images self) (result self)); [|done].
  by destruct (write_file w _ _).
Qed.

Lemma new_tiles_fontsize w now paths : forall self idx,
  fontsize (state_of (new_tiles w now self idx paths)) = fontsize self.
Proof.
  induction paths as [|f paths IH]; intros self idx; simpl; [done|].
  destruct (add_subplot (rows self) (columns self) (idx + 1)); [|done].
  destruct (SingleImage__init__ w now f self _); [|done].
  by rewrite IH.
Qed.

Lemma step_config s a :
  click_map (self (step s a)) = click_map (self s)
  /\ color_map (self (step s a)) = color_map (self s)
  /\ num (self (step s a)) = num (self s)
  /\ result_path (self (step s a)) = result_path (self s)
  /\ fontsize (self (step s a)) = fontsize (self s).
Proof.
  destruct a as [now|now event]; simpl.
  - rewrite labelling_grid_unfold.
    destruct (store_page_frame (world s) (self s)) as (Hc & Hk & _).
    destruct (store_page_config (world s) (self s)) as (Hn & Hp & Hf).
    destruct (store_page (world s) (self s)) as [[self' w']|e [self' w']];
      simpl in *; [|done].
    destruct (new_page_frame w' now self') as (_ & _ & Hp' & Hn' & Hc' & Hk').
    unfold new_page at 5. rewrite new_tiles_fontsize. simpl.
    repeat split; congruence.
  - destruct (onclick_frame (world s) now (self s) event)
      as (_ & _ & Hp & Hn & Hc & Hk).
    repeat split; try done.
    unfold onclick. case_bool_decide; [|done].
    by destruct (onclick_loop (world s) now (self s) event (images (self s))).
Qed.

Lemma step_tiles_follow s a :
  tiles_follow (self s) -> tiles_follow (self (step s a)).
Proof.
  unfold tiles_follow. intros H.
  destruct (step_config s a) as (_ & Hk & _). rewrite Hk.
  destruct a as [now|now event]; simpl.
  - rewrite labelling_grid_unfold.
    destruct (store_page_frame (world s) (self s)) as (_ & Hk' & Hi).
    destruct (store_page (world s) (self s)) as [[self' w']|e [self' w']];
      simpl in *; [|by rewrite Hi].
    pose proof (new_page_fresh w' now self') as Hfr.
    eapply Forall_impl; [apply Hfr|]. intros img (Hc & _). congruence.
  - pose proof (onclick_same (world s) now (self s) event) as Hs.
    induction Hs as [|x y l k (_ & _ & Hc & _) _ IH]; [constructor|].
    apply Forall_cons in H as [Hx H].
    constructor; [congruence | by apply IH].
Qed.

Lemma step_paths s a :
  image_paths (self (step s a)) ≡ₚ image_paths (self s).
Proof.
  destruct a as [now|now event]; simpl.
  - rewrite labelling_grid_unfold.
    pose proof (store_page_paths (world s) (self s)) as Hs.
    destruct (store_page (world s) (self s)) as [[self' w']|e sw];
      simpl in *; [|done].
    by destruct (new_page_frame w' now self') as [-> _].
  - by destruct (onclick_frame (world s) now (self s) event) as (_ & -> & _).
Qed.

Lemma run_keeps l : forall s0 : Session,
  session_invariant (self s0) -> tiles_follow (self s0) ->
  session_invariant (self (run s0 l)) /\ tiles_follow (self (run s0 l))
  /\ click_map (self (run s0 l)) = click_map (self s0)
  /\ color_map (self (run s0 l)) = color_map (self s0)
  /\ num (self (run s0 l)) = num (self s0)
  /\ result_path (self (run s0 l)) = result_path (self s0)
  /\ image_paths (self (run s0 l)) ≡ₚ image_paths (self s0).
Proof.
  induction l as [|a l IH]; intros s0 Hi Hf.
  { split; [done|]. split; [done|]. by repeat split. }
  change (run s0 (a :: l)) with (run (step s0 a) l).
  destruct (IH (step s0 a) (step_invariant s0 a Hi) (step_tiles_follow s0 a Hf))
    as (H1 & H2 & H3 & H4 & H5 & H6 & H7).
  destruct (step_config s0 a) as (Hc & Hk & Hn & Hp & _).
  split; [done|]. split; [done|].
  rewrite H3, H4, H5, H6, H7, Hc, Hk, Hn, Hp.
  repeat split; try done. apply step_paths.
Qed.

(** X8: all along a session that starts from a constructed object, whatever
    the clicks and the calls of [labelling_grid] and whether or not they
    raise: the two dictionaries, the page size and the result path stay
    those of the constructor, the tiles of the grid have distinct axes and
    hold the colours of the object, and the sequence of images is a
    permutation of the one the constructor listed. *)
Theorem constructed_session_keeps w d p lo co r c fs self0 l :
  __init__ w d p lo co r c fs = Ok self0 ->
  let s := run {| self := self0; world := w |} l in
  session_invariant (self s)
  /\ tiles_follow (self s)
  /\ click_map (self s) = click_map self0
  /\ color_map (self s) = color_map self0
  /\ num (self s) = int_of r * int_of c
  /\ result_path (self s) = str_of p
  /\ image_paths (self s) ≡ₚ image_paths self0.
Proof.
  intros Hinit.
  destruct (init_invariant _ _ _ _ _ _ _ _ _ Hinit) as [Hinv Himg].
  assert (Hcfg : num self0 = int_of r * int_of c /\ result_path self0 = str_of p).
  { unfold __init__ in Hinit.
    destruct (check_arguments d p lo co r c fs) as [[]|e]; [|done].
    simpl in Hinit.
    destruct (result_table w (str_of p)) as [df|e]; [|done]. simpl in Hinit.
    destruct (get_image_paths w df (str_of d)) as [paths|e]; [|done].
    simpl in Hinit. by injection Hinit as <-. }
  destruct Hcfg as [<- <-].
  assert (Hfollow : tiles_follow self0).
  { unfold tiles_follow. rewrite Himg. constructor. }
  apply (run_keeps l {| self := self0; world := w |}); done.
Qed.

(** ** The result table along a session *)

Lemma loc_set_rows df k v df' :
  loc_set df k v = Ok df' ->
  forall r, r ∈ df_rows df' -> r ∈ df_rows df \/ r = (k, v).
Proof.
  unfold loc_set. destruct (negb _); [done|]. intros [= <-] r. simpl.
  destruct (mem k (index df)).
  - intros Hr. apply list_elem_of_In, in_map_iff in Hr as (r0 & <- & Hr0).
    destruct (r0.1 =? k)%string; [by right|]. left. by apply list_elem_of_In.
  - intros Hr. apply elem_of_app in Hr as [Hr|Hr]; [by left|].
    right. by apply list_elem_of_singleton in Hr.
Qed.

Lemma loc_set_table_ok df k v :
  table_ok df -> length v = 2%nat ->
  exists df', loc_set df k v = Ok df' /\ table_ok df'.
Proof.
  intros (Hn & Hc & Hw & Hd) Hv.
  destruct (loc_set_spec df k v) as (df' & Hset & Hc' & Hn' & _ & _ & _ & _ & Hd');
    [by rewrite Hc|].
  exists df'. split; [done|]. split; [congruence|]. split; [congruence|].
  split; [|auto].
  apply Forall_forall. intros r Hr.
  destruct (loc_set_rows _ _ _ _ Hset r Hr) as [Hr'| ->]; [|done].
  by apply (proj1 (Forall_forall _ _) Hw).
Qed.

Lemma store_labels_table_ok imgs : forall df,
  table_ok df -> exists df', store_labels imgs df = Returns df' /\ table_ok df'.
Proof.
  induction imgs as [|i imgs IH]; intros df Hok; simpl; [eauto|].
  destruct (loc_set_table_ok df (SingleImage.path i)
              [SingleImage.label i; SingleImage.timestamp i] Hok)
    as (df1 & -> & Hok1); [done|].
  by apply IH.
Qed.

Lemma step_table_ok s a :
  table_ok (result (self s)) -> table_ok (result (self (step s a))).
Proof.
  intros Hok. destruct a as [now|now event]; simpl.
  - rewrite labelling_grid_unfold. unfold store_page.
    destruct (0 <? length (images (self s)))%nat.
    + destruct (store_labels_table_ok (images (self s)) _ Hok)
        as (df & -> & Hdf).
      destruct (write_file (world s) _ _) as [w'|e]; [|done].
      match goal with
      | |- context [new_page ?w ?n ?x] =>
          destruct (new_page_frame w n x) as (_ & Hr & _)
      end.
      simpl in *. by rewrite Hr.
    + simpl.
      by destruct (new_page_frame (world s) now (self s)) as (_ & -> & _).
  - by destruct (onclick_frame (world s) now (self s) event) as (-> & _).
Qed.

Lemma well_formed_table_ok t :
  well_formed t -> NoDup (map (cell 0) (body t)) ->
  table_ok {| index_name := "filename";
              df_columns := ["label"; "timestamp"];
              df_rows := sort result_leb (map load_row (body t)) |}.
Proof.
  intros [Hh Hb] Hnd. split; [done|]. split; [done|]. simpl. split.
  - rewrite sort_Permutation. apply Forall_fmap.
    eapply Forall_impl; [apply Hb|]. intros r Hr. by apply load_row_width.
  - unfold index. simpl. rewrite sort_Permutation, map_map. done.
Qed.

(** X9: when the result file is absent, or is a well formed saved table with
    no filename twice, the table of the session has at every moment the
    columns [label] and [timestamp], rows of two cells and no key twice; and
    writing the labels of the grid into it never raises. *)
Theorem constructed_table_keeps w d p lo co r c fs self0 l :
  __init__ w d p lo co r c fs = Ok self0 ->
  files w !! str_of p = None
  \/ (exists t, files w !! str_of p = Some (Csv t) /\ well_formed t
                /\ NoDup (map (cell 0) (body t))) ->
  let s := run {| self := self0; world := w |} l in
  table_ok (result (self s))
  /\ exists df, store_labels (images (self s)) (result (self s)) = Returns df
                /\ table_ok df.
Proof.
  intros Hinit Hfile.
  assert (H0 : table_ok (result self0)).
  { unfold __init__ in Hinit.
    destruct (check_arguments d p lo co r c fs) as [[]|e]; [|done].
    simpl in Hinit.
    assert (Hdf : exists df, result_table w (str_of p) = Ok df /\ table_ok df).
    { unfold result_table. destruct Hfile as [->|(t & -> & Hwf & Hnd)].
      - eexists. split; [reflexivity|]. repeat split; constructor.
      - rewrite (read_result_well_formed t Hwf). eexists.
        split; [reflexivity|]. by apply well_formed_table_ok. }
    destruct Hdf as (df & Hdf & Hok). rewrite Hdf in Hinit. simpl in Hinit.
    destruct (get_image_paths w df (str_of d)) as [paths|e]; [|done].
    simpl in Hinit. by injection Hinit as <-. }
  assert (Hrun : forall s0 : Session,
            table_ok (result (self s0)) -> table_ok (result (self (run s0 l)))).
  { clear. induction l as [|a l IH]; intros s0 H; [done|].
    apply (IH (step s0 a)), step_table_ok, H. }
  cbv zeta. specialize (Hrun {| self := self0; world := w |} H0).
  split; [done|]. by apply store_labels_table_ok.
Qed.

(** ** From one session to the next *)

Lemma read_result_to_csv df :
  table_ok df -> read_result (to_csv df) = Ok (reloaded df).
Proof.
  destruct df as [n cols rows]. intros (Hn & Hc & Hw & _). simpl in *.
  subst n cols. unfold to_csv, reloaded. simpl.
  set (t := {| header := ["filename"; "label"; "timestamp"];
               body := map (fun r : string * list string => r.1 :: r.2) rows |}).
  assert (Hwf : well_formed t).
  { split; [done|]. simpl. apply Forall_fmap.
    eapply Forall_impl; [apply Hw|]. intros r Hr. simpl. by rewrite Hr. }
  rewrite (read_result_well_formed t Hwf). do 2 f_equal.
  subst t. cbn [body]. rewrite map_map.
  change (fun x : string * list string => load_row (x.1 :: x.2))
    with (fun x => load_row (save_row x)).
  rewrite (map_ext _ id) by apply load_save_row. by rewrite map_id.
Qed.

Lemma rows_of_unique rows key :
  NoDup (map fst rows) ->
  (length (filter (fun r : string * list string => r.1 = key) rows) <= 1)%nat.
Proof.
  induction rows as [|r rows IH]; simpl; [lia|].
  intros Hnd. apply NoDup_cons in Hnd as [Hnotin Hnd].
  rewrite filter_cons. destruct (decide (r.1 = key)) as [E|E]; [|by apply IH].
  simpl. assert (filter (fun r0 : string * list string => r0.1 = key) rows = [])
    as ->; [|simpl; lia].
  destruct (filter (fun r0 : string * list string => r0.1 = key) rows)
    as [|x l] eqn:Ef; [done|]. exfalso.
  assert (Hx : x ∈ filter (fun r0 : string * list string => r0.1 = key) rows)
    by (rewrite Ef; left).
  apply list_elem_of_filter in Hx as [Hx Hin]. apply Hnotin.
  rewrite E, <- Hx. apply list_elem_of_In, in_map, list_elem_of_In, Hin.
Qed.

Lemma reloaded_rows_of df key :
  NoDup (index df) -> rows_of (reloaded df) key = rows_of df key.
Proof.
  intros Hnd. unfold rows_of, reloaded. simpl.
  pose proof (rows_of_unique (df_rows df) key Hnd) as Hlen.
  assert (Hperm : filter (fun r : string * list string => r.1 = key)
                    (sort result_leb (df_rows df))
                  ≡ₚ filter (fun r : string * list string => r.1 = key)
                       (df_rows df)).
  { by rewrite sort_Permutation. }
  destruct (filter (fun r : string * list string => r.1 = key) (df_rows df))
    as [|x [|y l]]; simpl in Hlen; [| |lia].
  - by apply Permutation_nil_r in Hperm.
  - by apply Permutation_singleton_r in Hperm.
Qed.

Lemma store_labels_text imgs : forall df df',
  store_labels imgs df = Returns df' ->
  text_rows (df_rows df) -> text_tiles imgs -> text_rows (df_rows df').
Proof.
  unfold text_rows, text_tiles.
  induction imgs as [|i imgs IH]; intros df df' H Hdf Himgs; simpl in H.
  - by injection H as <-.
  - apply Forall_cons in Himgs as [(Hp & Hl & Ht) Himgs].
    destruct (loc_set df _ _) as [df1|e] eqn:E; [|done].
    apply (IH df1 df' H); [|done].
    apply Forall_forall. intros r Hr.
    destruct (loc_set_rows _ _ _ _ E r Hr) as [Hr'| ->].
    + by apply (proj1 (Forall_forall _ _) Hdf).
    + simpl. split; [done|]. by repeat constructor.
Qed.

(** X10: what a page turn saves, the next session loads.  On a table of the
    shape of the result table, with a result path that can be written, and
    when the cells of the table and the paths, labels and timestamps of the
    tiles are text cells (every tile has a label), a call of
    [labelling_grid] with a grid on display writes the file; the cells that
    are written are text cells, and loading that file gives the table of the
    session with its rows in the order of [done] then [timestamp]: the same
    keys, and under each key the same record.  A constructor that is given
    that result path in that world starts from this table. *)
Theorem saved_table_reloads w self :
  table_ok (result self) ->
  images self <> [] ->
  write_errors w !! result_path self = None ->
  text_rows (df_rows (result self)) ->
  text_tiles (images self) ->
  exists self1 w1,
    store_page w self = Returns (self1, w1)
    /\ table_ok (result self1)
    /\ text_rows (df_rows (result self1))
    /\ files w1 !! result_path self
       = Some (Csv {| header := result_header;
                      body := map save_row (df_rows (result self1)) |})
    /\ result_table w1 (result_path self) = Ok (reloaded (result self1))
    /\ index (reloaded (result self1)) ≡ₚ index (result self1)
    /\ (forall key, rows_of (reloaded (result self1)) key
                    = rows_of (result self1) key)
    /\ (forall d p lo co r c fs self2,
          str_of p = result_path self ->
          __init__ w1 d p lo co r c fs = Ok self2 ->
          result self2 = reloaded (result self1)).
Proof.
  intros Hok Himg Hwr Htab Htiles.
  destruct (store_labels_table_ok (images self) _ Hok) as (df & Hst & Hdf).
  pose proof (store_labels_text _ _ _ Hst Htab Htiles) as Htext.
  unfold store_page. destruct (images self) as [|i imgs] eqn:E; [done|].
  simpl Nat.ltb. cbv iota. rewrite Hst.
  unfold write_file. cbn [result_path set_result]. rewrite Hwr.
  eexists _, _. split; [reflexivity|]. simpl.
  assert (Hfile : files (with_file w (result_path self) (to_csv df))
                    !! result_path self
                  = Some (Csv {| header := result_header;
                                 body := map save_row (df_rows df) |})).
  { unfold with_file. cbn [files]. rewrite lookup_insert_eq.
    destruct Hdf as (Hn & Hc & _). unfold to_csv. by rewrite Hn, Hc. }
  assert (Hload : result_table
            (with_file w (result_path self) (to_csv df)) (result_path self)
            = Ok (reloaded df)).
  { unfold result_table, with_file. cbn [files]. rewrite lookup_insert_eq.
    by rewrite (read_result_to_csv df Hdf). }
  split; [done|]. split; [done|]. split; [done|]. split; [done|]. split.
  { unfold index, reloaded. simpl. by rewrite sort_Permutation. }
  split; [intros key; apply reloaded_rows_of, Hdf|].
  intros d p lo co r c fs self2 Hp Hinit. unfold __init__ in Hinit.
  destruct (check_arguments d p lo co r c fs) as [[]|e]; [|done].
  simpl in Hinit. rewrite Hp, Hload in Hinit. simpl in Hinit.
  destruct (get_image_paths _ _ (str_of d)) as [paths|e]; [|done].
  simpl in Hinit. by injection Hinit as <-.
Qed.

(** ** Clicks and colours *)

Lemma constructed_color_None self l :
  constructed_maps self -> color_map self !! l = Some None -> l = "None".
Proof.
  intros (l0 & l1 & c0 & c1 & _ & Hm). rewrite Hm. unfold dict. simpl.
  destruct (decide ("None" = l)) as [<-|Hn]; [done|].
  rewrite lookup_insert_ne by done.
  destruct (decide (l1 = l)) as [<-|H1]; [by rewrite lookup_insert_eq|].
  rewrite lookup_insert_ne by done.
  destruct (decide (l0 = l)) as [<-|H0]; [by rewrite lookup_insert_eq|].
  by rewrite lookup_insert_ne, lookup_empty.
Qed.

Lemma onclick_effect w now self event :
  constructed_maps self ->
  NoDup (map SingleImage.ax (images self)) ->
  Forall2 (click_effect self event now) (images self)
          (images (state_of (onclick w now self event))).
Proof.
  intros Hm Hnd. unfold onclick. case_bool_decide as Hdom.
  - apply elem_of_dom in Hdom as [bound Hb].
    pose proof (onclick_loop_spec w now self event bound _ Hm Hb Hnd) as H.
    by destruct (onclick_loop w now self event (images self)).
  - apply not_elem_of_dom in Hdom. simpl.
    apply Forall2_same_length_lookup_2; [done|].
    intros i x y Hx Hy. unfold click_effect. rewrite Hdom. congruence.
Qed.

Lemma onclick_loop_returns w now self event imgs :
  constructed_maps self ->
  resolvable_colors w self ->
  is_Some (click_map self !! button event) ->
  Forall (fun img => SingleImage.color_map img = color_map self) imgs ->
  exists r, onclick_loop w now self event imgs = Returns r.
Proof.
  intros Hm Hres [bound Hb] Hf.
  induction Hf as [|img imgs Himg Hf [r IH]]; simpl; [eauto|].
  rewrite IH. case_bool_decide; [|eauto].
  rewrite Hb.
  destruct (constructed_recognized _ _ _ Hm Hb) as [_ Hcol].
  destruct (Hcol (SingleImage.label img)) as [ov Hov]. rewrite Hov.
  unfold SingleImage.update. simpl. rewrite Himg, Hov.
  destruct (negb _) eqn:En; [|eauto].
  destruct ov as [c|].
  - rewrite (Hres _ _ Hov). eauto.
  - apply (constructed_color_None _ _ Hm) in Hov. rewrite Hov in En. done.
Qed.

(** X11: when every colour of the object resolves to RGB, a click never
    raises, whatever the button and wherever the pointer is. *)
Theorem onclick_returns w now self event :
  constructed_maps self ->
  tiles_follow self ->
  resolvable_colors w self ->
  exists self', onclick w now self event = Returns self'.
Proof.
  intros Hm Hf Hres. unfold onclick. case_bool_decide as Hdom; [|eauto].
  apply elem_of_dom in Hdom.
  destruct (onclick_loop_returns w now self event (images self) Hm Hres Hdom Hf)
    as [r ->]. eauto.
Qed.

Lemma onclick_loop_raises w now self event bound c img : forall imgs i,
  click_map self !! button event = Some bound ->
  color_map self !! bound = Some (Some c) ->
  to_rgb w c = false ->
  NoDup (map SingleImage.ax imgs) ->
  imgs !! i = Some img ->
  inaxes event = Some (SingleImage.ax img) ->
  SingleImage.color_map img = color_map self ->
  (bound =? SingleImage.label img)%string = false ->
  bound <> "None" ->
  exists r img',
    onclick_loop w now self event imgs
    = Raises (ValueError "Invalid RGBA argument") r
    /\ r !! i = Some img'
    /\ SingleImage.label img' = bound /\ SingleImage.timestamp img' = now.
Proof.
  intros imgs i Hb Hc Hrgb. revert i.
  induction imgs as [|x imgs IH]; intros i Hnd Hi Hax Hmap Hne Hnone; [done|].
  apply NoDup_cons in Hnd as [Hnotin Hnd]. simpl.
  destruct i as [|i]; simpl in Hi.
  - injection Hi as ->. rewrite bool_decide_eq_true_2 by done.
    rewrite Hb, Hne, Hc.
    unfold SingleImage.update. simpl. rewrite Hmap, Hc.
    apply String.eqb_neq in Hnone. rewrite Hnone. simpl. rewrite Hrgb.
    eexists _, _. split; [reflexivity|]. simpl.
    split; [reflexivity|]. split; [done|]. by destruct (now =? "None")%string.
  - rewrite bool_decide_eq_false_2.
    + destruct (IH i Hnd Hi Hax Hmap Hne Hnone) as (r & img' & -> & Hr & Hl).
      eexists _, _. split; [reflexivity|]. done.
    + intros Heq. apply Hnotin. rewrite Hax in Heq. injection Heq as <-.
      apply list_elem_of_In, in_map, list_elem_of_In.
      by eapply list_elem_of_lookup_2.
Qed.

(** X12: the colours are not checked by the constructor, and a colour that
    does not resolve shows at the first click that needs it: on a tile that
    does not have the label of the button, the handler raises [ValueError],
    after the tile has taken the label and the time of the click. *)
Theorem onclick_unresolved_colour w now self event bound c i img :
  tiles_follow self ->
  NoDup (map SingleImage.ax (images self)) ->
  click_map self !! button event = Some bound ->
  color_map self !! bound = Some (Some c) ->
  to_rgb w c = false ->
  bound <> "None" ->
  images self !! i = Some img ->
  inaxes event = Some (SingleImage.ax img) ->
  SingleImage.label img <> bound ->
  exists self' img',
    onclick w now self event
    = Raises (ValueError "Invalid RGBA argument") self'
    /\ images self' !! i = Some img'
    /\ SingleImage.label img' = bound
    /\ SingleImage.timestamp img' = now.
Proof.
  intros Hf Hnd Hb Hc Hrgb Hnone Hi Hax Hne.
  assert (Hmap : SingleImage.color_map img = color_map self).
  { apply (proj1 (Forall_forall _ _) Hf). by eapply list_elem_of_lookup_2. }
  assert (Hneb : (bound =? SingleImage.label img)%string = false)
    by (apply String.eqb_neq; congruence).
  destruct (onclick_loop_raises w now self event bound c img (images self) i
              Hb Hc Hrgb Hnd Hi Hax Hmap Hneb Hnone)
    as (r & img' & Hloop & Hr & Hl & Ht).
  unfold onclick. rewrite bool_decide_eq_true_2 by (apply elem_of_dom; eauto).
  rewrite Hloop. eexists _, img'. split; [reflexivity|]. done.
Qed.

(** X13: two clicks of the same button on the same tile.  A tile that had
    the label of the button has it again, and a tile that had another label,
    or none, is left without a label; the timestamp is the time of the second
    click. *)
Theorem double_click w now1 now2 self event bound i img :
  constructed_maps self ->
  NoDup (map SingleImage.ax (images self)) ->
  click_map self !! button event = Some bound ->
  images self !! i = Some img ->
  inaxes event = Some (SingleImage.ax img) ->
  let self1 := state_of (onclick w now1 self event) in
  let self2 := state_of (onclick w now2 self1 event) in
  exists img2,
    images self2 !! i = Some img2
    /\ SingleImage.label img2
       = (if String.eqb bound (SingleImage.label img)
          then SingleImage.label img else "None")
    /\ SingleImage.timestamp img2 = now2
    /\ SingleImage.path img2 = SingleImage.path img.
Proof.
  intros Hm Hnd Hb Hi Hax self1 self2.
  pose proof (step_invariant {| self := self; world := w |} (Click now1 event)
                (conj Hm Hnd)) as [Hm1 Hnd1].
  simpl in Hm1, Hnd1. fold self1 in Hm1, Hnd1.
  pose proof (onclick_effect w now1 self event Hm Hnd) as H1.
  pose proof (onclick_effect w now2 self1 event Hm1 Hnd1) as H2.
  fold self1 in H1. fold self2 in H2.
  destruct (Forall2_lookup_l _ _ _ _ _ H1 Hi) as (img1 & Hi1 & E1).
  destruct (Forall2_lookup_l _ _ _ _ _ H2 Hi1) as (img2 & Hi2 & E2).
  exists img2. split; [done|].
  unfold click_effect in E1, E2.
  destruct (onclick_frame w now1 self event) as (_ & _ & _ & _ & Hc & _).
  fold self1 in Hc. rewrite Hc in E2. rewrite Hb in E1, E2.
  rewrite bool_decide_eq_true_2 in E1 by done.
  destruct E1 as (Hl1 & Ht1 & Hp1 & Ha1).
  rewrite bool_decide_eq_true_2 in E2 by congruence.
  destruct E2 as (Hl2 & Ht2 & Hp2 & Ha2).
  split; [|split; [done | congruence]].
  rewrite Hl2, Hl1.
  destruct (bound =? SingleImage.label img)%string eqn:E.
  - apply String.eqb_eq in E. subst bound.
    by destruct (SingleImage.label img =? "None")%string eqn:E'; 
      [apply String.eqb_eq in E'|].
  - by rewrite String.eqb_refl.
Qed.

(** ** Page turns *)

Lemma store_page_returns w self self1 w1 :
  store_page w self = Returns (self1, w1) ->
  images self <> [] ->
  image_paths self1
  = slice_from (num self) (image_paths self)
    ++ slice_to (num self) (image_paths self)
  /\ num self1 = num self.
Proof.
  unfold store_page. intros H Himg.
  destruct (images self) as [|i imgs] eqn:E; [done|].
  simpl Nat.ltb in H. cbv iota in H. rewrite <- E in H.
  destruct (store_labels (images self) (result self)) as [df|e df]; [|done].
  destruct (write_file w _ _) as [w'|e]; [|done].
  by injection H as <- <-.
Qed.

(** X14: when the sequence has no path twice and holds at least two pages,
    the page after a page turn is made of the [num] paths that followed the
    page that was shown, and has no image in common with it. *)
Theorem next_page_disjoint w self self1 w1 :
  store_page w self = Returns (self1, w1) ->
  images self <> [] ->
  0 <= num self ->
  2 * num self <= Z.of_nat (length (image_paths self)) ->
  NoDup (image_paths self) ->
  slice_to (num self1) (image_paths self1)
  = take (Z.to_nat (num self)) (drop (Z.to_nat (num self)) (image_paths self))
  /\ forall x, x ∈ slice_to (num self1) (image_paths self1) ->
               x ∉ slice_to (num self) (image_paths self).
Proof.
  intros Hst Himg H0 H2 Hnd.
  destruct (store_page_returns _ _ _ _ Hst Himg) as [Hp Hn].
  rewrite Hn, Hp. unfold slice_to, slice_from, slice_bound.
  destruct (num self <? 0) eqn:E; [lia|]. clear E.
  set (n := Z.to_nat (num self)). set (l := image_paths self) in *.
  assert (Hlen : (2 * n <= length l)%nat) by lia.
  assert (E1 : (n `min` length l)%nat = n) by lia. rewrite !E1.
  rewrite length_app, length_drop, length_take, E1.
  assert (E2 : (n `min` (length l - n + n))%nat = n) by lia. rewrite E2.
  rewrite take_app_le by (rewrite length_drop; lia).
  split; [done|]. intros x Hx Hx'.
  rewrite <- (take_drop n l) in Hnd. apply NoDup_app in Hnd as (_ & Hdis & _).
  apply (Hdis x Hx'). by apply (subseteq_take n (drop n l)).
Qed.

(** X15: when the grid has room for all the images, the page is the whole
    sequence and a page turn leaves the sequence as it is. *)
Theorem full_page_keeps_sequence w now self :
  Z.of_nat (length (image_paths self)) <= num self ->
  slice_to (num self) (image_paths self) = image_paths self
  /\ image_paths (state_of (labelling_grid w now self)).1 = image_paths self.
Proof.
  intros Hn.
  assert (Hb : slice_bound (num self) (length (image_paths self))
               = length (image_paths self)).
  { unfold slice_bound. destruct (num self <? 0) eqn:E; lia. }
  assert (Hto : slice_to (num self) (image_paths self) = image_paths self).
  { unfold slice_to. rewrite Hb. apply firstn_all. }
  assert (Hfrom : slice_from (num self) (image_paths self) = []).
  { unfold slice_from. rewrite Hb. apply drop_all. }
  split; [done|]. rewrite labelling_grid_unfold. unfold store_page.
  destruct (0 <? length (images self))%nat.
  - destruct (store_labels (images self) (result self)) as [df|e df];
      simpl; [|done].
    destruct (write_file w _ _) as [w'|e]; simpl; [|done].
    match goal with
    | |- context [new_page ?w' ?n ?x] =>
        destruct (new_page_frame w' n x) as (-> & _)
    end.
    simpl. by rewrite Hfrom, Hto.
  - simpl. by destruct (new_page_frame w now self) as (-> & _).
Qed.

(** ** Labels of another session *)

Lemma loc_unpack_unique df key v :
  NoDup (index df) ->
  (key, v) ∈ df_rows df ->
  loc_unpack df key = v.
Proof.
  intros Hnd Hin. unfold loc_unpack.
  pose proof (rows_of_unique (df_rows df) key Hnd) as Hlen.
  assert (Hf : (key, v) ∈ filter (fun r : string * list string => r.1 = key)
                 (df_rows df)) by (by apply list_elem_of_filter).
  destruct (filter (fun r : string * list string => r.1 = key) (df_rows df))
    as [|x [|y l]]; simpl in Hlen; [by apply elem_of_nil in Hf| |lia].
  apply list_elem_of_singleton in Hf. by subst x.
Qed.

Lemma SingleImage_init_unknown w now f props n l ts :
  f ∈ index (result props) ->
  loc_unpack (result props) f = [l; ts] ->
  color_map props !! l = None ->
  SingleImage__init__ w now f props n = Err (KeyError l).
Proof.
  intros Hin Hu Hc. unfold SingleImage__init__.
  apply mem_spec in Hin. rewrite Hin, Hu. simpl.
  unfold SingleImage.update. simpl. by rewrite Hc.
Qed.

Lemma new_tiles_unknown w now f l ts paths : forall self idx,
  f ∈ paths ->
  f ∈ index (result self) ->
  loc_unpack (result self) f = [l; ts] ->
  color_map self !! l = None ->
  exists e s, new_tiles w now self idx paths = Raises e s.
Proof.
  induction paths as [|g paths IH]; intros self idx Hf Hin Hu Hc;
    [by apply elem_of_nil in Hf|].
  simpl.
  destruct (add_subplot (rows self) (columns self) (idx + 1)) as [ax|e];
    [|eauto].
  destruct (SingleImage__init__ w now g self ax) as [img|e] eqn:E; [|eauto].
  apply elem_of_cons in Hf as [->|Hf].
  - by rewrite (SingleImage_init_unknown w now g self _ l ts) in E.
  - by apply IH.
Qed.

(** X16: a table that holds a label for which the object has no colour
    (a label of a session with other label options) cannot be shown: when
    the page has an image with such a label, [labelling_grid] raises while
    it makes the grid; and the tile of that image raises [KeyError] with the
    label. *)
Theorem unknown_label_raises w now self f l ts :
  f ∈ slice_to (num self) (image_paths self) ->
  NoDup (index (result self)) ->
  (f, [l; ts]) ∈ df_rows (result self) ->
  color_map self !! l = None ->
  (forall n, SingleImage__init__ w now f self n = Err (KeyError l))
  /\ exists e s, new_page w now self = Raises e s.
Proof.
  intros Hf Hnd Hrow Hc.
  assert (Hin : f ∈ index (result self)) by (apply elem_of_index; eauto).
  pose proof (loc_unpack_unique _ _ _ Hnd Hrow) as Hu.
  split; [intros n; by apply (SingleImage_init_unknown w now f self n l ts)|].
  unfold new_page. by apply (new_tiles_unknown w now f l ts).
Qed.

(** ** A string for the two labels *)

(** X17: a [str] passes the checks on the label options exactly when it has
    two characters; the constructor then binds the left button to the first
    character and the right button to the second. *)
Theorem two_character_labels w d p s co r c fs name :
  (check_pair (PyStr s, name) = Ok tt <-> String.length s = 2%nat)
  /\ forall self,
       __init__ w d p (PyStr s) co r c fs = Ok self ->
       exists a b,
         s = String a (String b "")
         /\ click_map self !! 1 = Some (String a "")
         /\ click_map self !! 3 = Some (String b "").
Proof.
  split.
  - rewrite check_pair_spec. unfold two_strs. simpl. split.
    + intros (a & b & H). destruct s as [|c0 [|c1 [|c2 s]]]; by simplify_eq/=.
    + destruct s as [|c0 [|c1 [|c2 s]]]; intros [=]. simpl. eauto.
  - intros self H. unfold __init__ in H.
    destruct (check_arguments d p (PyStr s) co r c fs) as [[]|e] eqn:Hchk;
      [|done].
    apply check_arguments_spec in Hchk as (_ & _ & (a & b & Hlo) & _).
    simpl in Hlo. destruct s as [|c0 [|c1 [|c2 s]]]; simplify_eq/=.
    destruct (result_table w (str_of p)) as [df|e]; [|done]. simpl in H.
    destruct (get_image_paths w df (str_of d)) as [paths|e]; [|done].
    simpl in H. injection H as <-. simpl.
    exists c0, c1. split; [done|]. unfold dict. simpl.
    rewrite lookup_insert_ne by done. by rewrite !lookup_insert_eq.
Qed.

(** ** The order of the images of a new session *)





(** ** A label that was stored is the label that is shown *)

(** X19: after the labels of a grid were written into the table, a tile
    that is made for the path of one of its tiles shows the label and the
    timestamp that this tile had. *)
Theorem stored_tile_shown w now self df img props n tile :
  table_ok (result self) ->
  NoDup (map SingleImage.path (images self)) ->
  img ∈ images self ->
  store_labels (images self) (result self) = Returns df ->
  result props = df ->
  SingleImage__init__ w now (SingleImage.path img) props n = Ok tile ->
  SingleImage.label tile = SingleImage.label img
  /\ SingleImage.timestamp tile
     = (if String.eqb (SingleImage.timestamp img) "None" then now
        else SingleImage.timestamp img).
Proof.
  intros Hok Hnd Hin Hst Hres Hinit.
  destruct (store_labels_table_ok (images self) _ Hok) as (df' & Hst' & Hdf).
  rewrite Hst in Hst'. injection Hst' as <-.
  destruct Hok as (_ & Hc & _).
  destruct (store_labels_spec (images self) (result self))
    as (df' & Hst' & _ & _ & _ & _ & Hw); [by rewrite Hc|].
  rewrite Hst in Hst'. injection Hst' as <-.
  specialize (Hw (SingleImage.path img)).
  rewrite (written_NoDup _ _ Hnd Hin) in Hw. destruct Hw as [Hkey Hrows].
  destruct (proj1 (elem_of_index _ _) Hkey) as ([k v] & Hr & Hk).
  simpl in Hk. subst k. pose proof (Hrows _ Hr eq_refl) as Hv. simpl in Hv.
  subst v.
  destruct Hdf as (_ & _ & _ & Hndf).
  pose proof (loc_unpack_unique _ _ _ Hndf Hr) as Hu.
  destruct (SingleImage_init_spec _ _ _ _ _ _ Hinit) as (Hp & _ & Hfresh).
  destruct Hfresh as (_ & _ & _ & Hshow).
  rewrite Hp, Hres in Hshow. by apply Hshow.
Qed.

(** ** A session that never raises *)

Lemma store_labels_rows imgs : forall df df',
  store_labels imgs df = Returns df' ->
  forall r, r ∈ df_rows df' ->
    r ∈ df_rows df
    \/ exists img, img ∈ imgs
         /\ r = (SingleImage.path img,
                 [SingleImage.label img; SingleImage.timestamp img]).
Proof.
  induction imgs as [|i imgs IH]; intros df df' H r Hr; simpl in H.
  - injection H as <-. by left.
  - destruct (loc_set df _ _) as [df1|e] eqn:E; [|done].
    destruct (IH df1 df' H r Hr) as [Hr1|(img & Himg & ->)].
    + destruct (loc_set_rows _ _ _ _ E r Hr1) as [?| ->]; [by left|].
      right. exists i. split; [left | done].
    + right. exists img. split; [by right | done].
Qed.

Lemma constructed_color_of_None self :
  constructed_maps self -> color_map self !! "None" = Some None.
Proof.
  intros (l0 & l1 & c0 & c1 & _ & ->). apply lookup_insert_eq.
Qed.

Lemma update_returns w now img l ts m :
  SingleImage.color_map img = m ->
  is_Some (m !! l) ->
  (forall c, m !! l = Some (Some c) -> to_rgb w c = true) ->
  (m !! l = Some None -> l = "None") ->
  exists img', SingleImage.update w now img l ts = Returns img'.
Proof.
  intros Hm [ov Hov] Hres Hnone. unfold SingleImage.update. simpl.
  rewrite Hm, Hov. destruct (negb (l =? "None")%string) eqn:E; [|eauto].
  destruct ov as [c|].
  - rewrite (Hres c Hov). eauto.
  - rewrite (Hnone Hov) in E. done.
Qed.

Lemma SingleImage_init_ok w now f props n :
  constructed_maps props ->
  resolvable_colors w props ->
  table_ok (result props) ->
  (forall r, r ∈ df_rows (result props) ->
             is_Some (color_map props !! cell 0 r.2)) ->
  exists img, SingleImage__init__ w now f props n = Ok img.
Proof.
  intros Hm Hres (_ & _ & Hw & Hnd) Hknown. unfold SingleImage__init__.
  set (img0 := {| SingleImage.path := f; SingleImage.ax := n;
                  SingleImage.color_map := _ |}).
  assert (Hupd : forall l ts, is_Some (color_map props !! l) ->
            exists img', SingleImage.update w now img0 l ts = Returns img').
  { intros l ts Hl. apply (update_returns w now img0 l ts (color_map props));
      [done | done | intros c Hc; by apply (Hres l) |].
    apply constructed_color_None, Hm. }
  destruct (mem f (index (result props))) eqn:Hmem.
  - apply mem_spec, elem_of_index in Hmem as ([k v] & Hr & Hk).
    simpl in Hk. subst k.
    pose proof (proj1 (Forall_forall _ _) Hw _ Hr) as Hlen. simpl in Hlen.
    destruct v as [|l [|ts [|x v]]]; try done.
    rewrite (loc_unpack_unique _ _ _ Hnd Hr). simpl.
    destruct (Hupd l ts) as [img' ->]; [apply (Hknown _ Hr)|]. simpl. eauto.
  - simpl.
    destruct (Hupd "None" "None") as [img' ->];
      [rewrite (constructed_color_of_None _ Hm); eauto|].
    simpl. eauto.
Qed.

Lemma add_subplot_returns nrows ncols position :
  0 < nrows -> 0 < ncols -> (1 <= position)%nat ->
  Z.of_nat position <= nrows * ncols ->
  add_subplot nrows ncols position = Ok position.
Proof.
  intros Hr Hc Hp Hn. unfold add_subplot.
  rewrite (proj2 (Z.ltb_lt _ _) Hr), (proj2 (Z.ltb_lt _ _) Hc).
  rewrite (proj2 (Nat.leb_le _ _) Hp), (proj2 (Z.leb_le _ _) Hn). done.
Qed.

Lemma new_tiles_returns w now paths : forall self idx,
  constructed_maps self ->
  resolvable_colors w self ->
  table_ok (result self) ->
  (forall r, r ∈ df_rows (result self) ->
             is_Some (color_map self !! cell 0 r.2)) ->
  0 < rows self -> 0 < columns self ->
  Z.of_nat (idx + length paths) <= rows self * columns self ->
  exists s, new_tiles w now self idx paths = Returns s.
Proof.
  induction paths as [|f paths IH];
    intros self idx Hm Hres Hok Hk Hr Hc Hn; simpl; [eauto|].
  simpl in Hn.
  rewrite (add_subplot_returns (rows self) (columns self) (idx + 1))
    by (done || lia).
  destruct (SingleImage_init_ok w now f self (idx + 1) Hm Hres Hok Hk)
    as [img ->].
  apply IH; try done. simpl. lia.
Qed.

Lemma length_slice_to {A} (n : Z) (l : list A) :
  0 <= n -> Z.of_nat (length (slice_to n l)) <= n.
Proof.
  intros Hn. unfold slice_to, slice_bound.
  destruct (n <? 0) eqn:E; [lia|]. rewrite length_take. lia.
Qed.

Lemma labelling_grid_returns w now self :
  constructed_maps self ->
  resolvable_colors w self ->
  table_ok (result self) ->
  labels_known self ->
  0 < rows self -> 0 < columns self -> num self = rows self * columns self ->
  write_errors w !! result_path self = None ->
  exists self' w', labelling_grid w now self = Returns (self', w').
Proof.
  intros Hm Hres Hok [Hrows Himgs] Hr Hc Hnum Hwr.
  assert (Hlen : Z.of_nat (0 + length (slice_to (num self) (image_paths self)))
                 <= rows self * columns self).
  { rewrite <- Hnum. apply length_slice_to. nia. }
  unfold labelling_grid, store_page.
  destruct (0 <? length (images self))%nat.
  - destruct (store_labels_table_ok (images self) _ Hok) as (df & Hst & Hdf).
    rewrite Hst. unfold write_file. cbn [result_path set_result].
    rewrite Hwr. unfold new_page.
    match goal with
    | |- context [new_tiles ?w' now ?x 0 ?ps] =>
        destruct (new_tiles_returns w' now ps x 0) as [s ->]; try done
    end; [| |eauto].
    + simpl. intros r Hr'.
      destruct (store_labels_rows _ _ _ Hst r Hr') as [?|(img & Himg & ->)];
        [by apply Hrows|].
      simpl. by apply (proj1 (Forall_forall _ _) Himgs).
    + simpl. rewrite <- Hnum.
      apply (length_slice_to (num self)
               (slice_from (num self) (image_paths self)
                ++ slice_to (num self) (image_paths self))). nia.
  - unfold new_page.
    destruct (new_tiles_returns w now
                (slice_to (num (set_images self []))
                   (image_paths (set_images self [])))
                (set_images self []) 0) as [s ->]; try done.
    eauto.
Qed.

Lemma step_to_rgb s a : to_rgb (world (step s a)) = to_rgb (world s).
Proof.
  destruct a as [now|now event]; [|done]. simpl.
  rewrite labelling_grid_unfold. unfold store_page.
  destruct (0 <? length (images (self s)))%nat; [|done].
  destruct (store_labels (images (self s)) (result (self s))); [|done].
  unfold write_file. by destruct (write_errors (world s) !! _).
Qed.

Lemma step_write_errors s a :
  write_errors (world (step s a)) = write_errors (world s).
Proof.
  destruct a as [now|now event]; [|done]. simpl.
  rewrite labelling_grid_unfold. unfold store_page.
  destruct (0 <? length (images (self s)))%nat; [|done].
  destruct (store_labels (images (self s)) (result (self s))); [|done].
  unfold write_file. by destruct (write_errors (world s) !! _).
Qed.

Lemma new_tiles_grid w now paths : forall self idx,
  rows (state_of (new_tiles w now self idx paths)) = rows self
  /\ columns (state_of (new_tiles w now self idx paths)) = columns self.
Proof.
  induction paths as [|f paths IH]; intros self idx; simpl; [done|].
  destruct (add_subplot (rows self) (columns self) (idx + 1)) as [ax|e];
    [|done].
  destruct (SingleImage__init__ w now f self ax) as [img|e]; [|done].
  apply (IH (set_images self (images self ++ [img])) (S idx)).
Qed.

Lemma step_grid s a :
  rows (self (step s a)) = rows (self s)
  /\ columns (self (step s a)) = columns (self s).
Proof.
  destruct a as [now|now event]; simpl.
  - rewrite labelling_grid_unfold.
    assert (H : rows (state_of (store_page (world s) (self s))).1
                = rows (self s)
                /\ columns (state_of (store_page (world s) (self s))).1
                   = columns (self s)).
    { unfold store_page. destruct (0 <? length (images (self s)))%nat; [|done].
      destruct (store_labels (images (self s)) (result (self s))); [|done].
      by destruct (write_file (world s) _ _). }
    destruct (store_page (world s) (self s)) as [[self' w']|e [self' w']];
      simpl in *; [|done].
    unfold new_page.
    destruct (new_tiles_grid w' now
                (slice_to (num (set_images self' []))
                   (image_paths (set_images self' [])))
                (set_images self' []) 0) as [-> ->].
    done.
  - unfold onclick. case_bool_decide; [|done].
    by destruct (onclick_loop (world s) now (self s) event (images (self s))).
Qed.

Lemma fresh_tile_known now props img :
  constructed_maps props ->
  table_ok (result props) ->
  (forall r, r ∈ df_rows (result props) ->
             is_Some (color_map props !! cell 0 r.2)) ->
  fresh_tile now props img ->
  is_Some (color_map props !! SingleImage.label img).
Proof.
  intros Hm (_ & _ & Hw & Hnd) Hknown (_ & _ & Hnew & Hold).
  destruct (decide (SingleImage.path img ∈ index (result props))) as [Hin|Hin].
  - pose proof Hin as Hin'.
    apply elem_of_index in Hin' as ([k v] & Hr & Hk). simpl in Hk. subst k.
    pose proof (proj1 (Forall_forall _ _) Hw _ Hr) as Hlen. simpl in Hlen.
    destruct v as [|l [|ts [|x v]]]; try done.
    destruct (Hold l ts Hin (loc_unpack_unique _ _ _ Hnd Hr)) as [-> _].
    apply (Hknown _ Hr).
  - destruct (Hnew Hin) as [-> _].
    rewrite (constructed_color_of_None _ Hm). eauto.
Qed.

Lemma Forall2_transfer {A} (R : A -> A -> Prop) (P : A -> Prop) l k :
  Forall2 R l k -> Forall P l ->
  (forall x y, R x y -> P x -> P y) -> Forall P k.
Proof.
  intros H2 Hl Hstep. induction H2 as [|x y l k Hxy _ IH]; [constructor|].
  apply Forall_cons in Hl as [Hx Hl]. constructor; eauto.
Qed.

Lemma step_sound s a : sound_session s -> sound_session (step s a).
Proof.
  intros (Hinv & Hfol & Hres & Hok & Hrows & Himgs).
  pose proof Hinv as [Hm Hnd].
  destruct (step_config s a) as (Hc & Hk & _).
  split; [by apply step_invariant|]. split; [by apply step_tiles_follow|].
  split.
  { intros l c. rewrite Hk, step_to_rgb. apply Hres. }
  split; [by apply step_table_ok|].
  unfold labels_known. rewrite Hk. clear Hc Hk.
  destruct a as [now|now event]; simpl.
  - rewrite labelling_grid_unfold.
    assert (Hst :
      (exists self1 w1,
         store_page (world s) (self s) = Returns (self1, w1)
         /\ constructed_maps self1 /\ table_ok (result self1)
         /\ color_map self1 = color_map (self s)
         /\ forall r, r ∈ df_rows (result self1) ->
                      is_Some (color_map self1 !! cell 0 r.2))
      \/ (exists e self1 w1,
            store_page (world s) (self s) = Raises e (self1, w1)
            /\ images self1 = images (self s)
            /\ color_map self1 = color_map (self s)
            /\ forall r, r ∈ df_rows (result self1) ->
                         is_Some (color_map self1 !! cell 0 r.2))).
    { unfold store_page. destruct (0 <? length (images (self s)))%nat.
      - destruct (store_labels_table_ok (images (self s)) _ Hok)
          as (df & Hst & Hdf).
        rewrite Hst.
        assert (Hknown : forall r, r ∈ df_rows df ->
                  is_Some (color_map (self s) !! cell 0 r.2)).
        { intros r Hr.
          destruct (store_labels_rows _ _ _ Hst r Hr)
            as [?|(img & Himg & ->)]; [by apply Hrows|].
          simpl. by apply (proj1 (Forall_forall _ _) Himgs). }
        destruct (write_file (world s) _ _) as [w'|e].
        + left. eexists _, _. split; [reflexivity|]. done.
        + right. eexists _, _, _. split; [reflexivity|]. done.
      - left. eexists _, _. split; [reflexivity|]. done. }
    destruct Hst as [(self1 & w1 & -> & Hm1 & Hok1 & Hk1 & Hrows1)
                    |(e & self1 & w1 & -> & Hi1 & Hk1 & Hrows1)]; simpl.
    + destruct (new_page_frame w1 now self1) as (_ & Hr & _ & _ & _ & Hk').
      rewrite Hr. rewrite <- Hk1. split; [done|].
      eapply Forall_impl; [apply (new_page_fresh w1 now self1)|].
      intros img Hfresh. by apply (fresh_tile_known now self1).
    + rewrite <- Hk1. split; [done|]. by rewrite Hi1, Hk1.
  - destruct (onclick_frame (world s) now (self s) event) as (-> & _).
    split; [done|].
    pose proof (onclick_effect (world s) now (self s) event Hm Hnd) as Heff.
    eapply Forall2_transfer; [apply Heff | apply Himgs |].
    intros x y Hxy Hx. unfold click_effect in Hxy.
    destruct (click_map (self s) !! button event) as [bound|] eqn:Hb;
      [|by subst y].
    destruct (bool_decide _); [|by subst y].
    destruct Hxy as (-> & _).
    by destruct (constructed_recognized _ _ _ Hm Hb) as [_ Hcol].
Qed.

Lemma run_sound l : forall s, sound_session s -> sound_session (run s l).
Proof.
  induction l as [|a l IH]; intros s H; [done|].
  apply (IH (step s a)), step_sound, H.
Qed.

(** X20: a session that starts without a result file, with a result path
    that can be written, a grid of one row and one column at least, and two
    colours that resolve to RGB never raises: after any clicks and page
    turns, every click returns and every call of [labelling_grid]
    returns. *)
Theorem fresh_session_never_raises w d p lo co r c fs self0 l :
  __init__ w d p lo co r c fs = Ok self0 ->
  files w !! str_of p = None ->
  write_errors w !! str_of p = None ->
  0 < int_of r ->
  0 < int_of c ->
  resolvable_colors w self0 ->
  let s := run {| self := self0; world := w |} l in
  (forall now event,
     exists self', onclick (world s) now (self s) event = Returns self')
  /\ (forall now,
        exists self' w',
          labelling_grid (world s) now (self s) = Returns (self', w')).
Proof.
  intros Hinit Hfile Hwr Hrows Hcols Hres.
  destruct (init_invariant _ _ _ _ _ _ _ _ _ Hinit) as [Hinv Himg].
  assert (Hcfg : result self0 = empty_result
                 /\ rows self0 = int_of r /\ columns self0 = int_of c
                 /\ num self0 = int_of r * int_of c
                 /\ result_path self0 = str_of p).
  { unfold __init__ in Hinit.
    destruct (check_arguments d p lo co r c fs) as [[]|e]; [|done].
    simpl in Hinit. unfold result_table in Hinit. rewrite Hfile in Hinit.
    simpl in Hinit.
    destruct (get_image_paths w _ (str_of d)) as [paths|e]; [|done].
    simpl in Hinit. by injection Hinit as <-. }
  destruct Hcfg as (Hresult & Hr0 & Hc0 & Hn0 & Hp0).
  assert (H0 : sound_session {| self := self0; world := w |}).
  { split; [done|]. simpl. split; [unfold tiles_follow; rewrite Himg; constructor|].
    split; [done|]. unfold labels_known. simpl. rewrite Hresult.
    split; [repeat split; constructor|].
    split; [intros r0 Hr0'; by apply elem_of_nil in Hr0'|].
    rewrite Himg. constructor. }
  assert (Hgrid : forall s0 : Session,
    rows (self (run s0 l)) = rows (self s0)
    /\ columns (self (run s0 l)) = columns (self s0)
    /\ num (self (run s0 l)) = num (self s0)
    /\ result_path (self (run s0 l)) = result_path (self s0)
    /\ write_errors (world (run s0 l)) = write_errors (world s0)).
  { clear. induction l as [|a l IH]; intros s0; [done|].
    change (run s0 (a :: l)) with (run (step s0 a) l).
    destruct (IH (step s0 a)) as (-> & -> & -> & -> & ->).
    destruct (step_grid s0 a) as [-> ->].
    destruct (step_config s0 a) as (_ & _ & -> & -> & _).
    by rewrite step_write_errors. }
  destruct (Hgrid {| self := self0; world := w |}) as (Hr1 & Hc1 & Hn1 & Hp1 & Hw1).
  simpl in Hr1, Hc1, Hn1, Hp1, Hw1.
  pose proof (run_sound l _ H0) as (Hi & Hf & Hr & Hok & Hkn).
  destruct Hi as [Hm Hnd]. cbv zeta. split.
  - intros now event. unfold onclick. case_bool_decide as Hdom; [|eauto].
    apply elem_of_dom in Hdom.
    destruct (onclick_loop_returns _ now _ event _ Hm Hr Hdom Hf) as [x ->].
    eauto.
  - intros now. apply labelling_grid_returns; try done.
    + by rewrite Hr1, Hr0.
    + by rewrite Hc1, Hc0.
    + by rewrite Hr1, Hc1, Hn1, Hr0, Hc0.
    + by rewrite Hw1, Hp1, Hp0.
Qed.

(** ** A save that fails *)

(** X21: when the result path cannot be opened for writing, a call of
    [labelling_grid] with a grid on display, on a table of the two columns
    of the result table, raises the error of the write.  The labels of the
    grid are in the table of the object by then, under the paths of the
    tiles; nothing is written to the disk, the sequence is not rotated and
    the grid stays on display. *)
Theorem failed_save_keeps_page w now self e :
  images self <> [] ->
  length (df_columns (result self)) = 2%nat ->
  write_errors w !! result_path self = Some e ->
  exists df,
    store_labels (images self) (result self) = Returns df
    /\ labelling_grid w now self = Raises e (set_result self df, w)
    /\ (forall img, img ∈ images self -> SingleImage.path img ∈ index df)
    /\ (NoDup (map SingleImage.path (images self)) ->
        forall img r, img ∈ images self -> r ∈ df_rows df ->
          r.1 = SingleImage.path img ->
          r.2 = [SingleImage.label img; SingleImage.timestamp img])
    /\ let final := state_of (labelling_grid w now self) in
       final.2 = w
       /\ result final.1 = df
       /\ image_paths final.1 = image_paths self
       /\ images final.1 = images self.
Proof.
  intros Himg Hcols Hwr.
  destruct (store_labels_spec (images self) (result self) Hcols)
    as (df & Hst & _ & _ & _ & _ & Hw).
  exists df. split; [done|].
  assert (Hcall : labelling_grid w now self = Raises e (set_result self df, w)).
  { unfold labelling_grid, store_page.
    destruct (images self) as [|i l] eqn:E; [done|].
    simpl Nat.ltb. cbv iota. rewrite Hst. unfold write_file.
    cbn [result_path set_result]. by rewrite Hwr. }
  split; [done|]. split; [|split].
  - intros img Hin. specialize (Hw (SingleImage.path img)).
    destruct (written_Some (SingleImage.path img) (images self)) as [v Hv].
    { apply list_elem_of_In, in_map, list_elem_of_In, Hin. }
    rewrite Hv in Hw. tauto.
  - intros Hnd img r Hin Hr Hp. specialize (Hw (SingleImage.path img)).
    rewrite (written_NoDup _ _ Hnd Hin) in Hw.
    destruct Hw as [_ Hw]. by apply Hw.
  - rewrite Hcall. done.
Qed.

(** ** The further properties at the examples *)

Lemma constructed_resolvable w self l0 l1 c0 c1 :
  color_map self = <["None" := None]> (dict [(l0, Some c0); (l1, Some c1)]) ->
  to_rgb w c0 = true -> to_rgb w c1 = true ->
  resolvable_colors w self.
Proof.
  intros Hm H0 H1 l c. rewrite Hm. unfold dict. simpl.
  destruct (decide ("None" = l)) as [<-|Hn]; [by rewrite lookup_insert_eq|].
  rewrite lookup_insert_ne by done.
  destruct (decide (l1 = l)) as [<-|Hl1].
  { rewrite lookup_insert_eq. by intros [= <-]. }
  rewrite lookup_insert_ne by done.
  destruct (decide (l0 = l)) as [<-|Hl0].
  { rewrite lookup_insert_eq. by intros [= <-]. }
  by rewrite lookup_insert_ne, lookup_empty.
Qed.


Lemma get_image_paths_trailing_slash_witness :
  "data" <> ""
  /\ get_image_paths example_world empty_result "data/"
     = get_image_paths example_world empty_result "data".
Proof.
  assert (H : "data" <> "") by discriminate.
  split; [exact H|].
  exact (get_image_paths_trailing_slash example_world empty_result "data" H).
Defined.

Lemma get_image_paths_partition_witness :
  exists unlabelled,
    get_image_paths labelled_world labelled_table "data/"
    = Ok (unlabelled ++ index labelled_table)
    /\ unlabelled ++ index labelled_table
       ≡ₚ map (fun f => "data/" +:+ f) ["b.png"; "a.png"].
Proof.
  assert (H1 : last_char "data/" = Some "/"%char) by reflexivity.
  assert (H2 : dirs labelled_world !! "data/" = Some ["b.png"; "a.png"]).
  { vm_compute. reflexivity. }
  assert (H3 : NoDup ["b.png"; "a.png"]).
  { apply (bool_decide_unpack _). vm_compute. exact I. }
  assert (H4 : NoDup (index labelled_table)).
  { apply (bool_decide_unpack _). vm_compute. exact I. }
  assert (H5 : forall k, k ∈ index labelled_table ->
                 exists f, f ∈ ["b.png"; "a.png"] /\ k = "data/" +:+ f).
  { intros k Hk. apply list_elem_of_singleton in Hk. subst k.
    exists "a.png". split; [right; left | reflexivity]. }
  destruct (get_image_paths_partition labelled_world labelled_table "data/"
              ["b.png"; "a.png"] H1 H2 H3 H4 H5) as (unl & Ha & _ & _ & Hb).
  exists unl. split; [exact Ha | exact Hb].
Defined.

Lemma get_image_paths_complete_witness :
  exists paths,
    get_image_paths stale_world labelled_table "data" = Ok paths
    /\ NoDup paths
    /\ "data/b.png" ∈ paths /\ "data/a.png" ∈ paths.
Proof.
  assert (H1 : "data" <> "") by discriminate.
  assert (H2 : dirs stale_world !! with_slash "data" = Some ["b.png"]).
  { vm_compute. reflexivity. }
  assert (H3 : NoDup ["b.png"]).
  { apply (bool_decide_unpack _). vm_compute. exact I. }
  assert (H4 : NoDup (index labelled_table)).
  { apply (bool_decide_unpack _). vm_compute. exact I. }
  destruct (get_image_paths_complete stale_world labelled_table "data"
              ["b.png"] H1 H2 H3 H4) as (paths & Ha & Hb & Hc & Hd & _).
  exists paths. split; [exact Ha|]. split; [exact Hb|]. split.
  - apply (Hc "b.png"). left.
  - apply (Hd "data/a.png"). left.
Defined.

Lemma constructed_session_keeps_witness :
  __init__ example_world (PyStr "data") (PyStr "labels/df.csv")
    (PyList [PyStr "Cat meme"; PyStr "Dog meme"])
    (PyList [PyStr "red"; PyStr "blue"]) (PyInt 1) (PyInt 2) (PyInt 10)
  = Ok example_object
  /\ session_invariant (self example_clicked)
  /\ tiles_follow (self example_clicked).
Proof.
  assert (H : __init__ example_world (PyStr "data") (PyStr "labels/df.csv")
    (PyList [PyStr "Cat meme"; PyStr "Dog meme"])
    (PyList [PyStr "red"; PyStr "blue"]) (PyInt 1) (PyInt 2) (PyInt 10)
    = Ok example_object).
  { vm_compute. reflexivity. }
  split; [exact H|].
  destruct (constructed_session_keeps example_world _ _ _ _ _ _ _ _
              [Render "2020-01-01 00:00:00";
               Click "2020-01-01 00:00:05" left_click] H) as (Ha & Hb & _).
  split; [exact Ha | exact Hb].
Defined.

Lemma constructed_table_keeps_witness :
  __init__ example_world (PyStr "data") (PyStr "labels/df.csv")
    (PyList [PyStr "Cat meme"; PyStr "Dog meme"])
    (PyList [PyStr "red"; PyStr "blue"]) (PyInt 1) (PyInt 2) (PyInt 10)
  = Ok example_object
  /\ files example_world !! "labels/df.csv" = None
  /\ table_ok (result (self example_clicked)).
Proof.
  assert (H : __init__ example_world (PyStr "data") (PyStr "labels/df.csv")
    (PyList [PyStr "Cat meme"; PyStr "Dog meme"])
    (PyList [PyStr "red"; PyStr "blue"]) (PyInt 1) (PyInt 2) (PyInt 10)
    = Ok example_object).
  { vm_compute. reflexivity. }
  assert (H2 : files example_world !! str_of (PyStr "labels/df.csv") = None).
  { vm_compute. reflexivity. }
  split; [exact H|]. split; [exact H2|].
  exact (proj1 (constructed_table_keeps example_world _ _ _ _ _ _ _ _
                  [Render "2020-01-01 00:00:00";
                   Click "2020-01-01 00:00:05" left_click] H (or_introl H2))).
Defined.

Lemma example_clicked_table : result (self example_clicked) = empty_result.
Proof. vm_compute. reflexivity. Qed.

Lemma empty_result_ok : table_ok empty_result.
Proof. repeat split; constructor. Qed.

Lemma saved_table_reloads_witness :
  table_ok (result (self example_labelled))
  /\ images (self example_labelled) <> []
  /\ write_errors (world example_labelled)
       !! result_path (self example_labelled) = None
  /\ text_rows (df_rows (result (self example_labelled)))
  /\ text_tiles (images (self example_labelled))
  /\ exists self1 w1,
       store_page (world example_labelled) (self example_labelled)
       = Returns (self1, w1)
       /\ files w1 !! "labels/df.csv"
          = Some (Csv {| header := result_header;
                         body := map save_row (df_rows (result self1)) |})
       /\ result_table w1 "labels/df.csv" = Ok (reloaded (result self1)).
Proof.
  assert (H0 : result (self example_labelled) = empty_result).
  { vm_compute. reflexivity. }
  assert (H1 : table_ok (result (self example_labelled))).
  { rewrite H0. exact empty_result_ok. }
  assert (H2 : images (self example_labelled) <> []).
  { vm_compute. discriminate. }
  assert (H3 : write_errors (world example_labelled)
                 !! result_path (self example_labelled) = None).
  { vm_compute. reflexivity. }
  assert (H4 : text_rows (df_rows (result (self example_labelled)))).
  { rewrite H0. constructor. }
  assert (H5 : text_tiles (images (self example_labelled))).
  { unfold text_tiles. vm_compute. repeat constructor. }
  split; [exact H1|]. split; [exact H2|]. split; [exact H3|].
  split; [exact H4|]. split; [exact H5|].
  destruct (saved_table_reloads (world example_labelled)
              (self example_labelled) H1 H2 H3 H4 H5)
    as (self1 & w1 & Ha & _ & _ & Hb & Hc & _).
  exists self1, w1. split; [exact Ha|]. split; [exact Hb | exact Hc].
Defined.

Lemma example_grid_maps : constructed_maps (self example_grid).
Proof.
  exists "Cat meme", "Dog meme", "red", "blue". split; vm_compute; reflexivity.
Qed.

Lemma example_grid_images : images (self example_grid) = [tile_a; tile_b].
Proof. vm_compute. reflexivity. Qed.

Lemma example_grid_follow : tiles_follow (self example_grid).
Proof.
  unfold tiles_follow. rewrite example_grid_images.
  repeat constructor; vm_compute; reflexivity.
Qed.

Lemma example_grid_resolvable :
  resolvable_colors example_world (self example_grid).
Proof.
  apply (constructed_resolvable _ _ "Cat meme" "Dog meme" "red" "blue");
    vm_compute; reflexivity.
Qed.

Lemma onclick_returns_witness :
  constructed_maps (self example_grid)
  /\ tiles_follow (self example_grid)
  /\ resolvable_colors example_world (self example_grid)
  /\ exists self',
       onclick example_world "2020-01-01 00:00:05" (self example_grid)
         right_click = Returns self'.
Proof.
  split; [exact example_grid_maps|]. split; [exact example_grid_follow|].
  split; [exact example_grid_resolvable|].
  exact (onclick_returns example_world "2020-01-01 00:00:05"
           (self example_grid) right_click example_grid_maps
           example_grid_follow example_grid_resolvable).
Defined.

Lemma onclick_unresolved_colour_witness :
  exists self' img',
    onclick (world unresolved_grid) "2020-01-01 00:00:05" (self unresolved_grid)
      right_click
    = Raises (ValueError "Invalid RGBA argument") self'
    /\ images self' !! 1%nat = Some img'
    /\ SingleImage.label img' = "Dog meme".
Proof.
  assert (H1 : tiles_follow (self unresolved_grid)).
  { unfold tiles_follow. vm_compute. repeat constructor. }
  assert (H2 : NoDup (map SingleImage.ax (images (self unresolved_grid)))).
  { apply (bool_decide_unpack _). vm_compute. exact I. }
  assert (H3 : click_map (self unresolved_grid) !! button right_click
               = Some "Dog meme").
  { vm_compute. reflexivity. }
  assert (H4 : color_map (self unresolved_grid) !! "Dog meme"
               = Some (Some "not a colour")).
  { vm_compute. reflexivity. }
  assert (H5 : to_rgb (world unresolved_grid) "not a colour" = false).
  { vm_compute. reflexivity. }
  assert (H6 : "Dog meme" <> "None") by discriminate.
  destruct (images (self unresolved_grid) !! 1%nat) as [img|] eqn:H7;
    [|vm_compute in H7; discriminate].
  assert (H8 : inaxes right_click = Some (SingleImage.ax img)).
  { vm_compute in H7. injection H7 as <-. reflexivity. }
  assert (H9 : SingleImage.label img <> "Dog meme").
  { vm_compute in H7. injection H7 as <-. discriminate. }
  destruct (onclick_unresolved_colour (world unresolved_grid)
              "2020-01-01 00:00:05" (self unresolved_grid) right_click
              "Dog meme" "not a colour" 1 img H1 H2 H3 H4 H5 H6 H7 H8 H9)
    as (self' & img' & Ha & Hb & Hc & _).
  exists self', img'. split; [exact Ha|]. split; [exact Hb | exact Hc].
Defined.

Lemma double_click_witness :
  exists img2,
    images (state_of (onclick example_world "2020-01-01 00:00:06"
              (state_of (onclick example_world "2020-01-01 00:00:05"
                           (self example_grid) left_click)) left_click))
      !! 1%nat = Some img2
    /\ SingleImage.label img2 = "None"
    /\ SingleImage.timestamp img2 = "2020-01-01 00:00:06".
Proof.
  assert (H2 : NoDup (map SingleImage.ax (images (self example_grid)))).
  { apply (bool_decide_unpack _). vm_compute. exact I. }
  assert (H3 : click_map (self example_grid) !! button left_click
               = Some "Cat meme").
  { vm_compute. reflexivity. }
  assert (H4 : images (self example_grid) !! 1%nat = Some tile_b).
  { rewrite example_grid_images. reflexivity. }
  assert (H5 : inaxes left_click = Some (SingleImage.ax tile_b)) by reflexivity.
  destruct (double_click example_world "2020-01-01 00:00:05"
              "2020-01-01 00:00:06" (self example_grid) left_click
              "Cat meme" 1 tile_b example_grid_maps H2 H3 H4 H5)
    as (img2 & Ha & Hb & Hc & _).
  exists img2. split; [exact Ha|]. split; [exact Hb | exact Hc].
Defined.

Lemma next_page_disjoint_witness :
  slice_to 4 (image_paths (state_of (store_page (world four_grid)
                                       (self four_grid))).1)
  = ["data/4.png"; "data/5.png"; "data/6.png"; "data/7.png"].
Proof.
  assert (H1 : store_page (world four_grid) (self four_grid)
               = Returns ((state_of (store_page (world four_grid)
                                       (self four_grid))).1,
                          (state_of (store_page (world four_grid)
                                       (self four_grid))).2)).
  { vm_compute. reflexivity. }
  assert (H2 : images (self four_grid) <> []).
  { vm_compute. discriminate. }
  assert (H3 : 0 <= num (self four_grid)).
  { vm_compute. discriminate. }
  assert (H4 : 2 * num (self four_grid)
               <= Z.of_nat (length (image_paths (self four_grid)))).
  { vm_compute. discriminate. }
  assert (H5 : NoDup (image_paths (self four_grid))).
  { apply (bool_decide_unpack _). vm_compute. exact I. }
  exact (proj1 (next_page_disjoint (world four_grid) (self four_grid) _ _
                  H1 H2 H3 H4 H5)).
Defined.

Lemma full_page_keeps_sequence_witness :
  Z.of_nat (length (image_paths wide_object)) <= num wide_object
  /\ image_paths (state_of (labelling_grid example_world "2020-01-01 00:00:00"
                              wide_object)).1
     = image_paths wide_object.
Proof.
  assert (H : Z.of_nat (length (image_paths wide_object)) <= num wide_object).
  { vm_compute. discriminate. }
  split; [exact H|].
  exact (proj2 (full_page_keeps_sequence example_world "2020-01-01 00:00:00"
                  wide_object H)).
Defined.

Lemma unknown_label_raises_witness :
  color_map other_labels_object !! "Cat meme" = None
  /\ exists e s,
       new_page labelled_world "2020-01-01 00:00:00" other_labels_object
       = Raises e s.
Proof.
  assert (H1 : "data/a.png" ∈ slice_to (num other_labels_object)
                                (image_paths other_labels_object)).
  { vm_compute. right. left. }
  assert (H2 : NoDup (index (result other_labels_object))).
  { apply (bool_decide_unpack _). vm_compute. exact I. }
  assert (H3 : ("data/a.png", ["Cat meme"; "2020-01-01 10:00:00"])
               ∈ df_rows (result other_labels_object)).
  { vm_compute. left. }
  assert (H4 : color_map other_labels_object !! "Cat meme" = None).
  { vm_compute. reflexivity. }
  split; [exact H4|].
  exact (proj2 (unknown_label_raises labelled_world "2020-01-01 00:00:00"
                  other_labels_object "data/a.png" "Cat meme"
                  "2020-01-01 10:00:00" H1 H2 H3 H4)).
Defined.

Lemma two_character_labels_witness :
  String.length "ab" = 2%nat
  /\ check_pair (PyStr "ab", "label_options") = Ok tt.
Proof.
  assert (H : String.length "ab" = 2%nat) by reflexivity.
  split; [exact H|].
  exact (proj2 (proj1 (two_character_labels example_world (PyStr "data")
                         (PyStr "labels/df.csv") "ab"
                         (PyList [PyStr "red"; PyStr "blue"])
                         (PyInt 1) (PyInt 2) (PyInt 10) "label_options")) H).
Defined.


Lemma stored_tile_shown_witness :
  exists tile,
    SingleImage__init__ example_world "2020-01-01 00:00:09" "data/b.png"
      (set_result (self example_clicked)
         (state_of (store_labels (images (self example_clicked))
                      (result (self example_clicked))))) 1
    = Ok tile
    /\ SingleImage.label tile = "Cat meme"
    /\ SingleImage.timestamp tile = "2020-01-01 00:00:05".
Proof.
  assert (Himgs : images (self example_clicked) = [tile_a; tile_b_clicked]).
  { vm_compute. reflexivity. }
  assert (H1 : table_ok (result (self example_clicked))).
  { rewrite example_clicked_table. exact empty_result_ok. }
  assert (H2 : NoDup (map SingleImage.path (images (self example_clicked)))).
  { apply (bool_decide_unpack _). vm_compute. exact I. }
  assert (H3 : tile_b_clicked ∈ images (self example_clicked)).
  { rewrite Himgs. right. left. }
  assert (H4 : store_labels (images (self example_clicked))
                 (result (self example_clicked))
               = Returns (state_of (store_labels (images (self example_clicked))
                                      (result (self example_clicked))))).
  { vm_compute. reflexivity. }
  destruct (SingleImage__init__ example_world "2020-01-01 00:00:09"
              (SingleImage.path tile_b_clicked)
              (set_result (self example_clicked)
                 (state_of (store_labels (images (self example_clicked))
                              (result (self example_clicked))))) 1)
    as [tile|e] eqn:H6; [|vm_compute in H6; discriminate].
  exists tile. split; [exact H6|].
  exact (stored_tile_shown example_world "2020-01-01 00:00:09"
           (self example_clicked) _ tile_b_clicked
           (set_result (self example_clicked)
              (state_of (store_labels (images (self example_clicked))
                           (result (self example_clicked))))) 1 tile
           H1 H2 H3 H4 eq_refl H6).
Defined.

Lemma fresh_session_never_raises_witness :
  exists self' w',
    labelling_grid (world example_clicked) "2020-01-01 00:00:09"
      (self example_clicked) = Returns (self', w').
Proof.
  assert (H1 : __init__ example_world (PyStr "data") (PyStr "labels/df.csv")
    (PyList [PyStr "Cat meme"; PyStr "Dog meme"])
    (PyList [PyStr "red"; PyStr "blue"]) (PyInt 1) (PyInt 2) (PyInt 10)
    = Ok example_object).
  { vm_compute. reflexivity. }
  assert (H2 : files example_world !! str_of (PyStr "labels/df.csv") = None).
  { vm_compute. reflexivity. }
  assert (H3 : write_errors example_world !! str_of (PyStr "labels/df.csv")
               = None).
  { vm_compute. reflexivity. }
  assert (H4 : 0 < int_of (PyInt 1)) by reflexivity.
  assert (H5 : 0 < int_of (PyInt 2)) by reflexivity.
  assert (H6 : resolvable_colors example_world example_object).
  { apply (constructed_resolvable _ _ "Cat meme" "Dog meme" "red" "blue");
      vm_compute; reflexivity. }
  exact (proj2 (fresh_session_never_raises example_world _ _ _ _ _ _ _ _
                  [Render "2020-01-01 00:00:00";
                   Click "2020-01-01 00:00:05" left_click] H1 H2 H3 H4 H5 H6)
           "2020-01-01 00:00:09").
Defined.

Lemma new_page_tiles_witness :
  map SingleImage.path (images (self example_grid))
  = slice_to (num example_object) (image_paths example_object).
Proof.
  assert (H : new_page example_world "2020-01-01 00:00:00" example_object
              = Returns (self example_grid)).
  { vm_compute. reflexivity. }
  exact (proj2 (proj2 (proj2 (new_page_tiles example_world
                  "2020-01-01 00:00:00" example_object))) _ H).
Defined.

Lemma failed_save_keeps_page_witness :
  exists df,
    labelling_grid (world fresh_grid) "2020-01-01 00:00:09" (self fresh_grid)
    = Raises (OSError "Cannot save file into a non-existent directory: 'labels'")
             (set_result (self fresh_grid) df, world fresh_grid)
    /\ index df = ["data/a.png"; "data/b.png"]
    /\ files (world fresh_grid) !! "labels/df.csv" = None.
Proof.
  assert (H1 : images (self fresh_grid) <> []).
  { vm_compute. discriminate. }
  assert (H2 : length (df_columns (result (self fresh_grid))) = 2%nat).
  { vm_compute. reflexivity. }
  assert (H3 : write_errors (world fresh_grid) !! result_path (self fresh_grid)
               = Some (OSError
                   "Cannot save file into a non-existent directory: 'labels'")).
  { vm_compute. reflexivity. }
  destruct (failed_save_keeps_page (world fresh_grid) "2020-01-01 00:00:09"
              (self fresh_grid) _ H1 H2 H3) as (df & Hst & Ha & _).
  exists df. split; [exact Ha|]. split; [|vm_compute; reflexivity].
  vm_compute in Hst. injection Hst as <-. reflexivity.
Defined.
